(** * SPUD game state: snapshot / restore engine

    A shallow embedding of [Source/SPUD/Private/SpudGameState.cpp]
    (class [USpudGameState]) and the properties of its snapshot and
    restore operations.

    Conventions of the embedding.
    - Engine objects reached through pointers are values that are passed
      in and returned: a function that mutates [AActor* Actor] returns the
      new actor, one that mutates [FSpudLevelData*] returns the new level
      data.
    - [TMap] is stdpp's [gmap]; [TArray] is [list].
    - [UE_LOG] appends to a log that every effectful function returns
      (monad [Logged]).
    - Raw memory written by [WriteRaw] is a [list byte]; floating point
      values are carried as their four bytes and never computed on.
    - The helpers of [SpudPropertyUtil] and the containers of [SpudData]
      are declared in other files of the repository; where they are not
      parameters of the host ([Host]) they are modelled from the
      specification and marked so. *)

From Stdlib Require Import ZArith NArith String Ascii List Bool Lia.
From Stdlib Require Import DecimalString.
From Stdlib.Strings Require Import Byte.
From stdpp Require Import base option list gmap strings fin_maps.

Open Scope string_scope.
Open Scope list_scope.

(* ===================================================================== *)
(** ** Engine data the file relies on *)
(* ===================================================================== *)

(** [EObjectFlags] bits tested by the file. *)
Definition RF_ClassDefaultObject : Z := 0x10.
Definition RF_ArchetypeObject : Z := 0x20.
Definition RF_BeginDestroyed : Z := 0x8000.

(** [UObject::HasAnyFlags]: [(GetFlags() & FlagsToCheck) != 0]. *)
Definition HasAnyFlags (ObjectFlags FlagsToCheck : Z) : bool :=
  negb (Z.land ObjectFlags FlagsToCheck =? 0)%Z.

(** The mask all four entry points test before doing anything. *)
Definition RF_Skipped : Z :=
  Z.lor RF_ClassDefaultObject (Z.lor RF_ArchetypeObject RF_BeginDestroyed).

(** [FGuid]: four 32-bit words.  [IsValid] is [(A | B | C | D) != 0]. *)
Abbreviation FGuid := (N * N * N * N)%type.

Definition GuidIsValid (g : FGuid) : bool :=
  let '(a, b, c, d) := g in
  negb (N.lor a (N.lor b (N.lor c d)) =? 0)%N.

Definition InvalidGuid : FGuid := (0, 0, 0, 0)%N.

(** A 32-bit float, kept as the four bytes [WriteRaw] copies. *)
Abbreviation Raw32 := (byte * byte * byte * byte)%type.

Definition Zero32 : Raw32 := (x00, x00, x00, x00).
(** 1.0f is 0x3F800000, little endian. *)
Definition One32 : Raw32 := (x00, x00, x80, x3f).

Record FVector := MkVector { VX : Raw32; VY : Raw32; VZ : Raw32 }.
Record FQuat := MkQuat { QX : Raw32; QY : Raw32; QZ : Raw32; QW : Raw32 }.
Record FTransform :=
  MkTransform { Rotation : FQuat; Translation : FVector; Scale3D : FVector }.

Definition ZeroVector : FVector := MkVector Zero32 Zero32 Zero32.
Definition OneVector : FVector := MkVector One32 One32 One32.
(** What [FTransform]'s default constructor builds. *)
Definition IdentityTransform : FTransform :=
  MkTransform (MkQuat Zero32 Zero32 Zero32 One32) ZeroVector OneVector.

Inductive EComponentMobility := Static | Stationary | Movable.

(** The root component, as far as the core data looks at it.
    [bIsPrimitive] is whether [Cast<UPrimitiveComponent>] succeeds. *)
Record USceneComponent := MkComponent {
  Mobility : EComponentMobility;
  bSimulatingPhysics : bool;
  bIsPrimitive : bool;
  LinearVelocity : FVector;
  AngularVelocityInDegrees : FVector
}.

(** Engine classes the respawn policy asks about, with the engine's
    inheritance between them. *)
Inductive EngineClass :=
| AActorClass | AInfoClass | AGameModeBaseClass | AGameStateBaseClass
| AControllerClass | APawnClass | ACharacterClass.

Definition SuperClass (c : EngineClass) : option EngineClass :=
  match c with
  | AActorClass => None
  | AInfoClass => Some AActorClass
  | AGameModeBaseClass => Some AInfoClass
  | AGameStateBaseClass => Some AInfoClass
  | AControllerClass => Some AActorClass
  | APawnClass => Some AActorClass
  | ACharacterClass => Some APawnClass
  end.

Definition EngineClass_eqb (a b : EngineClass) : bool :=
  match a, b with
  | AActorClass, AActorClass | AInfoClass, AInfoClass
  | AGameModeBaseClass, AGameModeBaseClass
  | AGameStateBaseClass, AGameStateBaseClass
  | AControllerClass, AControllerClass
  | APawnClass, APawnClass | ACharacterClass, ACharacterClass => true
  | _, _ => false
  end.

(** [UClass::IsChildOf]: walk the super chain (at most three links here). *)
Fixpoint IsChildOf (fuel : nat) (c target : EngineClass) : bool :=
  EngineClass_eqb c target ||
  match fuel, SuperClass c with
  | S f, Some s => IsChildOf f s target
  | _, _ => false
  end.

(** [ESpudRespawnMode], declared in ISpudObject.h. *)
Inductive ESpudRespawnMode := Default | AlwaysRespawn | NeverRespawn.

(* ===================================================================== *)
(** ** Reflected properties of a live object *)
(* ===================================================================== *)

(** The storage kinds of leaf properties.  All have a fixed size; the
    value of a leaf is the raw memory of the property. *)
Inductive PropKind := KBool | KByte | KInt | KInt64 | KFloat | KVector.

Inductive PropValue :=
| VBool (b : bool)
| VByte (b : byte)
| VInt (w : Raw32)
| VInt64 (lo hi : Raw32)
| VFloat (w : Raw32)
| VVector (v : FVector).

Definition KindOf (v : PropValue) : PropKind :=
  match v with
  | VBool _ => KBool | VByte _ => KByte | VInt _ => KInt
  | VInt64 _ _ => KInt64 | VFloat _ => KFloat | VVector _ => KVector
  end.

Definition PropKind_eqb (a b : PropKind) : bool :=
  match a, b with
  | KBool, KBool | KByte, KByte | KInt, KInt | KInt64, KInt64
  | KFloat, KFloat | KVector, KVector => true
  | _, _ => false
  end.

(** A persistable property as the reflection hands it to the visitor,
    together with the memory it designates in the object:
    a leaf with its value, a custom struct with its members, or a
    property of an unsupported type (its memory is never touched). *)
#[warnings="-register-all"]
Inductive FProperty :=
| LeafProperty (Name : string) (Value : PropValue)
| StructProperty (Name : string) (Members : list FProperty)
| OtherProperty (Name : string) (Memory : list byte).

Definition PropertyName (p : FProperty) : string :=
  match p with
  | LeafProperty n _ | StructProperty n _ | OtherProperty n _ => n
  end.

(** [SpudPropertyUtil::IsCustomStructProperty]. *)
Definition IsCustomStructProperty (p : FProperty) : bool :=
  match p with StructProperty _ _ => true | _ => false end.

(* ===================================================================== *)
(** ** Actors and levels *)
(* ===================================================================== *)

Record AActor := MkActor {
  ActorName : string;                        (* GetFName / GetName *)
  ObjectFlags : Z;                           (* GetFlags *)
  OuterMostName : option string;             (* GetOutermost()->GetName() *)
  ClassPathName : string;                    (* GetClass()->GetPathName() *)
  NativeClass : EngineClass;                 (* nearest engine class *)
  SpudRespawnMode : option ESpudRespawnMode; (* Cast<ISpudObject>, then
                                                GetSpudRespawnMode *)
  bSpudObjectCallback : bool;                (* ImplementsInterface(
                                                USpudObjectCallback) *)
  SpudGuid : option FGuid;                   (* the SpudGuid property *)
  bHidden : bool;
  ActorTransform : FTransform;
  RootComponent : option USceneComponent;
  ActorProperties : list FProperty
}.

Definition ActorHasAnyFlags (a : AActor) (m : Z) : bool :=
  HasAnyFlags (ObjectFlags a) m.

(** [AActor::IsA] against one of the engine classes. *)
Definition IsA (a : AActor) (c : EngineClass) : bool :=
  IsChildOf 3 (NativeClass a) c.

Definition SetSpudGuid (a : AActor) (g : option FGuid) : AActor :=
  MkActor (ActorName a) (ObjectFlags a) (OuterMostName a) (ClassPathName a)
    (NativeClass a) (SpudRespawnMode a) (bSpudObjectCallback a) g
    (bHidden a) (ActorTransform a) (RootComponent a) (ActorProperties a).

(** [AActor::SetActorHiddenInGame]. *)
Definition SetActorHiddenInGame (a : AActor) (h : bool) : AActor :=
  MkActor (ActorName a) (ObjectFlags a) (OuterMostName a) (ClassPathName a)
    (NativeClass a) (SpudRespawnMode a) (bSpudObjectCallback a) (SpudGuid a)
    h (ActorTransform a) (RootComponent a) (ActorProperties a).

(** [AActor::SetActorTransform]. *)
Definition SetActorTransform (a : AActor) (t : FTransform) : AActor :=
  MkActor (ActorName a) (ObjectFlags a) (OuterMostName a) (ClassPathName a)
    (NativeClass a) (SpudRespawnMode a) (bSpudObjectCallback a) (SpudGuid a)
    (bHidden a) t (RootComponent a) (ActorProperties a).

Definition SetRootComponent (a : AActor) (r : option USceneComponent) : AActor :=
  MkActor (ActorName a) (ObjectFlags a) (OuterMostName a) (ClassPathName a)
    (NativeClass a) (SpudRespawnMode a) (bSpudObjectCallback a) (SpudGuid a)
    (bHidden a) (ActorTransform a) r (ActorProperties a).

Definition SetActorProperties (a : AActor) (ps : list FProperty) : AActor :=
  MkActor (ActorName a) (ObjectFlags a) (OuterMostName a) (ClassPathName a)
    (NativeClass a) (SpudRespawnMode a) (bSpudObjectCallback a) (SpudGuid a)
    (bHidden a) (ActorTransform a) (RootComponent a) ps.

(** [UPrimitiveComponent::SetPhysicsLinearVelocity] and
    [SetPhysicsAngularVelocityInDegrees]. *)
Definition SetPhysicsVelocities (c : USceneComponent) (v w : FVector)
  : USceneComponent :=
  MkComponent (Mobility c) (bSimulatingPhysics c) (bIsPrimitive c) v w.

Record ULevel := MkLevel {
  bLevelValid : bool;                   (* IsValid(Level) *)
  LevelOuterMost : option string;       (* GetOutermost()->GetName() *)
  Actors : list AActor
}.

Definition SetActors (l : ULevel) (acts : list AActor) : ULevel :=
  MkLevel (bLevelValid l) (LevelOuterMost l) acts.

(* ===================================================================== *)
(** ** Logging and the trace of engine calls *)
(* ===================================================================== *)

Inductive ELogVerbosity := LogError | LogWarning | LogVerbose.

(** The identity-lookup table of [RestoreLevel],
    [TMap<FGuid, UObject*> RuntimeObjectsByGuid]; an object pointer is
    represented by the name of the actor it points to. *)
Abbreviation RuntimeObjectMap := (gmap FGuid string).

(** What a run leaves behind: the lines written with [UE_LOG], and the
    calls that create, restore and remove actors (recorded so that their
    order can be stated).  [OutOfRangeAccess Index Num] records that the
    code dereferenced an iterator standing at [Index] in an array of
    [Num] elements, [Num <= Index]: an access outside the array, which
    the engine's range check stops where it is compiled in and which is
    undefined where it is not.  The source gives a run no behaviour
    after such an access; a trace that holds the event describes the
    run up to it and nothing after it. *)
Inductive Event :=
| UE_LOG (Verbosity : ELogVerbosity) (Format : string) (Args : list string)
| CallSpawnActor (Class : string) (Guid : FGuid) (Spawned : string)
| CallRestoreActor (Actor : string) (RuntimeObjects : option RuntimeObjectMap)
| CallDestroyActor (Actor : string)
| OutOfRangeAccess (Index Num : nat).

Definition Logged (A : Type) : Type := (A * list Event)%type.

(** The text [%d] gives a count. *)
Definition FormatInt (n : nat) : string :=
  NilEmpty.string_of_uint (Nat.to_uint n).

#[export] Instance Logged_ret : MRet Logged := λ A a, (a, []).
#[export] Instance Logged_bind : MBind Logged := λ A B k m,
  let '(a, l1) := m in let '(b, l2) := k a in (b, l1 ++ l2).

Definition emit (e : Event) : Logged unit := (tt, [e]).

(* ===================================================================== *)
(** ** Raw serialisation: [WriteRaw], [ReadRaw], [FMemoryReader] *)
(* ===================================================================== *)

(** A type that is written and read as a fixed number of bytes. *)
Class Raw (T : Type) := {
  RawSize : nat;
  ToRaw : T -> list byte;
  OfRaw : list byte -> T
}.

Abbreviation UInt16 := (byte * byte)%type.

Definition UInt16_to_Z (v : UInt16) : Z :=
  (Z.of_N (Byte.to_N (fst v)) + 256 * Z.of_N (Byte.to_N (snd v)))%Z.

#[export] Instance Raw_bool : Raw bool := {|
  RawSize := 1;
  ToRaw := λ b : bool, [if b then x01 else x00];
  OfRaw := λ bs : list byte, match bs with b :: _ => negb (Byte.eqb b x00) | [] => false end
|}.

#[export] Instance Raw_byte : Raw byte := {|
  RawSize := 1;
  ToRaw := λ b : byte, [b];
  OfRaw := λ bs : list byte, match bs with b :: _ => b | [] => x00 end
|}.

#[export] Instance Raw_UInt16 : Raw UInt16 := {|
  RawSize := 2;
  ToRaw := λ v : UInt16, [fst v; snd v];
  OfRaw := λ bs : list byte, match bs with a :: b :: _ => (a, b) | _ => (x00, x00) end
|}.

#[export] Instance Raw_Raw32 : Raw Raw32 := {|
  RawSize := 4;
  ToRaw := λ v : Raw32, let '(a, b, c, d) := v in [a; b; c; d];
  OfRaw := λ bs : list byte, match bs with a :: b :: c :: d :: _ => (a, b, c, d) | _ => Zero32 end
|}.

#[export] Instance Raw_FVector : Raw FVector := {|
  RawSize := 12;
  ToRaw := λ v : FVector, ToRaw (VX v) ++ ToRaw (VY v) ++ ToRaw (VZ v);
  OfRaw := λ bs : list byte, MkVector (OfRaw (take 4 bs)) (OfRaw (take 4 (drop 4 bs)))
                       (OfRaw (take 4 (drop 8 bs)))
|}.

#[export] Instance Raw_FQuat : Raw FQuat := {|
  RawSize := 16;
  ToRaw := λ q : FQuat, ToRaw (QX q) ++ ToRaw (QY q) ++ ToRaw (QZ q) ++ ToRaw (QW q);
  OfRaw := λ bs : list byte, MkQuat (OfRaw (take 4 bs)) (OfRaw (take 4 (drop 4 bs)))
                     (OfRaw (take 4 (drop 8 bs))) (OfRaw (take 4 (drop 12 bs)))
|}.

#[export] Instance Raw_FTransform : Raw FTransform := {|
  RawSize := 40;
  ToRaw := λ t : FTransform, ToRaw (Rotation t) ++ ToRaw (Translation t) ++ ToRaw (Scale3D t);
  OfRaw := λ bs : list byte, MkTransform (OfRaw (take 16 bs)) (OfRaw (take 12 (drop 16 bs)))
                          (OfRaw (take 12 (drop 28 bs)))
|}.

(** [FMemoryReader]: the bytes, the read position and the error flag. *)
Record FMemoryReader := MkReader {
  ReaderBytes : list byte;
  ReaderOffset : nat;
  ArIsError : bool
}.

(** [FMemoryReader::Serialize(Data, Num)]: copies only when [Num] bytes
    are left, otherwise raises the error flag and copies nothing; does
    nothing once the flag is up. *)
Definition Serialize (Num : nat) (Ar : FMemoryReader)
  : option (list byte) * FMemoryReader :=
  if negb (Num =? 0)%nat && negb (ArIsError Ar) then
    if (ReaderOffset Ar + Num <=? length (ReaderBytes Ar))%nat
    then (Some (take Num (drop (ReaderOffset Ar) (ReaderBytes Ar))),
          MkReader (ReaderBytes Ar) (ReaderOffset Ar + Num) (ArIsError Ar))
    else (None, MkReader (ReaderBytes Ar) (ReaderOffset Ar) true)
  else (None, Ar).

(** Modelled from the spec: [SpudPropertyUtil::ReadRaw] and [WriteRaw]
    (SpudPropertyUtil is not in this file) move the fixed-layout raw
    value through the archive.  [Dest] is what the destination variable
    holds before the call; a failed read leaves it as it was. *)
Definition ReadRaw {T} `{Raw T} (Dest : T) (Ar : FMemoryReader)
  : T * FMemoryReader :=
  match Serialize RawSize Ar with
  | (Some bs, Ar') => (OfRaw bs, Ar')
  | (None, Ar') => (Dest, Ar')
  end.

(** An [FMemoryWriter] over an emptied array is the list it has built. *)
Definition WriteRaw {T} `{Raw T} (v : T) (Out : list byte) : list byte :=
  Out ++ ToRaw v.

Definition ValueToRaw (v : PropValue) : list byte :=
  match v with
  | VBool b => ToRaw b
  | VByte b => ToRaw b
  | VInt w => ToRaw w
  | VInt64 lo hi => ToRaw lo ++ ToRaw hi
  | VFloat w => ToRaw w
  | VVector x => ToRaw x
  end.

(** Read a value of the kind the runtime property has now. *)
Definition ReadValue (Dest : PropValue) (Ar : FMemoryReader)
  : PropValue * FMemoryReader :=
  match Dest with
  | VBool b => let '(b', Ar') := ReadRaw b Ar in (VBool b', Ar')
  | VByte b => let '(b', Ar') := ReadRaw b Ar in (VByte b', Ar')
  | VInt w => let '(w', Ar') := ReadRaw w Ar in (VInt w', Ar')
  | VInt64 lo hi =>
      let '(lo', Ar1) := ReadRaw lo Ar in
      let '(hi', Ar2) := ReadRaw hi Ar1 in (VInt64 lo' hi', Ar2)
  | VFloat w => let '(w', Ar') := ReadRaw w Ar in (VFloat w', Ar')
  | VVector x => let '(x', Ar') := ReadRaw x Ar in (VVector x', Ar')
  end.

(* ===================================================================== *)
(** ** The metadata registry (SpudData) *)
(* ===================================================================== *)

(** Position of the first occurrence.  Names and prefixes are interned
    by position, so an ID handed out once stays valid when the table
    grows. *)
Fixpoint IndexOf {A} `{EqDecision A} (x : A) (l : list A) : option nat :=
  match l with
  | [] => None
  | y :: l' => if decide (y = x) then Some 0%nat else S <$> IndexOf x l'
  end.

Definition FindOrAdd {A} `{EqDecision A} (x : A) (l : list A) : nat * list A :=
  match IndexOf x l with
  | Some i => (i, l)
  | None => (length l, l ++ [x])
  end.

(** A prefix ID: the root ([SPUDDATA_PREFIXID_NONE]), a registered nested
    struct path, or the value the read-only lookup returns when the path
    was never registered. *)
Inductive PrefixID :=
| SPUDDATA_PREFIXID_NONE
| NestedPrefix (Index : nat)
| PrefixNotFound.

#[export] Instance PrefixID_eq_dec : EqDecision PrefixID.
Proof. solve_decision. Defined.

#[export] Instance PrefixID_countable : Countable PrefixID.
Proof.
  refine (inj_countable'
    (λ p, match p with
          | SPUDDATA_PREFIXID_NONE => inl ()
          | NestedPrefix i => inr (inl i)
          | PrefixNotFound => inr (inr ())
          end)
    (λ x, match x with
          | inl _ => SPUDDATA_PREFIXID_NONE
          | inr (inl i) => NestedPrefix i
          | inr (inr _) => PrefixNotFound
          end) _).
  by intros [].
Defined.

#[export] Instance PropKind_eq_dec : EqDecision PropKind.
Proof. solve_decision. Defined.

(** [FSpudPropertyDef]: one stored property of a class. *)
Record FSpudPropertyDef := MkPropertyDef {
  PropertyID : nat;
  DefPrefixID : PrefixID;
  DataType : PropKind
}.

(** [FSpudClassDef]: the properties of a class in the order in which they
    were first written. *)
Record FSpudClassDef := MkClassDef {
  ClassName : string;
  ClassProperties : list FSpudPropertyDef
}.

(** Modelled from the spec: [FSpudClassMetadata] (declared in SpudData)
    interns class names, property names and nested-struct prefix paths
    into small integers.  A class ID is the position of the class
    definition, a property ID the position of the name, a prefix ID the
    position of the path of struct property names leading to the
    struct. *)
Record FSpudClassMetadata := MkMetadata {
  ClassDefinitions : list FSpudClassDef;
  PropertyNameIndex : list string;
  PrefixIndex : list (list string)
}.

Definition EmptyMetadata : FSpudClassMetadata := MkMetadata [] [] [].

(** Modelled from the spec: lookup of a class definition by name, without
    mutation ([FSpudClassMetadata::GetClassDef]). *)
Definition FindClassDefIndex (Meta : FSpudClassMetadata) (Name : string)
  : option nat :=
  IndexOf Name (ClassName <$> ClassDefinitions Meta).

Definition GetClassDef (Meta : FSpudClassMetadata) (Name : string)
  : option FSpudClassDef :=
  i ← FindClassDefIndex Meta Name; ClassDefinitions Meta !! i.

(** Modelled from the spec: [FindOrAddClassDef] creates an empty
    definition when the class has none, and is idempotent.  The C++
    reference it returns is the position of the definition. *)
Definition FindOrAddClassDef (Meta : FSpudClassMetadata) (Name : string)
  : nat * FSpudClassMetadata :=
  match FindClassDefIndex Meta Name with
  | Some i => (i, Meta)
  | None =>
      (length (ClassDefinitions Meta),
       MkMetadata (ClassDefinitions Meta ++ [MkClassDef Name []])
                  (PropertyNameIndex Meta) (PrefixIndex Meta))
  end.

(** Modelled from the spec: class names are interned with the class
    definitions ([FindOrAddClassIDFromName], [GetClassNameFromID]). *)
Definition FindOrAddClassIDFromName := FindOrAddClassDef.

Definition GetClassNameFromID (Meta : FSpudClassMetadata) (ID : nat) : string :=
  match ClassDefinitions Meta !! ID with
  | Some cd => ClassName cd
  | None => ""
  end.

Definition SetClassDef (Meta : FSpudClassMetadata) (i : nat) (cd : FSpudClassDef)
  : FSpudClassMetadata :=
  MkMetadata (<[i := cd]> (ClassDefinitions Meta))
             (PropertyNameIndex Meta) (PrefixIndex Meta).

(** Modelled from the spec: property names, add and lookup.  [None] is
    [SPUDDATA_INDEX_NONE]. *)
Definition GetPropertyIDFromName (Meta : FSpudClassMetadata) (Name : string)
  : option nat :=
  IndexOf Name (PropertyNameIndex Meta).

Definition FindOrAddPropertyIDFromName (Meta : FSpudClassMetadata) (Name : string)
  : nat * FSpudClassMetadata :=
  let '(i, names) := FindOrAdd Name (PropertyNameIndex Meta) in
  (i, MkMetadata (ClassDefinitions Meta) names (PrefixIndex Meta)).

(** The path a prefix ID stands for. *)
Definition PrefixPath (Meta : FSpudClassMetadata) (Prefix : PrefixID)
  : option (list string) :=
  match Prefix with
  | SPUDDATA_PREFIXID_NONE => Some []
  | NestedPrefix i => PrefixIndex Meta !! i
  | PrefixNotFound => None
  end.

(** Modelled from the spec: [SpudPropertyUtil::GetNestedPrefixID], the
    read path, never creates. *)
Definition GetNestedPrefixID (Prefix : PrefixID) (StructName : string)
    (Meta : FSpudClassMetadata) : PrefixID :=
  match PrefixPath Meta Prefix with
  | Some path =>
      match IndexOf (path ++ [StructName]) (PrefixIndex Meta) with
      | Some i => NestedPrefix i
      | None => PrefixNotFound
      end
  | None => PrefixNotFound
  end.

(** Modelled from the spec: [SpudPropertyUtil::FindOrAddNestedPrefixID],
    the write path, creates the entry when needed. *)
Definition FindOrAddNestedPrefixID (Prefix : PrefixID) (StructName : string)
    (Meta : FSpudClassMetadata) : PrefixID * FSpudClassMetadata :=
  match PrefixPath Meta Prefix with
  | Some path =>
      let '(i, paths) := FindOrAdd (path ++ [StructName]) (PrefixIndex Meta) in
      (NestedPrefix i,
       MkMetadata (ClassDefinitions Meta) (PropertyNameIndex Meta) paths)
  | None => (PrefixNotFound, Meta)
  end.

(** Property addresses inside a class definition. *)
Definition DefAddress (d : FSpudPropertyDef) : PrefixID * nat :=
  (DefPrefixID d, PropertyID d).

Definition FindPropertyIndex (cd : FSpudClassDef) (PropNameID : nat)
    (Prefix : PrefixID) : option nat :=
  IndexOf (Prefix, PropNameID) (DefAddress <$> ClassProperties cd).

(** Modelled from the spec: [FSpudClassDef::FindOrAddPropertyIndex], a
    property already registered under the same prefix and name keeps its
    position; a new one is appended. *)
Definition FindOrAddPropertyIndex (cd : FSpudClassDef) (PropNameID : nat)
    (Prefix : PrefixID) (Kind : PropKind) : nat * FSpudClassDef :=
  match FindPropertyIndex cd PropNameID Prefix with
  | Some i => (i, cd)
  | None =>
      (length (ClassProperties cd),
       MkClassDef (ClassName cd)
         (ClassProperties cd ++ [MkPropertyDef PropNameID Prefix Kind]))
  end.

(** Modelled from the spec: [FSpudClassDef::PropertyLookup], the lookup
    structure derived from the property list: prefix, then property name
    ID, to the index in the list. *)
Definition PropertyLookup (cd : FSpudClassDef) : gmap PrefixID (gmap nat Z) :=
  foldr (λ '(i, d) (m : gmap PrefixID (gmap nat Z)),
           <[DefPrefixID d :=
               <[PropertyID d := Z.of_nat i]> (default ∅ (m !! DefPrefixID d))]> m)
        ∅ (imap (λ i d, (i, d)) (ClassProperties cd)).

(* ===================================================================== *)
(** ** Stored records (SpudData) *)
(* ===================================================================== *)

Record FSpudPropertyData := MkPropertyData {
  PropertyOffsets : list N;        (* TArray<uint32> *)
  PropData : list byte
}.

Record FSpudObjectData := MkObjectData {
  CoreData : list byte;
  Properties : FSpudPropertyData;
  CustomData : list byte
}.

Definition EmptyObjectData : FSpudObjectData :=
  MkObjectData [] (MkPropertyData [] []) [].

Record FSpudNamedObjectData := MkNamedObjectData {
  NamedName : string;
  NamedData : FSpudObjectData
}.

Record FSpudSpawnedActorData := MkSpawnedActorData {
  ClassID : nat;
  Guid : FGuid;
  SpawnedData : FSpudObjectData
}.

(** [FSpudLevelData].  [SpawnedActors] is keyed in the source by the
    text of the GUID ([Guid.ToString(SPUDDATA_GUID_KEY_FORMAT)]), which
    determines the GUID; the key here is the GUID. *)
Record FSpudLevelData := MkLevelData {
  LevelDataName : string;
  Metadata : FSpudClassMetadata;
  LevelActors : gmap string FSpudNamedObjectData;
  SpawnedActors : gmap FGuid FSpudSpawnedActorData;
  DestroyedActors : list string
}.

Definition EmptyLevelData : FSpudLevelData :=
  MkLevelData "" EmptyMetadata ∅ ∅ [].

Record FSpudSaveData := MkSaveData {
  LevelDataMap : gmap string FSpudLevelData
}.

(** The record a [FSpudObjectData*] points to: a level actor's, by name,
    or a spawned actor's, by GUID. *)
Inductive ObjectDataRef :=
| LevelActorRef (Name : string)
| SpawnedActorRef (Key : FGuid).

Definition ReadObjectData (LevelData : FSpudLevelData) (r : ObjectDataRef)
  : option FSpudObjectData :=
  match r with
  | LevelActorRef n => NamedData <$> LevelActors LevelData !! n
  | SpawnedActorRef g => SpawnedData <$> SpawnedActors LevelData !! g
  end.

Definition WriteObjectData (LevelData : FSpudLevelData) (r : ObjectDataRef)
    (d : FSpudObjectData) : FSpudLevelData :=
  match r with
  | LevelActorRef n =>
      MkLevelData (LevelDataName LevelData) (Metadata LevelData)
        (alter (λ x, MkNamedObjectData (NamedName x) d) n (LevelActors LevelData))
        (SpawnedActors LevelData) (DestroyedActors LevelData)
  | SpawnedActorRef g =>
      MkLevelData (LevelDataName LevelData) (Metadata LevelData)
        (LevelActors LevelData)
        (alter (λ x, MkSpawnedActorData (ClassID x) (Guid x) d) g
               (SpawnedActors LevelData))
        (DestroyedActors LevelData)
  end.

Definition SetMetadata (LevelData : FSpudLevelData) (Meta : FSpudClassMetadata)
  : FSpudLevelData :=
  MkLevelData (LevelDataName LevelData) Meta (LevelActors LevelData)
    (SpawnedActors LevelData) (DestroyedActors LevelData).

(* ===================================================================== *)
(** ** The host *)
(* ===================================================================== *)

(** What the file calls and does not define: the two predicates of
    SpudPropertyUtil that classify an object, the engine's GUID
    generator, class loader and actor factory, the six hooks of
    [ISpudObjectCallback] (user code), and the contents of the local
    variables that [RestoreCoreActorData] declares without initialising
    them. *)
Class Host := {
  IsRuntimeActor : AActor -> bool;
  IsPersistentObject : AActor -> bool;
  NewGuid : FGuid;
  TryLoadClass : string -> option string;
  SpawnActor : string -> ULevel -> option AActor;
  SpudPreSaveState : AActor -> AActor;
  SpudFinaliseSaveState : AActor -> AActor * list byte;
  SpudPostSaveState : AActor -> AActor;
  SpudPreLoadState : AActor -> AActor;
  SpudFinaliseLoadState : AActor -> list byte -> AActor;
  SpudPostLoadState : AActor -> AActor;
  UninitHidden : bool;
  UninitVelocity : FVector;
  UninitAngularVelocity : FVector
}.

(* ===================================================================== *)
(** ** Names of levels *)
(* ===================================================================== *)

(** [FString::Split("/", nullptr, &Right, CaseSensitive, FromEnd)]:
    what follows the last slash, or nothing when there is no slash. *)
Fixpoint AfterLastSlash (s : string) : option string :=
  match s with
  | EmptyString => None
  | String c rest =>
      match AfterLastSlash rest with
      | Some r => Some r
      | None => if Ascii.eqb c "/" then Some rest else None
      end
  end.

Definition ToUpper (c : ascii) : ascii :=
  let n := nat_of_ascii c in
  if (97 <=? n)%nat && (n <=? 122)%nat then ascii_of_nat (n - 32) else c.

(** [FString::StartsWith], whose search case defaults to IgnoreCase. *)
Fixpoint StartsWith (s prefix : string) : bool :=
  match prefix, s with
  | EmptyString, _ => true
  | String p ps, String c cs =>
      Ascii.eqb (ToUpper p) (ToUpper c) && StartsWith cs ps
  | String _ _, EmptyString => false
  end.

Fixpoint DropChars (n : nat) (s : string) : string :=
  match n, s with
  | O, _ => s
  | S n', String _ rest => DropChars n' rest
  | S _, EmptyString => EmptyString
  end.

(** [FString::Right(Count)]: the last [Count] characters, [Count]
    clamped to the length. *)
Definition FString_Right (s : string) (Count : Z) : string :=
  let Len := Z.of_nat (String.length s) in
  let n := Z.max 0 (Z.min Count Len) in
  DropChars (Z.to_nat (Len - n)) s.

Definition GetLevelNameForObject (OuterMost : option string) : string :=
  match OuterMost with
  | Some PackageName =>
      let LevelName := default "" (AfterLastSlash PackageName) in
      if StartsWith LevelName "UEDPIE_"
      then FString_Right LevelName (Z.of_nat (String.length LevelName) - 9)
      else LevelName
  | None => ""
  end.

Definition GetLevelName (Level : ULevel) : string :=
  GetLevelNameForObject (LevelOuterMost Level).

(* ===================================================================== *)
(** ** Locating the stored records *)
(* ===================================================================== *)

Definition SetLevelDataName (LevelData : FSpudLevelData) (n : string)
  : FSpudLevelData :=
  MkLevelData n (Metadata LevelData) (LevelActors LevelData)
    (SpawnedActors LevelData) (DestroyedActors LevelData).

(** [GetLevelData]: the level's data, created empty when [AutoCreate]. *)
Definition GetLevelData (SaveData : FSpudSaveData) (LevelName : string)
    (AutoCreate : bool) : option FSpudLevelData * FSpudSaveData :=
  match LevelDataMap SaveData !! LevelName with
  | Some Ret => (Some Ret, SaveData)
  | None =>
      if AutoCreate then
        let Ret := SetLevelDataName EmptyLevelData LevelName in
        (Some Ret, MkSaveData (<[LevelName := Ret]> (LevelDataMap SaveData)))
      else (None, SaveData)
  end.

(** Storing back what was changed through the [FSpudLevelData*]. *)
Definition PutLevelData (SaveData : FSpudSaveData) (LevelName : string)
    (LevelData : FSpudLevelData) : FSpudSaveData :=
  MkSaveData (<[LevelName := LevelData]> (LevelDataMap SaveData)).

(** [SpudPropertyUtil::GetLevelActorName]: the actor's FName, constant
    within a level. *)
Definition GetLevelActorName (Actor : AActor) : string := ActorName Actor.

Definition GetClassName (Obj : AActor) : string := ClassPathName Obj.

(** Modelled from the spec: [SpudPropertyUtil::GetGuidProperty] reads the
    SpudGuid property, an object without one has no valid GUID;
    [SetGuidProperty] tells whether there was a property to set. *)
Definition GetGuidProperty (Actor : AActor) : FGuid :=
  default InvalidGuid (SpudGuid Actor).

Definition SetGuidProperty (Actor : AActor) (g : FGuid) : bool * AActor :=
  match SpudGuid Actor with
  | Some _ => (true, SetSpudGuid Actor (Some g))
  | None => (false, Actor)
  end.

Definition SetLevelActors (LevelData : FSpudLevelData)
    (m : gmap string FSpudNamedObjectData) : FSpudLevelData :=
  MkLevelData (LevelDataName LevelData) (Metadata LevelData) m
    (SpawnedActors LevelData) (DestroyedActors LevelData).

Definition SetSpawnedActors (LevelData : FSpudLevelData)
    (m : gmap FGuid FSpudSpawnedActorData) : FSpudLevelData :=
  MkLevelData (LevelDataName LevelData) (Metadata LevelData)
    (LevelActors LevelData) m (DestroyedActors LevelData).

(** [GetLevelActorData].  The pointer it returns is the key of the
    record. *)
Definition GetLevelActorData (Actor : AActor) (LevelData : FSpudLevelData)
    (AutoCreate : bool) : option ObjectDataRef * FSpudLevelData :=
  let Name := GetLevelActorName Actor in
  match LevelActors LevelData !! Name with
  | Some _ => (Some (LevelActorRef Name), LevelData)
  | None =>
      if AutoCreate then
        (Some (LevelActorRef Name),
         SetLevelActors LevelData
           (<[Name := MkNamedObjectData Name EmptyObjectData]>
              (LevelActors LevelData)))
      else (None, LevelData)
  end.

Section WithHost.
Context `{Host}.

Definition MissingGuidLog (Actor : AActor) : list Event :=
  [UE_LOG LogError
     "Ignoring runtime actor %s, missing or blank SpudGuid property"
     [ActorName Actor];
   UE_LOG LogError
     "  Runtime spawned actors should have a SpudGuid property to identify them, initialised to valid unique value."
     [];
   UE_LOG LogError
     "  NOTE: If this actor is part of a level and not runtime spawned, the cause of this false detection might be that you haven't SAVED the level before playing in the editor."
     []].

(** [GetSpawnedActorData].  Returns the record (its key), the actor,
    whose SpudGuid the call may have set, and the level data, to which
    the call may have added a record. *)
Definition GetSpawnedActorData (Actor : AActor) (LevelData : FSpudLevelData)
    (AutoCreate : bool)
  : Logged (option ObjectDataRef * AActor * FSpudLevelData) :=
  let Guid0 := GetGuidProperty Actor in
  let GuidOk0 := GuidIsValid Guid0 in
  let '(Guid, GuidOk, Actor) :=
    if negb GuidOk0 && AutoCreate then
      let '(ok, Actor') := SetGuidProperty Actor NewGuid in
      (NewGuid, ok, Actor')
    else (Guid0, GuidOk0, Actor) in
  if negb GuidOk then
    (None, Actor, LevelData, MissingGuidLog Actor)
  else
    match SpawnedActors LevelData !! Guid with
    | Some _ => mret (Some (SpawnedActorRef Guid), Actor, LevelData)
    | None =>
        if AutoCreate then
          let '(ID, Meta) :=
            FindOrAddClassIDFromName (Metadata LevelData) (GetClassName Actor) in
          let LevelData1 :=
            SetSpawnedActors LevelData
              (<[Guid := MkSpawnedActorData ID Guid EmptyObjectData]>
                 (SpawnedActors LevelData)) in
          mret (Some (SpawnedActorRef Guid), Actor, SetMetadata LevelData1 Meta)
        else mret (None, Actor, LevelData)
    end.

(* ===================================================================== *)
(** ** Routing: level actor or runtime actor *)
(* ===================================================================== *)

Definition ShouldRespawnRuntimeActor (Actor : AActor) : bool :=
  let RespawnMode :=
    match SpudRespawnMode Actor with
    | Some m => m
    | None => Default
    end in
  match RespawnMode with
  | Default =>
      negb (IsA Actor AGameModeBaseClass) &&
      negb (IsA Actor AGameStateBaseClass) &&
      negb (IsA Actor APawnClass) &&
      negb (IsA Actor ACharacterClass)
  | AlwaysRespawn => true
  | NeverRespawn => false
  end.

Definition ShouldActorBeRespawnedOnRestore (Actor : AActor) : bool :=
  IsRuntimeActor Actor && ShouldRespawnRuntimeActor Actor.

(* ===================================================================== *)
(** ** Core actor data *)
(* ===================================================================== *)

Definition CoreDataVersion : UInt16 := (x01, x00).

(** [RootComp->Mobility == EComponentMobility::Movable &&
    RootComp->IsSimulatingPhysics()]. *)
Definition IsMovablePhysicsRoot (c : USceneComponent) : bool :=
  match Mobility c with Movable => bSimulatingPhysics c | _ => false end.

(** [WriteCoreActorData]: version, hidden flag, transform, linear and
    angular velocity (zero unless the root is a movable component that
    simulates physics and is a primitive component). *)
Definition WriteCoreActorData (Actor : AActor) (Out : list byte) : list byte :=
  let Out := WriteRaw CoreDataVersion Out in
  let Out := WriteRaw (bHidden Actor) Out in
  let Out := WriteRaw (ActorTransform Actor) Out in
  let '(Velocity, AngularVelocity) :=
    match RootComponent Actor with
    | Some RootComp =>
        if IsMovablePhysicsRoot RootComp then
          if bIsPrimitive RootComp
          then (LinearVelocity RootComp, AngularVelocityInDegrees RootComp)
          else (ZeroVector, ZeroVector)
        else (ZeroVector, ZeroVector)
    | None => (ZeroVector, ZeroVector)
    end in
  let Out := WriteRaw Velocity Out in
  WriteRaw AngularVelocity Out.

(** [RestoreCoreActorData]. *)
Definition RestoreCoreActorData (Actor : AActor) (FromData : list byte)
  : Logged AActor :=
  let In := MkReader FromData 0 false in
  let '(InVersion, In) := ReadRaw ((x00, x00) : UInt16) In in
  if (UInt16_to_Z InVersion =? 1)%Z then
    let '(Hidden, In) := ReadRaw UninitHidden In in
    let Actor := SetActorHiddenInGame Actor Hidden in
    let '(XForm, In) := ReadRaw IdentityTransform In in
    let Actor := SetActorTransform Actor XForm in
    let '(Velocity, In) := ReadRaw UninitVelocity In in
    let '(AngularVelocity, In) := ReadRaw UninitAngularVelocity In in
    match RootComponent Actor with
    | Some RootComp =>
        if IsMovablePhysicsRoot RootComp then
          if bIsPrimitive RootComp
          then mret (SetRootComponent Actor
                  (Some (SetPhysicsVelocities RootComp Velocity AngularVelocity)))
          else mret Actor
        else mret Actor
    | None => mret Actor
    end
  else
    (Actor, [UE_LOG LogError "Core Actor Data for %s is corrupt, not restoring"
               [ActorName Actor]]).


(* ===================================================================== *)
(** ** The property visitor framework *)
(* ===================================================================== *)

(** [SpudPropertyUtil::PropertyVisitor]: the three callbacks, over the
    state [V] that the visitor object holds. *)
Class PropertyVisitor (V : Type) := {
  VisitProperty :
    V -> string -> FProperty -> PrefixID -> nat -> (FProperty * bool) * V;
  UnsupportedProperty : V -> string -> FProperty -> PrefixID -> nat -> V;
  GetNestedPrefix : V -> string -> PrefixID -> PrefixID * V
}.

Section Visit.
Context {V : Type} `{PropertyVisitor V}.
Variable RootObject : string.

(** Modelled from the spec: [SpudPropertyUtil::VisitPersistentProperties]
    walks the persistable properties in reflection order.  A supported
    property is handed to [VisitProperty]; a custom struct is then
    expanded under the prefix the visitor returns for it, one level
    deeper; an unsupported property is reported and skipped.  A visitor
    that answers [false] stops the walk. *)
Fixpoint VisitOne (p : FProperty) (Prefix : PrefixID) (Depth : nat) (v : V)
    {struct p} : (FProperty * bool) * V :=
  match p with
  | OtherProperty _ _ =>
      ((p, true), UnsupportedProperty v RootObject p Prefix Depth)
  | LeafProperty _ _ => VisitProperty v RootObject p Prefix Depth
  | StructProperty n ms =>
      let '((_, go), v1) := VisitProperty v RootObject p Prefix Depth in
      if go then
        let '(NewPrefix, v2) := GetNestedPrefix v1 n Prefix in
        let '((ms', go'), v3) :=
          (fix VisitMembers (l : list FProperty) (v : V)
             : (list FProperty * bool) * V :=
             match l with
             | [] => (([], true), v)
             | q :: l' =>
                 let '((q', go1), v1) := VisitOne q NewPrefix (S Depth) v in
                 if go1 then
                   let '((l'', go2), v2) := VisitMembers l' v1 in
                   ((q' :: l'', go2), v2)
                 else ((q' :: l', false), v1)
             end) ms v2 in
        ((StructProperty n ms', go'), v3)
      else ((p, false), v1)
  end.

Fixpoint VisitList (l : list FProperty) (Prefix : PrefixID) (Depth : nat)
    (v : V) : (list FProperty * bool) * V :=
  match l with
  | [] => (([], true), v)
  | q :: l' =>
      let '((q', go1), v1) := VisitOne q Prefix Depth v in
      if go1 then
        let '((l'', go2), v2) := VisitList l' Prefix Depth v1 in
        ((q' :: l'', go2), v2)
      else ((q' :: l', false), v1)
  end.

Definition VisitPersistentProperties (Props : list FProperty) (v : V)
  : list FProperty * V :=
  let '((Props', _), v') := VisitList Props SPUDDATA_PREFIXID_NONE 0 v in
  (Props', v').

End Visit.

(** The persisted leaves of a property list, in visiting order, each
    with the path of struct names leading to it. *)
Fixpoint LeavesOfProperty (Path : list string) (p : FProperty)
  : list (list string * string * PropValue) :=
  match p with
  | LeafProperty n v => [(Path, n, v)]
  | StructProperty n ms => List.flat_map (LeavesOfProperty (Path ++ [n])) ms
  | OtherProperty _ _ => []
  end.

Definition LeavesOf (Path : list string) (Props : list FProperty)
  : list (list string * string * PropValue) :=
  List.flat_map (LeavesOfProperty Path) Props.

(** The number of entries of the stored property list that the fast
    walk of a property needs from where its iterator stands: every
    visit, of a custom struct as of a leaf, dereferences the iterator,
    and the visit of a leaf moves it on by one. *)
Fixpoint StoredEntriesNeeded (p : FProperty) : nat :=
  match p with
  | LeafProperty _ _ => 1
  | StructProperty _ ms =>
      Nat.max 1
        (fold_right
           (λ q rest, Nat.max (StoredEntriesNeeded q)
                        (length (LeavesOfProperty [] q) + rest)) 0 ms)
  | OtherProperty _ _ => 0
  end.

Definition StoredEntriesNeededBy (Props : list FProperty) : nat :=
  fold_right
    (λ q rest, Nat.max (StoredEntriesNeeded q)
                 (length (LeavesOfProperty [] q) + rest)) 0 Props.

(** The walk of the properties visits no custom struct after its last
    leaf: it needs no more stored entries than there are leaves. *)
Definition NoStructAfterLastLeaf (Props : list FProperty) : Prop :=
  (StoredEntriesNeededBy Props ≤ length (LeavesOf [] Props))%nat.

(** The address a leaf has in a registry: prefix ID of its path and ID
    of its name, when both are registered. *)
Definition ResolvePrefix (Meta : FSpudClassMetadata) (Path : list string)
  : option PrefixID :=
  match Path with
  | [] => Some SPUDDATA_PREFIXID_NONE
  | _ => NestedPrefix <$> IndexOf Path (PrefixIndex Meta)
  end.

Definition ResolveAddress (Meta : FSpudClassMetadata)
    (Leaf : list string * string * PropValue) : option (PrefixID * nat) :=
  let '(Path, Name, _) := Leaf in
  match ResolvePrefix Meta Path, GetPropertyIDFromName Meta Name with
  | Some Prefix, Some ID => Some (Prefix, ID)
  | _, _ => None
  end.

(** Modelled from the spec: [FSpudClassDef::MatchesRuntimeClass] holds
    when the stored property sequence is the sequence the live class
    reflects now: same names, same order, same nesting.  The live class
    is given by the properties of the object being restored.  (The
    source keeps the answer in the class definition for the time of one
    load; the answer is a function of the class, so that it is computed
    here each time.) *)
Definition MatchesRuntimeClass (ClassDef : FSpudClassDef)
    (Meta : FSpudClassMetadata) (RuntimeProps : list FProperty) : bool :=
  bool_decide (ResolveAddress Meta <$> LeavesOf [] RuntimeProps
               = (Some ∘ DefAddress) <$> ClassProperties ClassDef).

(* ===================================================================== *)
(** ** Snapshot: writing an object's properties *)
(* ===================================================================== *)

(** The fields of [UpdateFromPropertyVisitor], and the log. *)
Record UpdateFromPropertyVisitor := MkUpdateVisitor {
  UF_ClassDef : FSpudClassDef;
  UF_PropertyOffsets : list N;
  UF_Meta : FSpudClassMetadata;
  UF_Out : list byte;
  UF_Log : list Event
}.

(** [PropertyOffsets.SetNum(Index + 1)] when too short, then
    [PropertyOffsets[Index] = Value]. *)
Definition SetOffset (Index : nat) (Value : N) (Offsets : list N) : list N :=
  let Offsets :=
    if (length Offsets <? Index + 1)%nat
    then Offsets ++ replicate (Index + 1 - length Offsets) 0%N
    else Offsets in
  <[Index := Value]> Offsets.

(** [FMemoryWriter::Tell], stored in a [uint32]. *)
Definition Tell32 (Out : list byte) : N := (N.of_nat (length Out) mod 2 ^ 32)%N.

(** Modelled from the spec: [SpudPropertyUtil::UpdateFromProperty]
    registers the property in the class definition (interning its
    name), records the offset at which its value starts, one offset per
    property in the order of the class definition, and appends the raw
    value.  A struct container has no value of its own. *)
Definition UpdateFromProperty (Property : FProperty) (CurrentPrefixID : PrefixID)
    (v : UpdateFromPropertyVisitor) : UpdateFromPropertyVisitor :=
  match Property with
  | LeafProperty Name Value =>
      let '(PropNameID, Meta) := FindOrAddPropertyIDFromName (UF_Meta v) Name in
      let '(Index, ClassDef) :=
        FindOrAddPropertyIndex (UF_ClassDef v) PropNameID CurrentPrefixID
          (KindOf Value) in
      MkUpdateVisitor ClassDef
        (SetOffset Index (Tell32 (UF_Out v)) (UF_PropertyOffsets v))
        Meta (UF_Out v ++ ValueToRaw Value) (UF_Log v)
  | _ => v
  end.

#[export] Instance UpdateFromPropertyVisitor_visitor
  : PropertyVisitor UpdateFromPropertyVisitor := {|
  VisitProperty := λ v RootObject Property CurrentPrefixID Depth,
    ((Property, true), UpdateFromProperty Property CurrentPrefixID v);
  UnsupportedProperty := λ v RootObject Property CurrentPrefixID Depth,
    MkUpdateVisitor (UF_ClassDef v) (UF_PropertyOffsets v) (UF_Meta v) (UF_Out v)
      (UF_Log v ++
       [UE_LOG LogError
          "Property %s/%s is marked for save but is an unsupported type, ignoring. E.g. Arrays of custom structs are not supported."
          [RootObject; PropertyName Property]]);
  GetNestedPrefix := λ v StructName CurrentPrefixID,
    let '(ID, Meta) := FindOrAddNestedPrefixID CurrentPrefixID StructName (UF_Meta v) in
    (ID, MkUpdateVisitor (UF_ClassDef v) (UF_PropertyOffsets v) Meta (UF_Out v)
           (UF_Log v))
|}.

(* ===================================================================== *)
(** ** Restore: reading an object's properties *)
(* ===================================================================== *)

(** Modelled from the spec: [SpudPropertyUtil::RestoreProperty] decodes
    the value at the reader's position with the decoder of the runtime
    property's kind; when the stored kind is another one, it warns and
    leaves the property alone.  A struct container has no value of its
    own.  [StoredProperty] is an option because both visitors take it
    from a list by position; neither passes [None]: the slow visitor
    checks the index first, and the fast visitor's dereference is an
    access outside the list before the call is reached. *)
Definition RestoreProperty (RootObject : string) (Property : FProperty)
    (StoredProperty : option FSpudPropertyDef)
    (RuntimeObjects : option RuntimeObjectMap) (DataIn : FMemoryReader)
  : Logged (FProperty * FMemoryReader) :=
  match Property with
  | LeafProperty Name Value =>
      match StoredProperty with
      | Some Stored =>
          if PropKind_eqb (DataType Stored) (KindOf Value) then
            let '(Value', DataIn') := ReadValue Value DataIn in
            mret (LeafProperty Name Value', DataIn')
          else
            ((Property, DataIn),
             [UE_LOG LogWarning
                "Property %s/%s type mismatch, skipping" [RootObject; Name]])
      | None => mret (Property, DataIn)
      end
  | _ => mret (Property, DataIn)
  end.

(** The fields of [RestoreFastPropertyVisitor] (with those of its base
    [RestorePropertyVisitor]), and the log.  The iterator over
    [ClassDef.ClassProperties] is its index. *)
Record RestoreFastPropertyVisitor := MkFastVisitor {
  RF_StoredPropertyIterator : nat;
  RF_DataIn : FMemoryReader;
  RF_ClassDef : FSpudClassDef;
  RF_Meta : FSpudClassMetadata;
  RF_RuntimeObjects : option RuntimeObjectMap;
  RF_Log : list Event
}.

(** [RestoreFastPropertyVisitor::VisitProperty] starts with
    [auto& StoredProperty = *StoredPropertyIterator;], for a custom
    struct as for any other property, before it looks at the property.
    With the iterator at the end of [ClassDef.Properties] that is an
    access outside the array: the visit records it and the walk ends
    there (the source has no behaviour to go on with).  Otherwise the
    stored property is handed to [RestoreProperty], and the iterator
    moves on unless the property is a custom struct. *)
#[export] Instance RestoreFastPropertyVisitor_visitor
  : PropertyVisitor RestoreFastPropertyVisitor := {|
  VisitProperty := λ v RootObject Property CurrentPrefixID Depth,
    match ClassProperties (RF_ClassDef v) !! RF_StoredPropertyIterator v with
    | Some StoredProperty =>
        let '((Property', DataIn), Log) :=
          RestoreProperty RootObject Property (Some StoredProperty)
            (RF_RuntimeObjects v) (RF_DataIn v) in
        let Iterator :=
          if negb (IsCustomStructProperty Property)
          then S (RF_StoredPropertyIterator v)
          else RF_StoredPropertyIterator v in
        ((Property', true),
         MkFastVisitor Iterator DataIn (RF_ClassDef v) (RF_Meta v)
           (RF_RuntimeObjects v) (RF_Log v ++ Log))
    | None =>
        ((Property, false),
         MkFastVisitor (RF_StoredPropertyIterator v) (RF_DataIn v)
           (RF_ClassDef v) (RF_Meta v) (RF_RuntimeObjects v)
           (RF_Log v ++
            [OutOfRangeAccess (RF_StoredPropertyIterator v)
               (length (ClassProperties (RF_ClassDef v)))]))
    end;
  UnsupportedProperty := λ v RootObject Property CurrentPrefixID Depth, v;
  GetNestedPrefix := λ v StructName CurrentPrefixID,
    (GetNestedPrefixID CurrentPrefixID StructName (RF_Meta v), v)
|}.

Record RestoreSlowPropertyVisitor := MkSlowVisitor {
  RS_DataIn : FMemoryReader;
  RS_ClassDef : FSpudClassDef;
  RS_Meta : FSpudClassMetadata;
  RS_RuntimeObjects : option RuntimeObjectMap;
  RS_Log : list Event
}.

Definition SlowLog (v : RestoreSlowPropertyVisitor) (l : list Event)
  : RestoreSlowPropertyVisitor :=
  MkSlowVisitor (RS_DataIn v) (RS_ClassDef v) (RS_Meta v) (RS_RuntimeObjects v)
    (RS_Log v ++ l).

#[export] Instance RestoreSlowPropertyVisitor_visitor
  : PropertyVisitor RestoreSlowPropertyVisitor := {|
  VisitProperty := λ v RootObject Property CurrentPrefixID Depth,
    if IsCustomStructProperty Property then ((Property, true), v) else
    match PropertyLookup (RS_ClassDef v) !! CurrentPrefixID with
    | None =>
        ((Property, true),
         SlowLog v [UE_LOG LogError
           "Error in RestoreSlowPropertyVisitor, PrefixID invalid for %, class %s"
           [PropertyName Property; ClassName (RS_ClassDef v)]])
    | Some InnerMap =>
        match GetPropertyIDFromName (RS_Meta v) (PropertyName Property) with
        | None =>
            ((Property, true),
             SlowLog v [UE_LOG LogWarning
               "Skipping property %s on class %s, not found in class definition"
               [PropertyName Property; ClassName (RS_ClassDef v)]])
        | Some PropID =>
            match InnerMap !! PropID with
            | None =>
                ((Property, true),
                 SlowLog v [UE_LOG LogWarning
                   "Skipping property %s on class %s, data not found"
                   [PropertyName Property; ClassName (RS_ClassDef v)]])
            | Some PropertyIndex =>
                if (PropertyIndex <? 0)%Z ||
                   (Z.of_nat (length (ClassProperties (RS_ClassDef v)))
                      <=? PropertyIndex)%Z
                then
                  ((Property, true),
                   SlowLog v [UE_LOG LogError
                     "Error in RestoreSlowPropertyVisitor, invalid property index for %s on class %s"
                     [PropertyName Property; ClassName (RS_ClassDef v)]])
                else
                  let StoredProperty :=
                    ClassProperties (RS_ClassDef v) !! Z.to_nat PropertyIndex in
                  let '((Property', DataIn), Log) :=
                    RestoreProperty RootObject Property StoredProperty
                      (RS_RuntimeObjects v) (RS_DataIn v) in
                  ((Property', true),
                   MkSlowVisitor DataIn (RS_ClassDef v) (RS_Meta v)
                     (RS_RuntimeObjects v) (RS_Log v ++ Log))
            end
        end
    end;
  UnsupportedProperty := λ v RootObject Property CurrentPrefixID Depth, v;
  GetNestedPrefix := λ v StructName CurrentPrefixID,
    (GetNestedPrefixID CurrentPrefixID StructName (RS_Meta v), v)
|}.

Definition RestoreObjectPropertiesFast (Obj : AActor)
    (FromData : FSpudPropertyData) (Meta : FSpudClassMetadata)
    (ClassDef : FSpudClassDef) (RuntimeObjects : option RuntimeObjectMap)
  : Logged AActor :=
  let In := MkReader (PropData FromData) 0 false in
  let Visitor := MkFastVisitor 0 In ClassDef Meta RuntimeObjects [] in
  let '(Props, Visitor') :=
    VisitPersistentProperties (ActorName Obj) (ActorProperties Obj) Visitor in
  (SetActorProperties Obj Props,
   UE_LOG LogVerbose "Restoring %s properties via FAST path, %d properties"
     [ClassName ClassDef; FormatInt (length (ClassProperties ClassDef))]
   :: RF_Log Visitor').

Definition RestoreObjectPropertiesSlow (Obj : AActor)
    (FromData : FSpudPropertyData) (Meta : FSpudClassMetadata)
    (ClassDef : FSpudClassDef) (RuntimeObjects : option RuntimeObjectMap)
  : Logged AActor :=
  let In := MkReader (PropData FromData) 0 false in
  let Visitor := MkSlowVisitor In ClassDef Meta RuntimeObjects [] in
  let '(Props, Visitor') :=
    VisitPersistentProperties (ActorName Obj) (ActorProperties Obj) Visitor in
  (SetActorProperties Obj Props,
   UE_LOG LogVerbose "Restoring %s properties via SLOW path, %d properties"
     [ClassName ClassDef; FormatInt (length (ClassProperties ClassDef))]
   :: RS_Log Visitor').

(** [RestoreObjectProperties]. *)
Definition RestoreObjectProperties (Obj : AActor) (FromData : FSpudPropertyData)
    (Meta : FSpudClassMetadata) (RuntimeObjects : option RuntimeObjectMap)
  : Logged AActor :=
  match GetClassDef Meta (GetClassName Obj) with
  | None =>
      (Obj, [UE_LOG LogError "Unable to find ClassDef for: %s %s"
               [GetClassName Obj]])
  | Some ClassDef =>
      let bUseFastPath :=
        MatchesRuntimeClass ClassDef Meta (ActorProperties Obj) in
      if bUseFastPath
      then RestoreObjectPropertiesFast Obj FromData Meta ClassDef RuntimeObjects
      else RestoreObjectPropertiesSlow Obj FromData Meta ClassDef RuntimeObjects
  end.

Definition PreRestoreObject (Obj : AActor) : AActor :=
  if bSpudObjectCallback Obj then SpudPreLoadState Obj else Obj.

Definition PostRestoreObject (Obj : AActor) (FromCustomData : list byte)
  : AActor :=
  if bSpudObjectCallback Obj
  then SpudPostLoadState (SpudFinaliseLoadState Obj FromCustomData)
  else Obj.

(** [RestoreActor(Actor, LevelData, RuntimeObjects)]. *)
Definition RestoreActor (Actor : AActor) (LevelData : FSpudLevelData)
    (RuntimeObjects : option RuntimeObjectMap) : Logged AActor :=
  if ActorHasAnyFlags Actor RF_Skipped then mret Actor else
  let bRespawned := ShouldActorBeRespawnedOnRestore Actor in
  '(Ref, Actor) ←
    (if bRespawned then
       '(r, a, _) ← GetSpawnedActorData Actor LevelData false; mret (r, a)
     else mret (fst (GetLevelActorData Actor LevelData false), Actor));
  match Ref ≫= ReadObjectData LevelData with
  | Some ActorData =>
      _ ← emit (UE_LOG LogVerbose "Restoring Actor %s" [ActorName Actor]);
      let Actor := PreRestoreObject Actor in
      Actor ← RestoreCoreActorData Actor (CoreData ActorData);
      Actor ← RestoreObjectProperties Actor (Properties ActorData)
                (Metadata LevelData) RuntimeObjects;
      mret (PostRestoreObject Actor (CustomData ActorData))
  | None => mret Actor
  end.

(** [RestoreActor(Actor)], which finds the level data itself. *)
Definition RestoreActor_Actor (SaveData : FSpudSaveData) (Actor : AActor)
  : Logged AActor :=
  if ActorHasAnyFlags Actor RF_Skipped then mret Actor else
  let LevelName := GetLevelNameForObject (OuterMostName Actor) in
  match fst (GetLevelData SaveData LevelName false) with
  | None =>
      (Actor, [UE_LOG LogError "Unable to restore Actor %s, missing level data"
                 [ActorName Actor]])
  | Some LevelData => RestoreActor Actor LevelData None
  end.

(* ===================================================================== *)
(** ** Snapshot of an actor *)
(* ===================================================================== *)

(** [UpdateFromActor(Actor, LevelData)]: returns the actor (the call may
    set its SpudGuid and runs its save hooks) and the level data.  The
    verbose line for a runtime object carries the actor's name; the
    text of its GUID is not rendered. *)
Definition UpdateFromActor (Actor : AActor) (LevelData : FSpudLevelData)
  : Logged (AActor * FSpudLevelData) :=
  if ActorHasAnyFlags Actor RF_Skipped then mret (Actor, LevelData) else
  let bRespawn := ShouldActorBeRespawnedOnRestore Actor in
  let '(ClassDefIndex, Meta) :=
    FindOrAddClassDef (Metadata LevelData) (GetClassName Actor) in
  let LevelData := SetMetadata LevelData Meta in
  '(Ref, Actor, LevelData) ←
    (if bRespawn then GetSpawnedActorData Actor LevelData true
     else
       let '(r, ld) := GetLevelActorData Actor LevelData true in
       mret (r, Actor, ld));
  match Ref with
  | None => mret (Actor, LevelData)
  | Some Ref =>
      match ReadObjectData LevelData Ref with
      | None => mret (Actor, LevelData)
      | Some ActorData =>
          _ ← emit (if bRespawn
                    then UE_LOG LogVerbose "* Runtime object: %s (%s)"
                           [GetLevelActorName Actor]
                    else UE_LOG LogVerbose "* Level object: %s/%s"
                           [LevelDataName LevelData; GetLevelActorName Actor]);
          let bIsCallback := bSpudObjectCallback Actor in
          let Actor := if bIsCallback then SpudPreSaveState Actor else Actor in
          let DestCoreData := WriteCoreActorData Actor [] in
          let Meta := Metadata LevelData in
          let ClassDef :=
            default (MkClassDef (GetClassName Actor) [])
                    (ClassDefinitions Meta !! ClassDefIndex) in
          let Visitor :=
            MkUpdateVisitor ClassDef (PropertyOffsets (Properties ActorData))
              Meta [] [] in
          let '(_, Visitor') :=
            VisitPersistentProperties (ActorName Actor) (ActorProperties Actor)
              Visitor in
          let '(Actor, DestCustomData) :=
            if bIsCallback then
              let '(Actor1, Custom) := SpudFinaliseSaveState Actor in
              (SpudPostSaveState Actor1, Custom)
            else (Actor, CustomData ActorData) in
          let ActorData' :=
            MkObjectData DestCoreData
              (MkPropertyData (UF_PropertyOffsets Visitor') (UF_Out Visitor'))
              DestCustomData in
          let LevelData :=
            SetMetadata LevelData
              (SetClassDef (UF_Meta Visitor') ClassDefIndex
                 (UF_ClassDef Visitor')) in
          ((Actor, WriteObjectData LevelData Ref ActorData'), UF_Log Visitor')
      end
  end.

(** [UpdateFromActor(Obj)], which finds or creates the level data. *)
Definition UpdateFromActor_Obj (SaveData : FSpudSaveData) (Obj : AActor)
  : Logged (AActor * FSpudSaveData) :=
  if ActorHasAnyFlags Obj RF_Skipped then mret (Obj, SaveData) else
  let LevelName := GetLevelNameForObject (OuterMostName Obj) in
  match GetLevelData SaveData LevelName true with
  | (Some LevelData, SaveData) =>
      '(Obj, LevelData) ← UpdateFromActor Obj LevelData;
      mret (Obj, PutLevelData SaveData LevelName LevelData)
  | (None, SaveData) => mret (Obj, SaveData)
  end.

(** Modelled from the spec: [FSpudDestroyedActorArray::Add] appends the
    name; no existing record is checked for duplicates. *)
Definition DestroyedActors_Add (Values : list string) (Name : string)
  : list string :=
  Values ++ [Name].

(** [UpdateLevelActorDestroyed(Actor, LevelData)]. *)
Definition UpdateLevelActorDestroyed (Actor : AActor)
    (LevelData : FSpudLevelData) : FSpudLevelData :=
  MkLevelData (LevelDataName LevelData) (Metadata LevelData)
    (LevelActors LevelData) (SpawnedActors LevelData)
    (DestroyedActors_Add (DestroyedActors LevelData) (GetLevelActorName Actor)).

(** [UpdateLevelActorDestroyed(Actor)]. *)
Definition UpdateLevelActorDestroyed_Actor (SaveData : FSpudSaveData)
    (Actor : AActor) : FSpudSaveData :=
  let LevelName := GetLevelNameForObject (OuterMostName Actor) in
  match GetLevelData SaveData LevelName true with
  | (Some LevelData, SaveData) =>
      PutLevelData SaveData LevelName (UpdateLevelActorDestroyed Actor LevelData)
  | (None, SaveData) => SaveData
  end.

(* ===================================================================== *)
(** ** Restoring a level *)
(* ===================================================================== *)

(** [RespawnActor]: the new actor, if any, in the level it was spawned
    into. *)
Definition RespawnActor (SpawnedActor : FSpudSpawnedActorData)
    (Meta : FSpudClassMetadata) (Level : ULevel)
  : Logged (option AActor * ULevel) :=
  let ClassName := GetClassNameFromID Meta (ClassID SpawnedActor) in
  match TryLoadClass ClassName with
  | None =>
      ((None, Level),
       [UE_LOG LogError "Cannot respawn instance of %s, class not found"
          [ClassName]])
  | Some Class =>
      match SpawnActor Class Level with
      | Some Actor =>
          let '(ok, Actor) := SetGuidProperty Actor (Guid SpawnedActor) in
          ((Some Actor, SetActors Level (Actors Level ++ [Actor])),
           CallSpawnActor Class (Guid SpawnedActor) (ActorName Actor) ::
           (if ok then [] else
              [UE_LOG LogError
                 "Re-spawned a runtime actor of class %s but it is missing a SpudGuid property!"
                 [ClassName]]))
      | None => mret (None, Level)
      end
  end.

(** [StaticFindObject(AActor::StaticClass(), Level, Name)]. *)
Definition StaticFindObject (Level : ULevel) (Name : string) : option AActor :=
  List.find (λ a, String.eqb (ActorName a) Name) (Actors Level).

(** [UWorld::DestroyActor]: the actor leaves the level. *)
Fixpoint RemoveActor (Name : string) (l : list AActor) : list AActor :=
  match l with
  | [] => []
  | a :: r => if String.eqb (ActorName a) Name then r else a :: RemoveActor Name r
  end.

(** [DestroyActor]. *)
Definition DestroyActor (DestroyedActor : string) (Level : ULevel)
  : Logged ULevel :=
  match StaticFindObject Level DestroyedActor with
  | Some Actor =>
      (SetActors Level (RemoveActor (ActorName Actor) (Actors Level)),
       [CallDestroyActor (ActorName Actor)])
  | None => mret Level
  end.

(** First loop of [RestoreLevel]: respawn the stored runtime actors. *)
Fixpoint RespawnSpawnedActors (Records : list (FGuid * FSpudSpawnedActorData))
    (Meta : FSpudClassMetadata) (Level : ULevel)
    (RuntimeObjectsByGuid : RuntimeObjectMap)
  : Logged (ULevel * RuntimeObjectMap) :=
  match Records with
  | [] => mret (Level, RuntimeObjectsByGuid)
  | (_, SpawnedActor) :: rest =>
      '(Actor, Level) ← RespawnActor SpawnedActor Meta Level;
      let RuntimeObjectsByGuid :=
        match Actor with
        | Some a => <[Guid SpawnedActor := ActorName a]> RuntimeObjectsByGuid
        | None => RuntimeObjectsByGuid
        end in
      RespawnSpawnedActors rest Meta Level RuntimeObjectsByGuid
  end.

(** Second loop: restore every persistent actor of the level. *)
Fixpoint RestoreLevelActors (LevelActorList : list AActor)
    (LevelData : FSpudLevelData) (RuntimeObjectsByGuid : RuntimeObjectMap)
  : Logged (list AActor * RuntimeObjectMap) :=
  match LevelActorList with
  | [] => mret ([], RuntimeObjectsByGuid)
  | Actor :: rest =>
      '(Actor, RuntimeObjectsByGuid) ←
        (if IsPersistentObject Actor then
           _ ← emit (CallRestoreActor (ActorName Actor)
                       (Some RuntimeObjectsByGuid));
           Actor ← RestoreActor Actor LevelData (Some RuntimeObjectsByGuid);
           let Guid := GetGuidProperty Actor in
           mret (Actor,
                 if GuidIsValid Guid
                 then <[Guid := ActorName Actor]> RuntimeObjectsByGuid
                 else RuntimeObjectsByGuid)
         else mret (Actor, RuntimeObjectsByGuid));
      '(rest, RuntimeObjectsByGuid) ←
        RestoreLevelActors rest LevelData RuntimeObjectsByGuid;
      mret (Actor :: rest, RuntimeObjectsByGuid)
  end.

(** Third loop: remove the actors recorded as destroyed. *)
Fixpoint DestroyRecordedActors (Values : list string) (Level : ULevel)
  : Logged ULevel :=
  match Values with
  | [] => mret Level
  | DestroyedActor :: rest =>
      Level ← DestroyActor DestroyedActor Level;
      DestroyRecordedActors rest Level
  end.

(** The three loops of [RestoreLevel], the first one running over the
    stored runtime actors in the order [Records]. *)
Definition RestoreLevelFrom (Records : list (FGuid * FSpudSpawnedActorData))
    (LevelData : FSpudLevelData) (Level : ULevel) : Logged ULevel :=
  '(Level, RuntimeObjectsByGuid) ←
    RespawnSpawnedActors Records (Metadata LevelData) Level ∅;
  '(LevelActorList, RuntimeObjectsByGuid) ←
    RestoreLevelActors (Actors Level) LevelData RuntimeObjectsByGuid;
  DestroyRecordedActors (DestroyedActors LevelData)
    (SetActors Level LevelActorList).

(** [RestoreLevel], the overload that takes the level. *)
Definition RestoreLevel (SaveData : FSpudSaveData) (Level : ULevel)
  : Logged ULevel :=
  if negb (bLevelValid Level) then mret Level else
  let LevelName := GetLevelName Level in
  match fst (GetLevelData SaveData LevelName false) with
  | None =>
      (Level,
       [UE_LOG LogWarning "Unable to restore level %s because data is missing"
          [LevelName]])
  | Some LevelData =>
      RestoreLevelFrom (map_to_list (SpawnedActors LevelData)) LevelData Level
  end.

End WithHost.

(* ===================================================================== *)
(** ** Views used to state the properties *)
(* ===================================================================== *)

(** The version tag [RestoreCoreActorData] finds at the start of the
    core data (0, the initial value of [InVersion], when there are not
    two bytes to read). *)
Definition StoredCoreVersion (FromData : list byte) : Z :=
  UInt16_to_Z (fst (ReadRaw ((x00, x00) : UInt16) (MkReader FromData 0 false))).

(** The version-1 layout of the core data. *)
Definition CoreDataV1 (Hidden : bool) (XForm : FTransform)
    (Velocity AngularVelocity : FVector) : list byte :=
  ToRaw CoreDataVersion ++ ToRaw Hidden ++ ToRaw XForm ++
  ToRaw Velocity ++ ToRaw AngularVelocity.

Section ViewsWithHost.
Context `{Host}.

(** The record [RestoreActor] works from, if it finds one. *)
Definition StoredActorData (Actor : AActor) (LevelData : FSpudLevelData)
  : option FSpudObjectData :=
  (if ShouldActorBeRespawnedOnRestore Actor
   then fst (fst (fst (GetSpawnedActorData Actor LevelData false)))
   else fst (GetLevelActorData Actor LevelData false))
  ≫= ReadObjectData LevelData.

(** The GUID under which the snapshot stores a runtime actor: its own
    when that is valid, a new one otherwise. *)
Definition SnapshotGuid (Actor : AActor) : FGuid :=
  if GuidIsValid (GetGuidProperty Actor) then GetGuidProperty Actor else NewGuid.

(** The actor as it is when [UpdateFromActor] writes its state: with the
    GUID the call may have given it, and after the pre-save hook. *)
Definition SnapshotSubject (Actor : AActor) : AActor :=
  let Actor1 :=
    if ShouldActorBeRespawnedOnRestore Actor &&
       negb (GuidIsValid (GetGuidProperty Actor))
    then snd (SetGuidProperty Actor NewGuid) else Actor in
  if bSpudObjectCallback Actor1 then SpudPreSaveState Actor1 else Actor1.

(** [Actor2] stands for the same entity as [Actor]: it is routed the
    same way and is found under the same key, the name for a level
    actor, the GUID for a runtime actor (which must have a SpudGuid
    property for the snapshot to keep it). *)
Definition SameEntity (Actor Actor2 : AActor) : Prop :=
  ShouldActorBeRespawnedOnRestore Actor2 = ShouldActorBeRespawnedOnRestore Actor /\
  if ShouldActorBeRespawnedOnRestore Actor
  then SpudGuid Actor ≠ None /\
       GetGuidProperty Actor2 = SnapshotGuid Actor /\
       GuidIsValid (SnapshotGuid Actor) = true
  else ActorName Actor2 = ActorName Actor.

End ViewsWithHost.

(** An actor to which the four fields of the version-1 core data were
    applied. *)
Definition ApplyCoreV1 (Actor : AActor) (h : bool) (t : FTransform)
    (v w : FVector) : AActor :=
  let a := SetActorTransform (SetActorHiddenInGame Actor h) t in
  match RootComponent Actor with
  | Some c =>
      if IsMovablePhysicsRoot c && bIsPrimitive c
      then SetRootComponent a (Some (SetPhysicsVelocities c v w))
      else a
  | None => a
  end.

(** The velocities [WriteCoreActorData] writes for an actor. *)
Definition WrittenVelocities (Actor : AActor) : FVector * FVector :=
  match RootComponent Actor with
  | Some c =>
      if IsMovablePhysicsRoot c && bIsPrimitive c
      then (LinearVelocity c, AngularVelocityInDegrees c)
      else (ZeroVector, ZeroVector)
  | None => (ZeroVector, ZeroVector)
  end.

(** The address part of a leaf, and the bytes of a sequence of leaves. *)
Definition LeafKey (Leaf : list string * string * PropValue)
  : list string * string :=
  (fst (fst Leaf), snd (fst Leaf)).

Definition EncodeLeaves (Leaves : list (list string * string * PropValue))
  : list byte :=
  List.flat_map (λ Leaf, ValueToRaw (snd Leaf)) Leaves.

(** No two persisted leaves of the object have the same path and name
    (the fields of a C++ struct have distinct names). *)
Definition DistinctAddresses (Props : list FProperty) : Prop :=
  NoDup (LeafKey <$> LeavesOf [] Props).

(** The stored definition a leaf has in a registry that knows its path
    and its name. *)
Definition LeafDef (Meta : FSpudClassMetadata)
    (Leaf : list string * string * PropValue) : option FSpudPropertyDef :=
  match ResolveAddress Meta Leaf with
  | Some (Prefix, ID) => Some (MkPropertyDef ID Prefix (KindOf (snd Leaf)))
  | None => None
  end.

(** A stored class definition describes a live class when it lists the
    leaves of the class, in order, each with its kind. *)
Definition Describes (Meta : FSpudClassMetadata) (ClassDef : FSpudClassDef)
    (Props : list FProperty) : Prop :=
  LeafDef Meta <$> LeavesOf [] Props = Some <$> ClassProperties ClassDef.

(** The stored definition of the class, if there is one, is empty or
    describes the class as it is now: there has been no schema drift. *)
Definition StoredDefCompatible (Meta : FSpudClassMetadata) (Class : string)
    (Props : list FProperty) : Prop :=
  ∀ cd, GetClassDef Meta Class = Some cd ->
        ClassProperties cd = [] \/ Describes Meta cd Props.

Definition DefaultValue (k : PropKind) : PropValue :=
  match k with
  | KBool => VBool false
  | KByte => VByte x00
  | KInt => VInt Zero32
  | KInt64 => VInt64 Zero32 Zero32
  | KFloat => VFloat Zero32
  | KVector => VVector ZeroVector
  end.

(** A property with its values blanked: what is left is the layout the
    class gives it. *)
Fixpoint Skeleton (p : FProperty) : FProperty :=
  match p with
  | LeafProperty n v => LeafProperty n (DefaultValue (KindOf v))
  | StructProperty n ms => StructProperty n (List.map Skeleton ms)
  | OtherProperty n _ => OtherProperty n []
  end.

(** Two objects of one class have the same property layout. *)
Definition SameLayout (a b : list FProperty) : Prop :=
  Skeleton <$> a = Skeleton <$> b.

(** A registry that has grown: names and prefixes were appended. *)
Definition MetaExtends (m m' : FSpudClassMetadata) : Prop :=
  (∃ ns, PropertyNameIndex m' = PropertyNameIndex m ++ ns) /\
  (∃ ps, PrefixIndex m' = PrefixIndex m ++ ps) /\
  ClassDefinitions m' = ClassDefinitions m.

(** [FindOrAddPropertyIndex] on the list of definitions. *)
Definition AddDef (l : list FSpudPropertyDef) (d : FSpudPropertyDef)
  : list FSpudPropertyDef :=
  match IndexOf (DefAddress d) (DefAddress <$> l) with
  | Some _ => l
  | None => l ++ [d]
  end.

Definition AddDefs (l ds : list FSpudPropertyDef) : list FSpudPropertyDef :=
  fold_left AddDef ds l.

Definition TableIncludes (T T' : RuntimeObjectMap) : Prop :=
  ∀ g, is_Some (T !! g) -> is_Some (T' !! g).

Definition IsSpawnCall (e : Event) : bool :=
  match e with CallSpawnActor _ _ _ => true | _ => false end.
Definition IsRestoreCall (e : Event) : bool :=
  match e with CallRestoreActor _ _ => true | _ => false end.
Definition IsDestroyCall (e : Event) : bool :=
  match e with CallDestroyActor _ => true | _ => false end.
Definition IsLogLine (e : Event) : bool :=
  match e with UE_LOG _ _ _ => true | _ => false end.
Definition IsEngineCall (e : Event) : bool :=
  IsSpawnCall e || IsRestoreCall e || IsDestroyCall e.

Definition OnlyLogLines (t : list Event) : Prop :=
  Forall (λ e, IsLogLine e = true) t.

Definition NoEngineCalls (t : list Event) : Prop :=
  Forall (λ e, IsEngineCall e = false) t.

(** The fast walk of a property that finds the stored entries it needs:
    the iterator has advanced by the number of leaves, the walk goes
    on, and nothing but log lines was added to the trace. *)
Definition FastWalkAdvances (RootObject : string) (p : FProperty) : Prop :=
  ∀ (Path : list string) (Prefix : PrefixID) (Depth : nat)
    (v : RestoreFastPropertyVisitor),
    (RF_StoredPropertyIterator v + StoredEntriesNeeded p
     ≤ length (ClassProperties (RF_ClassDef v)))%nat ->
    let r := VisitOne RootObject p Prefix Depth v in
    RF_StoredPropertyIterator (snd r)
    = (RF_StoredPropertyIterator v + length (LeavesOfProperty Path p))%nat /\
    snd (fst r) = true /\
    RF_ClassDef (snd r) = RF_ClassDef v /\
    (OnlyLogLines (RF_Log v) -> OnlyLogLines (RF_Log (snd r))).

(** A raw type is sound when its bytes are as many as announced, at
    least one, and decode to the value they encode. *)
Class RawLaws (T : Type) `{Raw T} := {
  RawSize_pos : RawSize ≠ 0%nat;
  ToRaw_length : ∀ x : T, length (ToRaw x) = RawSize;
  OfRaw_ToRaw : ∀ x : T, OfRaw (ToRaw x) = x
}.

(** A prefix ID that stands for a path, both ways. *)
Definition PrefixStands (Meta : FSpudClassMetadata) (Prefix : PrefixID)
    (Path : list string) : Prop :=
  PrefixPath Meta Prefix = Some Path /\ ResolvePrefix Meta Path = Some Prefix.

(** What the snapshot visitor has done after it walked [Leaves]: the
    registry has grown, the values were appended to the output in
    order, and the class definition has received the definitions of the
    leaves. *)
Definition WriteWalkResult (Leaves : list (list string * string * PropValue))
    (v v' : UpdateFromPropertyVisitor) : Prop :=
  MetaExtends (UF_Meta v) (UF_Meta v') /\
  UF_Out v' = UF_Out v ++ EncodeLeaves Leaves /\
  ClassName (UF_ClassDef v') = ClassName (UF_ClassDef v) /\
  ∃ defs, LeafDef (UF_Meta v') <$> Leaves = Some <$> defs /\
          ClassProperties (UF_ClassDef v')
          = AddDefs (ClassProperties (UF_ClassDef v)) defs.

(** The fast visitor is ready to read [Leaves]: its reader stands, with
    no error, where their bytes start, and its iterator stands at stored
    definitions of their kinds. *)
Definition FastWalkReady (Data Post : list byte)
    (Leaves : list (list string * string * PropValue))
    (v : RestoreFastPropertyVisitor) : Prop :=
  RF_DataIn v = MkReader Data (ReaderOffset (RF_DataIn v)) false /\
  drop (ReaderOffset (RF_DataIn v)) Data = EncodeLeaves Leaves ++ Post /\
  ∃ defs rest,
    drop (RF_StoredPropertyIterator v) (ClassProperties (RF_ClassDef v))
    = defs ++ rest /\
    DataType <$> defs = (λ lf, KindOf (snd lf)) <$> Leaves.

(** The fast visitor after it has read [Leaves]. *)
Definition FastWalkDone (Data : list byte)
    (Leaves : list (list string * string * PropValue))
    (v : RestoreFastPropertyVisitor) : RestoreFastPropertyVisitor :=
  MkFastVisitor (RF_StoredPropertyIterator v + length Leaves)
    (MkReader Data
       (ReaderOffset (RF_DataIn v) + length (EncodeLeaves Leaves)) false)
    (RF_ClassDef v) (RF_Meta v) (RF_RuntimeObjects v) (RF_Log v).

Definition IsDestroyOf (Name : string) (e : Event) : bool :=
  match e with CallDestroyActor n => String.eqb n Name | _ => false end.

Definition ActorNames (Level : ULevel) : list string :=
  ActorName <$> Actors Level.

(* ===================================================================== *)
(** ** A small world to run the definitions on *)
(* ===================================================================== *)

Module Demo.

(** Runtime actors are those that carry a SpudGuid property; every
    class but the empty path loads; a spawned actor is a fresh enemy. *)
Definition Word (b : byte) : Raw32 := (b, x00, x00, x00).

Definition Enemy (Name : string) (g : option FGuid) (Health : byte) : AActor :=
  MkActor Name 0 (Some "/Game/Maps/Keep") "/Game/BP/Enemy.Enemy_C"
    AActorClass None false g false IdentityTransform None
    [LeafProperty "Health" (VInt (Word Health))].

Definition host : Host := {|
  IsRuntimeActor := λ a, match SpudGuid a with Some _ => true | None => false end;
  IsPersistentObject := λ _, true;
  NewGuid := (1, 2, 3, 4)%N;
  TryLoadClass := λ s, if String.eqb s "" then None else Some s;
  SpawnActor := λ c l, Some (Enemy "Enemy_1" (Some InvalidGuid) x64);
  SpudPreSaveState := id;
  SpudFinaliseSaveState := λ a, (a, [x2a]);
  SpudPostSaveState := id;
  SpudPreLoadState := id;
  SpudFinaliseLoadState := λ a _, a;
  SpudPostLoadState := id;
  UninitHidden := false;
  UninitVelocity := ZeroVector;
  UninitAngularVelocity := ZeroVector
|}.

(** A door placed in the level, with a nested struct and a property of
    an unsupported type. *)
Definition Door (Hidden : bool) (a b : byte) (Arr : list byte) : AActor :=
  MkActor "Door_0" 0 (Some "/Game/Maps/UEDPIE_0_Keep") "/Game/BP/Door.Door_C"
    AActorClass None false None Hidden IdentityTransform None
    [LeafProperty "A" (VInt (Word a));
     StructProperty "S" [LeafProperty "X" (VByte x07);
                         LeafProperty "A" (VBool Hidden)];
     OtherProperty "Arr" Arr;
     LeafProperty "B" (VInt (Word b))].

(** The same class after its two integer fields changed places. *)
Definition DoorReordered : AActor :=
  MkActor "Door_0" 0 (Some "/Game/Maps/UEDPIE_0_Keep") "/Game/BP/Door.Door_C"
    AActorClass None false None false IdentityTransform None
    [LeafProperty "B" (VInt (Word x00));
     StructProperty "S" [LeafProperty "X" (VByte x00);
                         LeafProperty "A" (VBool false)];
     OtherProperty "Arr" [];
     LeafProperty "A" (VInt (Word x00))].

Definition ClassDefaultDoor : AActor :=
  MkActor "Default__Door_C" RF_ClassDefaultObject None "/Game/BP/Door.Door_C"
    AActorClass None false None false IdentityTransform None [].

Definition Keep : ULevel :=
  MkLevel true (Some "/Game/Maps/Keep") [Door false x00 x00 []].

(** A runtime enemy, and the data of the level after the enemy and the
    door were saved and the door was recorded as destroyed. *)
Definition Guard : AActor := Enemy "Enemy_0" (Some (5, 6, 7, 8)%N) x2a.

Definition KeepData : FSpudLevelData :=
  UpdateLevelActorDestroyed (Door true x01 x02 [x09])
    (snd (fst (UpdateFromActor (H := host) (Door true x01 x02 [x09])
       (snd (fst (UpdateFromActor (H := host) Guard
          (SetLevelDataName EmptyLevelData "Keep"))))))).

Definition KeepSave : FSpudSaveData := MkSaveData {["Keep" := KeepData]}.

(** The saved level after the core data of the door's record was
    replaced by bytes that start with a version the code does not know;
    the properties and the custom data of the record are as saved. *)
Definition CorruptKeepData : FSpudLevelData :=
  SetLevelActors KeepData
    (alter (λ r, MkNamedObjectData (NamedName r)
                   (MkObjectData [x02; x00; x01]
                      (Properties (NamedData r))
                      (CustomData (NamedData r))))
       "Door_0" (LevelActors KeepData)).

(** A crate whose class ends in a custom struct without a leaf of its
    own: the one member of the struct is of an unsupported type (an
    array of custom structs). *)
Definition Crate (Count : byte) : AActor :=
  MkActor "Crate_0" 0 (Some "/Game/Maps/Keep") "/Game/BP/Crate.Crate_C"
    AActorClass None false None false IdentityTransform None
    [LeafProperty "Count" (VInt (Word Count));
     StructProperty "Contents" [OtherProperty "Items" [x01]]].

(** An actor that is routed as runtime actor and has a blank SpudGuid,
    and one routed so that has no SpudGuid property (it reports
    AlwaysRespawn to a host that takes every actor for a runtime
    actor). *)
Definition BlankEnemy : AActor := Enemy "Enemy_2" (Some InvalidGuid) x10.

Definition hostAllRuntime : Host := {|
  IsRuntimeActor := λ _, true;
  IsPersistentObject := λ _, true;
  NewGuid := (1, 2, 3, 4)%N;
  TryLoadClass := λ s, None;
  SpawnActor := λ c l, None;
  SpudPreSaveState := id;
  SpudFinaliseSaveState := λ a, (a, []);
  SpudPostSaveState := id;
  SpudPreLoadState := id;
  SpudFinaliseLoadState := λ a _, a;
  SpudPostLoadState := id;
  UninitHidden := false;
  UninitVelocity := ZeroVector;
  UninitAngularVelocity := ZeroVector
|}.

End Demo.

(* ===================================================================== *)
(** ** Worlds and global objects *)
(* ===================================================================== *)

(** [FString::operator==] and [operator!=] compare ignoring case
    ([FCString::Stricmp]). *)
Fixpoint StringToUpper (s : string) : string :=
  match s with
  | EmptyString => EmptyString
  | String c rest => String (ToUpper c) (StringToUpper rest)
  end.

Definition FString_eqb (a b : string) : bool :=
  String.eqb (StringToUpper a) (StringToUpper b).

(** A world, as far as the file looks at it: its FName and the levels
    [GetLevels] returns (the persistent level and the streaming levels
    that are loaded). *)
Record UWorld := MkWorld {
  WorldName : string;
  WorldLevels : list ULevel
}.

(** [SaveData.GlobalData]: the name of the current level, a registry of
    its own, and the records of the global objects by identifier.  The
    functions of the file use either the level map of the save data or
    its global section; the global section is passed beside the level
    map. *)
Record FSpudGlobalData := MkGlobalData {
  CurrentLevel : string;
  GlobalMetadata : FSpudClassMetadata;
  Objects : gmap string FSpudNamedObjectData
}.

Definition EmptyGlobalData : FSpudGlobalData :=
  MkGlobalData "" EmptyMetadata ∅.

Definition SetCurrentLevel (G : FSpudGlobalData) (n : string)
  : FSpudGlobalData :=
  MkGlobalData n (GlobalMetadata G) (Objects G).

Definition SetObjects (G : FSpudGlobalData)
    (m : gmap string FSpudNamedObjectData) : FSpudGlobalData :=
  MkGlobalData (CurrentLevel G) (GlobalMetadata G) m.

(** What the functions on worlds and global objects call and the file
    does not define: the identifier of a global object
    ([SpudPropertyUtil::GetGlobalObjectID]: its GUID if it has one, else
    its name) and what a level's data drops before the level is saved
    anew ([FSpudLevelData::PreUpdateFromWorld]). *)
Class DataHost := {
  GetGlobalObjectID : AActor -> string;
  PreUpdateFromWorld : FSpudLevelData -> FSpudLevelData
}.

(** [GetGlobalObjectData(ID, AutoCreate)].  The pointer it returns is
    the key of the record. *)
Definition GetGlobalObjectData_ID (G : FSpudGlobalData) (ID : string)
    (AutoCreate : bool) : option string * FSpudGlobalData :=
  match Objects G !! ID with
  | Some _ => (Some ID, G)
  | None =>
      if AutoCreate then
        (Some ID,
         SetObjects G (<[ID := MkNamedObjectData ID EmptyObjectData]> (Objects G)))
      else (None, G)
  end.

Section WorldsAndGlobals.
Context `{Host} `{DataHost}.

(** [GetGlobalObjectData(Obj, AutoCreate)]. *)
Definition GetGlobalObjectData (G : FSpudGlobalData) (Obj : AActor)
    (AutoCreate : bool) : option string * FSpudGlobalData :=
  GetGlobalObjectData_ID G (GetGlobalObjectID Obj) AutoCreate.

(** [UpdateFromGlobalObject(Obj, Data)].  A global object is any
    UObject; of [AActor] only what every object has is looked at (name,
    class, hooks, properties).  No core data is written. *)
Definition UpdateFromGlobalObject_Data (Obj : AActor) (Data : option string)
    (G : FSpudGlobalData) : Logged (AActor * FSpudGlobalData) :=
  match Data ≫= (λ ID, (λ d, (ID, d)) <$> Objects G !! ID) with
  | None => mret (Obj, G)
  | Some (ID, Rec) =>
      let '(ClassDefIndex, Meta) :=
        FindOrAddClassDef (GlobalMetadata G) (GetClassName Obj) in
      let bIsCallback := bSpudObjectCallback Obj in
      _ ← emit (UE_LOG LogVerbose "* Global object: %s" [ActorName Obj]);
      let Obj := if bIsCallback then SpudPreSaveState Obj else Obj in
      let ClassDef :=
        default (MkClassDef (GetClassName Obj) [])
                (ClassDefinitions Meta !! ClassDefIndex) in
      let Visitor :=
        MkUpdateVisitor ClassDef (PropertyOffsets (Properties (NamedData Rec)))
          Meta [] [] in
      let '(_, Visitor') :=
        VisitPersistentProperties (ActorName Obj) (ActorProperties Obj)
          Visitor in
      let '(Obj, DestCustomData) :=
        if bIsCallback then
          let '(Obj1, Custom) := SpudFinaliseSaveState Obj in
          (SpudPostSaveState Obj1, Custom)
        else (Obj, CustomData (NamedData Rec)) in
      let Rec' :=
        MkNamedObjectData (NamedName Rec)
          (MkObjectData (CoreData (NamedData Rec))
             (MkPropertyData (UF_PropertyOffsets Visitor') (UF_Out Visitor'))
             DestCustomData) in
      ((Obj,
        MkGlobalData (CurrentLevel G)
          (SetClassDef (UF_Meta Visitor') ClassDefIndex (UF_ClassDef Visitor'))
          (<[ID := Rec']> (Objects G))),
       UF_Log Visitor')
  end.

(** [UpdateFromGlobalObject(Obj)] and [UpdateFromGlobalObject(Obj, ID)]. *)
Definition UpdateFromGlobalObject (Obj : AActor) (G : FSpudGlobalData)
  : Logged (AActor * FSpudGlobalData) :=
  let '(Data, G) := GetGlobalObjectData G Obj true in
  UpdateFromGlobalObject_Data Obj Data G.

Definition UpdateFromGlobalObject_ID (Obj : AActor) (ID : string)
    (G : FSpudGlobalData) : Logged (AActor * FSpudGlobalData) :=
  let '(Data, G) := GetGlobalObjectData_ID G ID true in
  UpdateFromGlobalObject_Data Obj Data G.

(** [RestoreGlobalObject(Obj, Data)]. *)
Definition RestoreGlobalObject_Data (Obj : AActor) (Data : option string)
    (G : FSpudGlobalData) : Logged AActor :=
  match Data ≫= (λ ID, Objects G !! ID) with
  | Some Rec =>
      _ ← emit (UE_LOG LogVerbose "Restoring Global Object %s" [NamedName Rec]);
      let Obj := PreRestoreObject Obj in
      Obj ← RestoreObjectProperties Obj (Properties (NamedData Rec))
              (GlobalMetadata G) None;
      mret (PostRestoreObject Obj (CustomData (NamedData Rec)))
  | None => mret Obj
  end.

(** [RestoreGlobalObject(Obj)] and [RestoreGlobalObject(Obj, ID)]. *)
Definition RestoreGlobalObject (Obj : AActor) (G : FSpudGlobalData)
  : Logged AActor :=
  RestoreGlobalObject_Data Obj (fst (GetGlobalObjectData G Obj false)) G.

Definition RestoreGlobalObject_ID (Obj : AActor) (ID : string)
    (G : FSpudGlobalData) : Logged AActor :=
  RestoreGlobalObject_Data Obj (fst (GetGlobalObjectData_ID G ID false)) G.

(** The loop of [UpdateFromLevel], the overload that takes the level,
    over the actors of the level. *)
Fixpoint UpdateFromLevelActors (Acts : list AActor) (LevelData : FSpudLevelData)
  : Logged (list AActor * FSpudLevelData) :=
  match Acts with
  | [] => mret ([], LevelData)
  | Actor :: rest =>
      '(Actor, LevelData) ←
        (if IsPersistentObject Actor then UpdateFromActor Actor LevelData
         else mret (Actor, LevelData));
      '(rest, LevelData) ← UpdateFromLevelActors rest LevelData;
      mret (Actor :: rest, LevelData)
  end.

(** [UpdateFromLevel], the overload that takes the level.
    [GetLevelData] with [AutoCreate] always finds or makes the data, so
    that the last case does not occur. *)
Definition UpdateFromLevel (SaveData : FSpudSaveData) (Level : ULevel)
  : Logged (ULevel * FSpudSaveData) :=
  let LevelName := GetLevelName Level in
  match GetLevelData SaveData LevelName true with
  | (Some LevelData, SaveData) =>
      let LevelData := PreUpdateFromWorld LevelData in
      '(Acts, LevelData) ← UpdateFromLevelActors (Actors Level) LevelData;
      mret (SetActors Level Acts, PutLevelData SaveData LevelName LevelData)
  | (None, SaveData) => mret (Level, SaveData)
  end.

(** The loop of [UpdateFromWorldImpl] over the levels of the world. *)
Fixpoint UpdateFromLevels (Levels : list ULevel) (bSingleLevel : bool)
    (OnlyLevel : string) (SaveData : FSpudSaveData)
  : Logged (list ULevel * FSpudSaveData) :=
  match Levels with
  | [] => mret ([], SaveData)
  | Level :: rest =>
      '(Level, SaveData) ←
        (if negb bSingleLevel || FString_eqb (GetLevelName Level) OnlyLevel
         then UpdateFromLevel SaveData Level
         else mret (Level, SaveData));
      '(rest, SaveData) ← UpdateFromLevels rest bSingleLevel OnlyLevel SaveData;
      mret (Level :: rest, SaveData)
  end.

(** [UpdateFromWorldImpl]. *)
Definition UpdateFromWorldImpl (World : UWorld) (bSingleLevel : bool)
    (OnlyLevel : string) (SaveData : FSpudSaveData) (G : FSpudGlobalData)
  : Logged (UWorld * FSpudSaveData * FSpudGlobalData) :=
  let G := SetCurrentLevel G (WorldName World) in
  '(Levels, SaveData) ←
    UpdateFromLevels (WorldLevels World) bSingleLevel OnlyLevel SaveData;
  mret (MkWorld (WorldName World) Levels, SaveData, G).

(** [UpdateFromWorld] and [UpdateFromLevel(World, LevelName)]. *)
Definition UpdateFromWorld (World : UWorld) (SaveData : FSpudSaveData)
    (G : FSpudGlobalData) :=
  UpdateFromWorldImpl World false "" SaveData G.

Definition UpdateFromLevel_World (World : UWorld) (LevelName : string)
    (SaveData : FSpudSaveData) (G : FSpudGlobalData) :=
  UpdateFromWorldImpl World true LevelName SaveData G.

(** The loop of [RestoreLoadedWorld(World, bSingleLevel, OnlyLevel)]. *)
Fixpoint RestoreLevels (Levels : list ULevel) (bSingleLevel : bool)
    (OnlyLevel : string) (SaveData : FSpudSaveData) : Logged (list ULevel) :=
  match Levels with
  | [] => mret []
  | Level :: rest =>
      Level ←
        (if negb (bLevelValid Level) then mret Level
         else if bSingleLevel &&
                 negb (FString_eqb (GetLevelName Level) OnlyLevel)
         then mret Level
         else RestoreLevel SaveData Level);
      rest ← RestoreLevels rest bSingleLevel OnlyLevel SaveData;
      mret (Level :: rest)
  end.

Definition RestoreLoadedWorld (World : UWorld) (bSingleLevel : bool)
    (OnlyLevel : string) (SaveData : FSpudSaveData) : Logged UWorld :=
  Levels ← RestoreLevels (WorldLevels World) bSingleLevel OnlyLevel SaveData;
  mret (MkWorld (WorldName World) Levels).

(** [RestoreLevel(World, LevelName)]. *)
Definition RestoreLevel_World (World : UWorld) (LevelName : string)
    (SaveData : FSpudSaveData) : Logged UWorld :=
  RestoreLoadedWorld World true LevelName SaveData.

End WorldsAndGlobals.

(* ===================================================================== *)
(** ** Further views *)
(* ===================================================================== *)

Fixpoint ContainsSlash (s : string) : bool :=
  match s with
  | EmptyString => false
  | String c rest => Ascii.eqb c "/" || ContainsSlash rest
  end.

Section FurtherViewsWithHost.
Context `{Host}.

(** The record in which [UpdateFromActor] stores an actor. *)
Definition SnapshotRef (Actor : AActor) : ObjectDataRef :=
  if ShouldActorBeRespawnedOnRestore Actor
  then SpawnedActorRef (SnapshotGuid Actor)
  else LevelActorRef (ActorName Actor).

End FurtherViewsWithHost.

Section WorldViews.
Context `{Host} `{DataHost}.

(** The levels [UpdateFromWorldImpl] saves, and those
    [RestoreLoadedWorld] restores. *)
Definition LevelIsSaved (bSingleLevel : bool) (OnlyLevel : string)
    (Level : ULevel) : bool :=
  negb bSingleLevel || FString_eqb (GetLevelName Level) OnlyLevel.

Definition LevelIsRestored (bSingleLevel : bool) (OnlyLevel : string)
    (Level : ULevel) : bool :=
  bLevelValid Level &&
  (negb bSingleLevel || FString_eqb (GetLevelName Level) OnlyLevel).

End WorldViews.

(** A registry that has grown without renumbering: names, prefixes and
    classes were appended, and each class definition lists the
    properties it listed, at the same positions, and maybe more. *)
Definition MetaGrows (m m' : FSpudClassMetadata) : Prop :=
  (∃ ns, PropertyNameIndex m' = PropertyNameIndex m ++ ns) /\
  (∃ ps, PrefixIndex m' = PrefixIndex m ++ ps) /\
  (∃ cs, ClassName <$> ClassDefinitions m'
         = (ClassName <$> ClassDefinitions m) ++ cs) /\
  ∀ i cd, ClassDefinitions m !! i = Some cd ->
    ∃ cd', ClassDefinitions m' !! i = Some cd' /\
           ClassName cd' = ClassName cd /\
           ∃ ds, ClassProperties cd' = ClassProperties cd ++ ds.

(* --------------------------------------------------------------------- *)
(** *** Views of the slow restoration path *)
(* --------------------------------------------------------------------- *)

(** The prefix ID the restore walk holds under a path of struct names:
    [GetNestedPrefixID] applied along the path, from the root. *)
Definition WalkPrefix (Meta : FSpudClassMetadata) (Path : list string)
  : PrefixID :=
  fold_left (λ P n, GetNestedPrefixID P n Meta) Path SPUDDATA_PREFIXID_NONE.

(** The index, in the stored class definition, of the property the slow
    visitor finds for a live leaf. *)
Definition StoredIndex (Meta : FSpudClassMetadata) (ClassDef : FSpudClassDef)
    (Leaf : list string * string * PropValue) : option nat :=
  ID ← GetPropertyIDFromName Meta (snd (fst Leaf));
  IndexOf (WalkPrefix Meta (fst (fst Leaf)), ID)
          (DefAddress <$> ClassProperties ClassDef).

(** The bytes of a sequence of stored values. *)
Definition EncodeValues (Values : list PropValue) : list byte :=
  List.flat_map ValueToRaw Values.

(** A live property in which every leaf that has a stored property has
    taken the stored value, and the other leaves are as they were. *)
Fixpoint SlowOverlay (Meta : FSpudClassMetadata) (ClassDef : FSpudClassDef)
    (Values : list PropValue) (Path : list string) (p : FProperty)
  : FProperty :=
  match p with
  | LeafProperty n v =>
      match StoredIndex Meta ClassDef (Path, n, v) ≫= (Values !!.) with
      | Some x => LeafProperty n x
      | None => p
      end
  | StructProperty n ms =>
      StructProperty n
        (List.map (SlowOverlay Meta ClassDef Values (Path ++ [n])) ms)
  | OtherProperty _ _ => p
  end.

(** A live leaf that has a stored property has the kind it was stored
    with. *)
Definition KindAsStored (Meta : FSpudClassMetadata) (ClassDef : FSpudClassDef)
    (Leaf : list string * string * PropValue) : Prop :=
  ∀ i, StoredIndex Meta ClassDef Leaf = Some i ->
       DataType <$> ClassProperties ClassDef !! i = Some (KindOf (snd Leaf)).

(** The live class meets the stored properties in the order in which
    they are stored, all of them, each with the kind it was stored
    with.  Properties added to the class since may sit anywhere. *)
Definition VisitsInStoredOrder (Meta : FSpudClassMetadata)
    (ClassDef : FSpudClassDef) (Props : list FProperty) : Prop :=
  omap (StoredIndex Meta ClassDef) (LeavesOf [] Props)
  = seq 0 (length (ClassProperties ClassDef)) /\
  Forall (KindAsStored Meta ClassDef) (LeavesOf [] Props).

(** The slow visitor with [c] of the stored values behind it. *)
Definition SlowAt (Meta : FSpudClassMetadata) (ClassDef : FSpudClassDef)
    (Values : list PropValue) (RuntimeObjects : option RuntimeObjectMap)
    (c : nat) (v : RestoreSlowPropertyVisitor) : Prop :=
  RS_ClassDef v = ClassDef /\ RS_Meta v = Meta /\
  RS_RuntimeObjects v = RuntimeObjects /\
  RS_DataIn v
  = MkReader (EncodeValues Values)
      (length (EncodeValues (take c Values))) false.


(* ===================================================================== *)
(** ** More of the small world *)
(* ===================================================================== *)

Module Demo2.

(** Global objects are known by their name; a level that is saved anew
    forgets the runtime actors it had stored. *)
Definition dataHost : DataHost := {|
  GetGlobalObjectID := ActorName;
  PreUpdateFromWorld := λ ld, SetSpawnedActors ld ∅
|}.

(** The door of [Demo], in the packaged game instead of a play-in-editor
    session. *)
Definition DoorInGame : AActor :=
  MkActor "Door_0" 0 (Some "/Game/Maps/Keep") "/Game/BP/Door.Door_C"
    AActorClass None false None false IdentityTransform None
    [LeafProperty "A" (VInt (Demo.Word x00));
     StructProperty "S" [LeafProperty "X" (VByte x00);
                         LeafProperty "A" (VBool false)];
     OtherProperty "Arr" [];
     LeafProperty "B" (VInt (Demo.Word x00))].

(** The class of the door after properties were added to it: a leaf in
    front, a leaf inside the struct, and a struct of its own. *)
Definition DoorExtended : AActor :=
  MkActor "Door_0" 0 (Some "/Game/Maps/Keep") "/Game/BP/Door.Door_C"
    AActorClass None false None false IdentityTransform None
    [LeafProperty "C" (VByte x33);
     LeafProperty "A" (VInt (Demo.Word x00));
     StructProperty "S" [LeafProperty "X" (VByte x00);
                         LeafProperty "Y" (VBool true);
                         LeafProperty "A" (VBool false)];
     OtherProperty "Arr" [];
     StructProperty "T" [LeafProperty "A" (VInt (Demo.Word x44))];
     LeafProperty "B" (VInt (Demo.Word x00))].

(** An actor of another class that stands where the door stood. *)
Definition Gate : AActor :=
  MkActor "Door_0" 0 (Some "/Game/Maps/Keep") "/Game/BP/Gate.Gate_C"
    AActorClass None false None false IdentityTransform None
    [LeafProperty "Open" (VBool false)].

(** The level data after the door alone was saved, the stored class
    definition of the door and the values of its record. *)
Definition DoorData : FSpudLevelData :=
  snd (fst (UpdateFromActor (H := Demo.host) (Demo.Door true x01 x02 [x09])
              EmptyLevelData)).

Definition DoorClassDef : FSpudClassDef :=
  default (MkClassDef "" [])
    (GetClassDef (Metadata DoorData) "/Game/BP/Door.Door_C").

Definition DoorValues : list PropValue :=
  [VInt (Demo.Word x01); VByte x07; VBool true; VInt (Demo.Word x02)].

(** A world with the keep and a level that is not valid. *)
Definition KeepWorld : UWorld :=
  MkWorld "KeepWorld" [Demo.Keep; MkLevel false None []].

End Demo2.

(* ===================================================================== *)
(** * Properties *)
(* ===================================================================== *)

Section Routing.
Context `{Host}.

Lemma IsA_character_is_pawn (Actor : AActor) :
  IsA Actor ACharacterClass = true -> IsA Actor APawnClass = true.
Proof. unfold IsA. by destruct (NativeClass Actor). Qed.


End Routing.

Section Flags.
Context `{Host}.

Lemma HasAnyFlags_lor (f a b : Z) :
  HasAnyFlags f (Z.lor a b) = HasAnyFlags f a || HasAnyFlags f b.
Proof.
  unfold HasAnyFlags. rewrite Z.land_lor_distr_r.
  destruct (Z.eqb_spec (Z.land f a) 0) as [Ha|Ha];
  destruct (Z.eqb_spec (Z.land f b) 0) as [Hb|Hb]; simpl.
  - rewrite Ha, Hb. reflexivity.
  - apply negb_true_iff, Z.eqb_neq. rewrite Z.lor_eq_0_iff. tauto.
  - apply negb_true_iff, Z.eqb_neq. rewrite Z.lor_eq_0_iff. tauto.
  - apply negb_true_iff, Z.eqb_neq. rewrite Z.lor_eq_0_iff. tauto.
Qed.

Lemma RF_Skipped_spec (a : AActor) :
  ActorHasAnyFlags a RF_Skipped = true <->
  ActorHasAnyFlags a RF_ClassDefaultObject = true \/
  ActorHasAnyFlags a RF_ArchetypeObject = true \/
  ActorHasAnyFlags a RF_BeginDestroyed = true.
Proof.
  unfold ActorHasAnyFlags, RF_Skipped.
  rewrite !HasAnyFlags_lor, !orb_true_iff. tauto.
Qed.

(** C10.  For an actor that carries any of the flags class-default
    object, archetype or begin-destroyed, [UpdateFromActor] and
    [RestoreActor], in both their overloads, return at once: the actor,
    the level data and the save data come back as they were and nothing
    is logged. *)
Theorem C10_flagged_actor_is_skipped (Actor : AActor)
    (LevelData : FSpudLevelData) (SaveData : FSpudSaveData)
    (RuntimeObjects : option RuntimeObjectMap) :
  ActorHasAnyFlags Actor RF_ClassDefaultObject = true \/
  ActorHasAnyFlags Actor RF_ArchetypeObject = true \/
  ActorHasAnyFlags Actor RF_BeginDestroyed = true ->
  UpdateFromActor Actor LevelData = ((Actor, LevelData), []) /\
  UpdateFromActor_Obj SaveData Actor = ((Actor, SaveData), []) /\
  RestoreActor Actor LevelData RuntimeObjects = (Actor, []) /\
  RestoreActor_Actor SaveData Actor = (Actor, []).
Proof.
  intros Hf. apply RF_Skipped_spec in Hf.
  unfold UpdateFromActor, UpdateFromActor_Obj, RestoreActor, RestoreActor_Actor.
  rewrite Hf. auto.
Qed.

End Flags.

Lemma C10_flagged_actor_is_skipped_witness :
  ActorHasAnyFlags Demo.ClassDefaultDoor RF_ClassDefaultObject = true /\
  UpdateFromActor (H := Demo.host) Demo.ClassDefaultDoor Demo.KeepData
  = ((Demo.ClassDefaultDoor, Demo.KeepData), []) /\
  RestoreActor (H := Demo.host) Demo.ClassDefaultDoor Demo.KeepData None
  = (Demo.ClassDefaultDoor, []).
Proof.
  assert (Hf : ActorHasAnyFlags Demo.ClassDefaultDoor RF_ClassDefaultObject
               = true) by reflexivity.
  split; [exact Hf |].
  destruct (C10_flagged_actor_is_skipped (H := Demo.host)
              Demo.ClassDefaultDoor Demo.KeepData Demo.KeepSave None
              (or_introl Hf)) as (H1 & _ & H3 & _).
  split; [exact H1 | exact H3].
Defined.

(* --------------------------------------------------------------------- *)
(** *** Raw values read back as written *)
(* --------------------------------------------------------------------- *)

#[export] Instance RawLaws_bool : RawLaws bool.
Proof. split; [done | done | by intros []]. Qed.

#[export] Instance RawLaws_byte : RawLaws byte.
Proof. split; done. Qed.

#[export] Instance RawLaws_UInt16 : RawLaws UInt16.
Proof. split; [done | done | by intros []]. Qed.

#[export] Instance RawLaws_Raw32 : RawLaws Raw32.
Proof. split; [done | by intros [[[??]?]?] | by intros [[[??]?]?]]. Qed.

#[export] Instance RawLaws_FVector : RawLaws FVector.
Proof.
  split; [done | |];
    intros [[[[??]?]?] [[[??]?]?] [[[??]?]?]]; reflexivity.
Qed.

#[export] Instance RawLaws_FQuat : RawLaws FQuat.
Proof.
  split; [done | |];
    intros [[[[??]?]?] [[[??]?]?] [[[??]?]?] [[[??]?]?]]; reflexivity.
Qed.

#[export] Instance RawLaws_FTransform : RawLaws FTransform.
Proof.
  split; [done | |];
    intros [[[[[??]?]?] [[[??]?]?] [[[??]?]?] [[[??]?]?]]
            [[[[??]?]?] [[[??]?]?] [[[??]?]?]]
            [[[[??]?]?] [[[??]?]?] [[[??]?]?]]]; reflexivity.
Qed.

Section Reader.

(** Reading at a position where the bytes of [x] start yields [x] and
    moves the position past them. *)
Lemma ReadRaw_at {T} `{RawLaws T} (Dest x : T) (Data Post : list byte) (o : nat) :
  drop o Data = ToRaw x ++ Post ->
  ReadRaw Dest (MkReader Data o false)
  = (x, MkReader Data (o + RawSize) false).
Proof.
  intros Hd. unfold ReadRaw, Serialize. simpl.
  destruct (Nat.eqb_spec RawSize 0) as [E|Hpos]; [by destruct RawSize_pos |].
  simpl.
  assert (Hlen : (o + RawSize ≤ length Data)%nat).
  { assert (Hl := f_equal length Hd).
    rewrite length_drop, length_app, ToRaw_length in Hl. lia. }
  destruct (Nat.leb_spec (o + RawSize) (length Data)); [| lia].
  rewrite Hd, take_app_length' by (by rewrite ToRaw_length).
  by rewrite OfRaw_ToRaw.
Qed.

Lemma drop_past {T} `{RawLaws T} (x : T) (Data Post : list byte) (o : nat) :
  drop o Data = ToRaw x ++ Post -> drop (o + RawSize) Data = Post.
Proof.
  intros Hd. rewrite <- drop_drop, Hd.
  apply drop_app_length'. by rewrite ToRaw_length.
Qed.

End Reader.

Section CoreData.
Context `{Host}.

Lemma GetSpawnedActorData_lookup (Actor : AActor) (LevelData : FSpudLevelData) :
  ∃ r l, GetSpawnedActorData Actor LevelData false = ((r, Actor, LevelData), l).
Proof.
  unfold GetSpawnedActorData. rewrite andb_false_r.
  destruct (negb (GuidIsValid (GetGuidProperty Actor))); [by eauto |].
  destruct (SpawnedActors LevelData !! GetGuidProperty Actor); by eauto.
Qed.

(** What [RestoreActor] does once it has found the actor's record. *)
Lemma RestoreActor_found (Actor : AActor) (LevelData : FSpudLevelData)
    (RuntimeObjects : option RuntimeObjectMap) (ActorData : FSpudObjectData) :
  ActorHasAnyFlags Actor RF_Skipped = false ->
  StoredActorData Actor LevelData = Some ActorData ->
  fst (RestoreActor Actor LevelData RuntimeObjects) =
  PostRestoreObject
    (fst (RestoreObjectProperties
            (fst (RestoreCoreActorData (PreRestoreObject Actor)
                    (CoreData ActorData)))
            (Properties ActorData) (Metadata LevelData) RuntimeObjects))
    (CustomData ActorData).
Proof.
  intros Hf Hd. unfold RestoreActor, StoredActorData in *. rewrite Hf.
  destruct (ShouldActorBeRespawnedOnRestore Actor).
  - destruct (GetSpawnedActorData_lookup Actor LevelData) as (r & l & E).
    rewrite E in *. simpl in *. rewrite Hd. simpl.
    destruct (RestoreCoreActorData _ _) as [a1 l1]. simpl.
    destruct (RestoreObjectProperties _ _ _ _) as [a2 l2]. reflexivity.
  - simpl in *. rewrite Hd. simpl.
    destruct (RestoreCoreActorData _ _) as [a1 l1]. simpl.
    destruct (RestoreObjectProperties _ _ _ _) as [a2 l2]. reflexivity.
Qed.

(** Reading back the version-1 layout. *)
Lemma RestoreCoreActorData_V1 (Actor : AActor) (h : bool) (t : FTransform)
    (v w : FVector) (Rest : list byte) :
  RestoreCoreActorData Actor (CoreDataV1 h t v w ++ Rest)
  = (ApplyCoreV1 Actor h t v w, []).
Proof.
  unfold RestoreCoreActorData, CoreDataV1, ApplyCoreV1.
  set (Data := (_ ++ _) ++ Rest).
  assert (D0 : drop 0 Data
               = ToRaw CoreDataVersion ++
                 (ToRaw h ++ ToRaw t ++ ToRaw v ++ ToRaw w ++ Rest)).
  { subst Data. rewrite drop_0. by rewrite <- !app_assoc. }
  rewrite (ReadRaw_at _ _ _ _ _ D0).
  apply drop_past in D0.
  change (UInt16_to_Z CoreDataVersion =? 1)%Z with true. cbv iota.
  rewrite (ReadRaw_at _ _ _ _ _ D0). apply drop_past in D0.
  rewrite (ReadRaw_at _ _ _ _ _ D0). apply drop_past in D0.
  rewrite (ReadRaw_at _ _ _ _ _ D0). apply drop_past in D0.
  rewrite (ReadRaw_at _ _ _ _ _ D0).
  simpl RootComponent.
  destruct (RootComponent Actor) as [c|]; [| done].
  destruct (IsMovablePhysicsRoot c); [| done].
  by destruct (bIsPrimitive c).
Qed.

Lemma StoredCoreVersion_V1 (h : bool) (t : FTransform) (v w : FVector)
    (Rest : list byte) :
  StoredCoreVersion (CoreDataV1 h t v w ++ Rest) = 1%Z.
Proof. reflexivity. Qed.

End CoreData.

Section GuidAutoCreate.
Context `{Host}.

Lemma GetSpawnedActorData_blank (Actor : AActor) (LevelData : FSpudLevelData)
    (g : FGuid) :
  SpudGuid Actor = Some g -> GuidIsValid g = false ->
  ∃ LevelData',
    GetSpawnedActorData Actor LevelData true
    = ((Some (SpawnedActorRef NewGuid), SetSpudGuid Actor (Some NewGuid),
        LevelData'), []) /\
    is_Some (ReadObjectData LevelData' (SpawnedActorRef NewGuid)) /\
    LevelActors LevelData' = LevelActors LevelData.
Proof.
  intros Hg Hv. unfold GetSpawnedActorData, GetGuidProperty, SetGuidProperty.
  rewrite Hg. simpl. rewrite Hv. simpl.
  destruct (SpawnedActors LevelData !! NewGuid) as [r|] eqn:E.
  - exists LevelData. split; [done |]. split; [| done].
    simpl. rewrite E. by eexists.
  - destruct (FindOrAddClassIDFromName _ _) as [ID Meta] eqn:EF.
    eexists. split; [done |]. split; [| done].
    simpl. rewrite lookup_insert_eq. by eexists.
Qed.

Lemma GetSpawnedActorData_no_property (Actor : AActor)
    (LevelData : FSpudLevelData) (AutoCreate : bool) :
  SpudGuid Actor = None ->
  GetSpawnedActorData Actor LevelData AutoCreate
  = ((None, Actor, LevelData), MissingGuidLog Actor).
Proof.
  intros Hg. unfold GetSpawnedActorData, GetGuidProperty, SetGuidProperty.
  rewrite Hg. simpl. by destruct AutoCreate.
Qed.

Lemma GetSpawnedActorData_valid (Actor : AActor) (LevelData : FSpudLevelData)
    (g : FGuid) :
  SpudGuid Actor = Some g -> GuidIsValid g = true ->
  ∃ LevelData',
    GetSpawnedActorData Actor LevelData true
    = ((Some (SpawnedActorRef g), Actor, LevelData'), []) /\
    is_Some (ReadObjectData LevelData' (SpawnedActorRef g)) /\
    LevelActors LevelData' = LevelActors LevelData.
Proof.
  intros Hg Hv. unfold GetSpawnedActorData, GetGuidProperty.
  rewrite Hg. simpl. rewrite Hv. simpl.
  destruct (SpawnedActors LevelData !! g) as [r|] eqn:E.
  - exists LevelData. split; [done |]. split; [| done].
    simpl. rewrite E. by eexists.
  - destruct (FindOrAddClassIDFromName _ _) as [ID Meta] eqn:EF.
    eexists. split; [done |]. split; [| done].
    simpl. rewrite lookup_insert_eq. by eexists.
Qed.

(** C9.  [GetSpawnedActorData] with AutoCreate returns no record exactly
    when the actor has no SpudGuid property; it then logs the error and
    changes nothing, and [UpdateFromActor] writes no record for the
    actor.  When the actor has the property and its value is blank, the
    call takes a new GUID from the engine and writes it into the live
    actor's SpudGuid property, so that the snapshot returns an actor
    that differs from the one it was given. *)
Theorem C9_snapshot_sets_blank_guid (Actor : AActor)
    (LevelData : FSpudLevelData) :
  (fst (fst (fst (GetSpawnedActorData Actor LevelData true))) = None
   <-> SpudGuid Actor = None) /\
  (SpudGuid Actor = None ->
   GetSpawnedActorData Actor LevelData true
   = ((None, Actor, LevelData), MissingGuidLog Actor)) /\
  (SpudGuid Actor = None ->
   ActorHasAnyFlags Actor RF_Skipped = false ->
   ShouldActorBeRespawnedOnRestore Actor = true ->
   fst (fst (UpdateFromActor Actor LevelData)) = Actor /\
   snd (UpdateFromActor Actor LevelData) = MissingGuidLog Actor /\
   LevelActors (snd (fst (UpdateFromActor Actor LevelData)))
   = LevelActors LevelData /\
   SpawnedActors (snd (fst (UpdateFromActor Actor LevelData)))
   = SpawnedActors LevelData) /\
  (∀ g, SpudGuid Actor = Some g -> GuidIsValid g = false ->
   (∃ LevelData',
      GetSpawnedActorData Actor LevelData true
      = ((Some (SpawnedActorRef NewGuid), SetSpudGuid Actor (Some NewGuid),
          LevelData'), []) /\
      is_Some (SpawnedActors LevelData' !! NewGuid)) /\
   (ActorHasAnyFlags Actor RF_Skipped = false ->
    ShouldActorBeRespawnedOnRestore Actor = true ->
    bSpudObjectCallback Actor = false ->
    fst (fst (UpdateFromActor Actor LevelData))
    = SetSpudGuid Actor (Some NewGuid))).
Proof.
  split; [| split; [| split]].
  - destruct (SpudGuid Actor) as [g|] eqn:Hg.
    + split; [| done]. intros E.
      destruct (GuidIsValid g) eqn:Hv.
      * destruct (GetSpawnedActorData_valid Actor LevelData g Hg Hv)
          as (ld & E1 & _). by rewrite E1 in E.
      * destruct (GetSpawnedActorData_blank Actor LevelData g Hg Hv)
          as (ld & E1 & _). by rewrite E1 in E.
    + by rewrite GetSpawnedActorData_no_property.
  - apply GetSpawnedActorData_no_property.
  - intros Hg Hf Hr. unfold UpdateFromActor. rewrite Hf, Hr.
    destruct (FindOrAddClassDef _ _) as [i Meta].
    rewrite GetSpawnedActorData_no_property by done. by simpl.
  - intros g Hg Hv. split.
    + destruct (GetSpawnedActorData_blank Actor LevelData g Hg Hv)
        as (ld & E1 & [d Hd] & _).
      exists ld. split; [done |]. simpl in Hd.
      destruct (SpawnedActors ld !! NewGuid); [by eexists | done].
    + intros Hf Hr Hc. unfold UpdateFromActor. rewrite Hf, Hr.
      destruct (FindOrAddClassDef _ _) as [i Meta].
      destruct (GetSpawnedActorData_blank Actor (SetMetadata LevelData Meta)
                  g Hg Hv) as (ld & E1 & [d Hd] & _).
      rewrite E1. simpl in *. rewrite Hd. simpl. rewrite Hc.
      destruct (VisitPersistentProperties _ _ _) as [ps V']. reflexivity.
Qed.

End GuidAutoCreate.

Lemma C9_snapshot_sets_blank_guid_witness :
  (SpudGuid Demo.BlankEnemy = Some InvalidGuid /\
   GuidIsValid InvalidGuid = false /\
   ActorHasAnyFlags Demo.BlankEnemy RF_Skipped = false /\
   ShouldActorBeRespawnedOnRestore (H := Demo.host) Demo.BlankEnemy = true /\
   bSpudObjectCallback Demo.BlankEnemy = false) /\
  fst (fst (UpdateFromActor (H := Demo.host) Demo.BlankEnemy Demo.KeepData))
  = SetSpudGuid Demo.BlankEnemy (Some (1, 2, 3, 4)%N) /\
  (SpudGuid (Demo.Door false x00 x00 []) = None /\
   ActorHasAnyFlags (Demo.Door false x00 x00 []) RF_Skipped = false /\
   ShouldActorBeRespawnedOnRestore (H := Demo.hostAllRuntime)
     (Demo.Door false x00 x00 []) = true) /\
  SpawnedActors
    (snd (fst (UpdateFromActor (H := Demo.hostAllRuntime)
                 (Demo.Door false x00 x00 []) Demo.KeepData)))
  = SpawnedActors Demo.KeepData.
Proof.
  assert (Hg : SpudGuid Demo.BlankEnemy = Some InvalidGuid) by reflexivity.
  assert (Hv : GuidIsValid InvalidGuid = false) by reflexivity.
  assert (Hf : ActorHasAnyFlags Demo.BlankEnemy RF_Skipped = false)
    by reflexivity.
  assert (Hr : ShouldActorBeRespawnedOnRestore (H := Demo.host)
                 Demo.BlankEnemy = true) by reflexivity.
  assert (Hc : bSpudObjectCallback Demo.BlankEnemy = false) by reflexivity.
  assert (Hg' : SpudGuid (Demo.Door false x00 x00 []) = None) by reflexivity.
  assert (Hf' : ActorHasAnyFlags (Demo.Door false x00 x00 []) RF_Skipped
                = false) by reflexivity.
  assert (Hr' : ShouldActorBeRespawnedOnRestore (H := Demo.hostAllRuntime)
                  (Demo.Door false x00 x00 []) = true) by reflexivity.
  split; [by repeat split |].
  split.
  - destruct (C9_snapshot_sets_blank_guid (H := Demo.host) Demo.BlankEnemy
                Demo.KeepData) as (_ & _ & _ & H4).
    exact (proj2 (H4 _ Hg Hv) Hf Hr Hc).
  - split; [by repeat split |].
    destruct (C9_snapshot_sets_blank_guid (H := Demo.hostAllRuntime)
                (Demo.Door false x00 x00 []) Demo.KeepData) as (_ & _ & H3 & _).
    exact (proj2 (proj2 (proj2 (H3 Hg' Hf' Hr')))).
Defined.

(* --------------------------------------------------------------------- *)
(** *** Walking the properties *)
(* --------------------------------------------------------------------- *)

(** Induction over a property and, for a struct, over its members. *)
Lemma FProperty_ind' (P : FProperty -> Prop) :
  (∀ n v, P (LeafProperty n v)) ->
  (∀ n ms, Forall P ms -> P (StructProperty n ms)) ->
  (∀ n m, P (OtherProperty n m)) ->
  ∀ p, P p.
Proof.
  intros Hl Hs Ho. fix IH 1. intros [n v|n ms|n m].
  - apply Hl.
  - apply Hs. induction ms as [|q ms IHms]; constructor; [apply IH | apply IHms].
  - apply Ho.
Qed.

Section Walk.
Context {V : Type} `{PropertyVisitor V}.
Variable RootObject : string.

(** The members of a struct are walked like any list of properties. *)
Lemma VisitOne_struct (n : string) (ms : list FProperty) (Prefix : PrefixID)
    (Depth : nat) (v : V) :
  VisitOne RootObject (StructProperty n ms) Prefix Depth v =
  let '((_, go), v1) :=
    VisitProperty v RootObject (StructProperty n ms) Prefix Depth in
  if go then
    let '(NewPrefix, v2) := GetNestedPrefix v1 n Prefix in
    let '((ms', go'), v3) := VisitList RootObject ms NewPrefix (S Depth) v2 in
    ((StructProperty n ms', go'), v3)
  else ((StructProperty n ms, false), v1).
Proof.
  simpl.
  destruct (VisitProperty v RootObject (StructProperty n ms) Prefix Depth)
    as [[p' go] v1].
  destruct go; [| reflexivity].
  destruct (GetNestedPrefix v1 n Prefix) as [NewPrefix v2].
  lazymatch goal with
  | |- context [?F ms v2] =>
      assert (E : ∀ l w, F l w = VisitList RootObject l NewPrefix (S Depth) w)
  end.
  { induction l as [|q l IHl]; intros w; [reflexivity |].
    simpl. destruct (VisitOne RootObject q NewPrefix (S Depth) w) as [[q' go1] w1].
    destruct go1; [| reflexivity]. by rewrite IHl. }
  by rewrite E.
Qed.

Lemma VisitList_cons (q : FProperty) (l : list FProperty) (Prefix : PrefixID)
    (Depth : nat) (v : V) :
  VisitList RootObject (q :: l) Prefix Depth v =
  let '((q', go1), v1) := VisitOne RootObject q Prefix Depth v in
  if go1 then
    let '((l'', go2), v2) := VisitList RootObject l Prefix Depth v1 in
    ((q' :: l'', go2), v2)
  else ((q' :: l, false), v1).
Proof. reflexivity. Qed.

End Walk.

Lemma LeavesOf_cons (Path : list string) (p : FProperty) (l : list FProperty) :
  LeavesOf Path (p :: l) = LeavesOfProperty Path p ++ LeavesOf Path l.
Proof. reflexivity. Qed.

Lemma LeavesOfProperty_struct (Path : list string) (n : string)
    (ms : list FProperty) :
  LeavesOfProperty Path (StructProperty n ms) = LeavesOf (Path ++ [n]) ms.
Proof. reflexivity. Qed.

Section FastPath.

Lemma LeavesOf_length_list (l : list FProperty) :
  Forall (λ p, ∀ P Q, length (LeavesOfProperty P p)
                      = length (LeavesOfProperty Q p)) l ->
  ∀ P Q, length (LeavesOf P l) = length (LeavesOf Q l).
Proof.
  induction 1 as [|q l Hq _ IHl]; intros P Q; [done |].
  rewrite !LeavesOf_cons, !length_app. by rewrite (Hq P Q), (IHl P Q).
Qed.

(** The number of leaves does not depend on the path they are under. *)
Lemma LeavesOfProperty_length (p : FProperty) (P Q : list string) :
  length (LeavesOfProperty P p) = length (LeavesOfProperty Q p).
Proof.
  revert P Q. induction p as [n x|n ms IH|n m] using FProperty_ind';
    intros P Q; [done | | done].
  rewrite !LeavesOfProperty_struct. by apply LeavesOf_length_list.
Qed.

Lemma StoredEntriesNeeded_struct (n : string) (ms : list FProperty) :
  StoredEntriesNeeded (StructProperty n ms)
  = Nat.max 1 (StoredEntriesNeededBy ms).
Proof. reflexivity. Qed.

Lemma StoredEntriesNeededBy_cons (q : FProperty) (l : list FProperty) :
  StoredEntriesNeededBy (q :: l)
  = Nat.max (StoredEntriesNeeded q)
      (length (LeavesOfProperty [] q) + StoredEntriesNeededBy l).
Proof. reflexivity. Qed.

(** A visit with the iterator inside the stored list. *)
Lemma FastVisit_in_range (v : RestoreFastPropertyVisitor) (RootObject : string)
    (Property : FProperty) (Prefix : PrefixID) (Depth : nat)
    (StoredProperty : FSpudPropertyDef) :
  ClassProperties (RF_ClassDef v) !! RF_StoredPropertyIterator v
  = Some StoredProperty ->
  VisitProperty v RootObject Property Prefix Depth
  = let '((Property', DataIn), Log) :=
      RestoreProperty RootObject Property (Some StoredProperty)
        (RF_RuntimeObjects v) (RF_DataIn v) in
    ((Property', true),
     MkFastVisitor
       (if IsCustomStructProperty Property
        then RF_StoredPropertyIterator v
        else S (RF_StoredPropertyIterator v))
       DataIn (RF_ClassDef v) (RF_Meta v) (RF_RuntimeObjects v)
       (RF_Log v ++ Log)).
Proof.
  intros E. cbn -[RestoreProperty]. rewrite E.
  destruct (RestoreProperty _ _ _ _ _) as [[p' In'] l].
  by destruct (IsCustomStructProperty Property).
Qed.

Lemma RestoreProperty_only_log_lines (r : string) (p : FProperty)
    (sp : option FSpudPropertyDef) (ro : option RuntimeObjectMap)
    (i : FMemoryReader) :
  OnlyLogLines (snd (RestoreProperty r p sp ro i)).
Proof.
  unfold RestoreProperty.
  destruct p as [n x| |]; try constructor.
  destruct sp as [sp|]; [| constructor].
  destruct (PropKind_eqb _ _).
  - destruct (ReadValue x i). constructor.
  - by repeat constructor.
Qed.

Lemma FastWalk_list (RootObject : string) (l : list FProperty) :
  Forall (FastWalkAdvances RootObject) l ->
  ∀ (Path : list string) (Prefix : PrefixID) (Depth : nat)
    (v : RestoreFastPropertyVisitor),
    (RF_StoredPropertyIterator v + StoredEntriesNeededBy l
     ≤ length (ClassProperties (RF_ClassDef v)))%nat ->
    let r := VisitList RootObject l Prefix Depth v in
    RF_StoredPropertyIterator (snd r)
    = (RF_StoredPropertyIterator v + length (LeavesOf Path l))%nat /\
    snd (fst r) = true /\
    RF_ClassDef (snd r) = RF_ClassDef v /\
    (OnlyLogLines (RF_Log v) -> OnlyLogLines (RF_Log (snd r))).
Proof.
  induction 1 as [|q l Hq _ IHl]; intros Path Prefix Depth v Hn.
  - simpl. split; [lia | done].
  - rewrite StoredEntriesNeededBy_cons in Hn.
    cbv zeta. rewrite VisitList_cons, LeavesOf_cons, length_app.
    destruct (Hq Path Prefix Depth v) as (Hi & Hgo & Hcd & Hlog); [lia |].
    destruct (VisitOne RootObject q Prefix Depth v) as [[q' go1] w1].
    simpl in Hi, Hgo, Hcd, Hlog. subst go1.
    destruct (IHl Path Prefix Depth w1) as (Hi2 & Hgo2 & Hcd2 & Hlog2).
    { rewrite Hi, Hcd, (LeavesOfProperty_length q Path []). lia. }
    destruct (VisitList RootObject l Prefix Depth w1) as [[l' go2] w2].
    simpl in *. split; [lia |]. split; [done |].
    split; [congruence | auto].
Qed.

Lemma FastWalk_iterator (RootObject : string) (p : FProperty) :
  FastWalkAdvances RootObject p.
Proof.
  induction p as [n x|n ms IH|n m] using FProperty_ind';
    intros Path Prefix Depth v Hn.
  - simpl in Hn.
    destruct (lookup_lt_is_Some_2 (ClassProperties (RF_ClassDef v))
                (RF_StoredPropertyIterator v)) as [sp Esp]; [lia |].
    cbv zeta. cbn [VisitOne].
    rewrite (FastVisit_in_range _ _ _ _ _ _ Esp).
    assert (Hl := RestoreProperty_only_log_lines RootObject (LeafProperty n x)
                    (Some sp) (RF_RuntimeObjects v) (RF_DataIn v)).
    destruct (RestoreProperty _ _ _ _ _) as [[p' In'] l]. simpl in *.
    split; [lia |]. split; [done |]. split; [done |].
    intros H0. by apply Forall_app.
  - rewrite StoredEntriesNeeded_struct in Hn.
    destruct (lookup_lt_is_Some_2 (ClassProperties (RF_ClassDef v))
                (RF_StoredPropertyIterator v)) as [sp Esp]; [lia |].
    cbv zeta. rewrite VisitOne_struct, LeavesOfProperty_struct.
    rewrite (FastVisit_in_range _ _ _ _ _ _ Esp).
    cbn [RestoreProperty IsCustomStructProperty GetNestedPrefix
         RestoreFastPropertyVisitor_visitor mret Logged_ret].
    destruct (FastWalk_list RootObject ms IH (Path ++ [n])
                (GetNestedPrefixID Prefix n (RF_Meta v)) (S Depth)
                (MkFastVisitor (RF_StoredPropertyIterator v) (RF_DataIn v)
                   (RF_ClassDef v) (RF_Meta v) (RF_RuntimeObjects v)
                   (RF_Log v ++ []))) as (Hi & Hgo & Hcd & Hlog);
      [simpl; lia |].
    destruct (VisitList _ _ _ _ _) as [[ms' go'] v3].
    simpl in *. rewrite app_nil_r in Hlog. done.
  - simpl. split; [lia | done].
Qed.

(** C4.  On the fast path a visit takes the stored property at the
    iterator, for a custom struct as for a leaf.  When there is one,
    it is the one handed to [RestoreProperty]; the visit of a leaf then
    moves the iterator on by exactly one entry and the visit of a
    custom struct leaves it where it is.  Over the walk of a property
    list that finds the entries it needs, the iterator advances by the
    number of leaves in the list, those nested in structs included.
    When the iterator stands at the end of the stored list, the visit,
    of a custom struct also, is an access outside the list. *)
Theorem C4_fast_path_consumes_one_per_leaf (v : RestoreFastPropertyVisitor)
    (RootObject : string) (Prefix : PrefixID) (Depth : nat) :
  let Stored := ClassProperties (RF_ClassDef v) in
  let It := RF_StoredPropertyIterator v in
  (∀ (Property : FProperty) (StoredProperty : FSpudPropertyDef),
     Stored !! It = Some StoredProperty ->
     let r := VisitProperty v RootObject Property Prefix Depth in
     snd (fst r) = true /\
     RF_StoredPropertyIterator (snd r)
     = (if IsCustomStructProperty Property then It else S It) /\
     (fst (fst r), RF_DataIn (snd r))
     = fst (RestoreProperty RootObject Property (Some StoredProperty)
              (RF_RuntimeObjects v) (RF_DataIn v))) /\
  (∀ Props : list FProperty,
     (It + StoredEntriesNeededBy Props ≤ length Stored)%nat ->
     let r := VisitList RootObject Props Prefix Depth v in
     snd (fst r) = true /\
     RF_StoredPropertyIterator (snd r) = (It + length (LeavesOf [] Props))%nat /\
     (OnlyLogLines (RF_Log v) -> OnlyLogLines (RF_Log (snd r)))) /\
  (∀ Property : FProperty,
     (length Stored ≤ It)%nat ->
     let r := VisitProperty v RootObject Property Prefix Depth in
     snd (fst r) = false /\
     OutOfRangeAccess It (length Stored) ∈ RF_Log (snd r)).
Proof.
  intros Stored It. subst Stored It. split; [| split].
  - intros Property sp Esp r. subst r.
    rewrite (FastVisit_in_range _ _ _ _ _ _ Esp).
    destruct (RestoreProperty _ _ _ _ _) as [[p' In'] l]. done.
  - intros Props Hn.
    destruct (FastWalk_list RootObject Props
                (proj2 (Forall_forall _ Props)
                   (λ q _, FastWalk_iterator RootObject q))
                [] Prefix Depth v Hn) as (Hi & Hgo & _ & Hlog).
    done.
  - intros Property Hend r. subst r. cbn -[RestoreProperty].
    rewrite (lookup_ge_None_2 _ _ Hend). simpl.
    split; [done |]. apply elem_of_app. right. apply list_elem_of_here.
Qed.

End FastPath.

Lemma C4_fast_path_consumes_one_per_leaf_witness :
  let v :=
    MkFastVisitor 0
      (MkReader [x01; x00; x00; x00; x07; x01; x02; x00; x00; x00] 0 false)
      Demo2.DoorClassDef (Metadata Demo2.DoorData) None [] in
  let Door := Demo.Door false x00 x00 [] in
  (ClassProperties (RF_ClassDef v) !! RF_StoredPropertyIterator v
   = Some (MkPropertyDef 0 SPUDDATA_PREFIXID_NONE KInt) /\
   (RF_StoredPropertyIterator v + StoredEntriesNeededBy (ActorProperties Door)
    ≤ length (ClassProperties (RF_ClassDef v)))%nat) /\
  RF_StoredPropertyIterator
    (snd (VisitProperty v "Door_0" (LeafProperty "A" (VInt (Demo.Word x00)))
            SPUDDATA_PREFIXID_NONE 0)) = 1%nat /\
  RF_StoredPropertyIterator
    (snd (VisitProperty v "Door_0"
            (StructProperty "S" [LeafProperty "X" (VByte x00)])
            SPUDDATA_PREFIXID_NONE 0)) = 0%nat /\
  RF_StoredPropertyIterator
    (snd (VisitList "Door_0" (ActorProperties Door)
            SPUDDATA_PREFIXID_NONE 0 v)) = 4%nat.
Proof.
  intros v Door.
  assert (H1 : ClassProperties (RF_ClassDef v) !! RF_StoredPropertyIterator v
               = Some (MkPropertyDef 0 SPUDDATA_PREFIXID_NONE KInt))
    by reflexivity.
  assert (H2 : (RF_StoredPropertyIterator v
                + StoredEntriesNeededBy (ActorProperties Door)
                ≤ length (ClassProperties (RF_ClassDef v)))%nat)
    by (vm_compute; lia).
  split; [by split |].
  destruct (C4_fast_path_consumes_one_per_leaf v "Door_0"
              SPUDDATA_PREFIXID_NONE 0) as (V1 & V2 & _).
  split; [exact (proj1 (proj2 (V1 _ _ H1))) |].
  split; [exact (proj1 (proj2 (V1 _ _ H1))) |].
  exact (proj1 (proj2 (V2 _ H2))).
Defined.

(* --------------------------------------------------------------------- *)
(** *** Restoring a level *)
(* --------------------------------------------------------------------- *)

Section LevelRestore.
Context `{Host}.

(** C8.  When [RestoreLevel] is called for a level for which the save
    data holds no level data, it logs one warning and returns the level
    as it was: nothing is respawned, restored or destroyed, and the save
    data is not touched either. *)
Theorem C8_missing_level_data (SaveData : FSpudSaveData) (Level : ULevel) :
  bLevelValid Level = true ->
  LevelDataMap SaveData !! GetLevelName Level = None ->
  RestoreLevel SaveData Level
  = (Level,
     [UE_LOG LogWarning "Unable to restore level %s because data is missing"
        [GetLevelName Level]]) /\
  snd (GetLevelData SaveData (GetLevelName Level) false) = SaveData.
Proof.
  intros Hv Hn. unfold RestoreLevel, GetLevelData. rewrite Hv, Hn. done.
Qed.

Lemma StaticFindObject_name (Level : ULevel) (n : string) (a : AActor) :
  StaticFindObject Level n = Some a -> ActorName a = n.
Proof.
  unfold StaticFindObject. intros Hf. apply find_some in Hf as [_ E].
  by apply String.eqb_eq.
Qed.

Lemma StaticFindObject_absent (Level : ULevel) (n : string) :
  n ∉ ActorNames Level -> StaticFindObject Level n = None.
Proof.
  unfold StaticFindObject, ActorNames. destruct Level as [bv om acts]. simpl.
  induction acts as [|a acts IH]; [done |]. simpl. intros Hn.
  destruct (String.eqb_spec (ActorName a) n) as [E|E].
  - destruct Hn. rewrite <- E. apply list_elem_of_here.
  - apply IH. intros Hin. apply Hn. by apply list_elem_of_further.
Qed.

Lemma RemoveActor_names (n : string) (acts : list AActor) :
  NoDup (ActorName <$> acts) ->
  NoDup (ActorName <$> RemoveActor n acts) /\
  (n ∉ (ActorName <$> RemoveActor n acts)) /\
  (∀ m, m ∈ (ActorName <$> RemoveActor n acts) -> m ∈ (ActorName <$> acts)).
Proof.
  induction acts as [|a acts IH]; simpl; intros Hnd.
  - split; [constructor | split; [apply not_elem_of_nil | done]].
  - apply NoDup_cons in Hnd as [Ha Hnd].
    destruct (String.eqb_spec (ActorName a) n) as [E|E].
    + subst n. split; [done |]. split; [done |].
      intros m Hm. by apply list_elem_of_further.
    + destruct (IH Hnd) as (I1 & I2 & I3). simpl. split; [| split].
      * apply NoDup_cons. split; [| done]. intros Hin. apply Ha. by apply I3.
      * intros Hin. apply elem_of_cons in Hin as [Hin|Hin]; [congruence | done].
      * intros m Hm. apply elem_of_cons in Hm as [->|Hm];
          [apply list_elem_of_here | apply list_elem_of_further, I3, Hm].
Qed.

(** One removal: the name is gone afterwards, and what is logged is at
    most the one engine call that removes it. *)
Lemma DestroyActor_spec (n : string) (Level : ULevel) :
  NoDup (ActorNames Level) ->
  let r := DestroyActor n Level in
  NoDup (ActorNames (fst r)) /\
  (n ∉ ActorNames (fst r)) /\
  (∀ m, m ∈ ActorNames (fst r) -> m ∈ ActorNames Level) /\
  (snd r = [] \/ snd r = [CallDestroyActor n]).
Proof.
  intros Hnd. unfold DestroyActor.
  destruct (StaticFindObject Level n) as [a|] eqn:Hf.
  - rewrite (StaticFindObject_name _ _ _ Hf).
    destruct (RemoveActor_names n (Actors Level) Hnd) as (I1 & I2 & I3).
    simpl. unfold ActorNames. simpl. auto.
  - simpl. split; [done |]. split; [| split; [done | by left]].
    intros Hin. unfold StaticFindObject in Hf.
    unfold ActorNames in Hin. apply list_elem_of_fmap in Hin as (a & -> & Ha).
    apply list_elem_of_In in Ha.
    apply (find_none _ _ Hf) in Ha. by rewrite String.eqb_refl in Ha.
Qed.

Lemma DestroyActor_absent (n : string) (Level : ULevel) :
  n ∉ ActorNames Level -> DestroyActor n Level = (Level, []).
Proof.
  intros Hn. unfold DestroyActor. by rewrite StaticFindObject_absent.
Qed.

Lemma DestroyRecordedActors_app (l1 l2 : list string) (Level : ULevel) :
  DestroyRecordedActors (l1 ++ l2) Level =
  let '(L1, t1) := DestroyRecordedActors l1 Level in
  let '(L2, t2) := DestroyRecordedActors l2 L1 in
  (L2, t1 ++ t2).
Proof.
  revert Level. induction l1 as [|m l1 IH]; intros Level; simpl.
  - by destruct (DestroyRecordedActors l2 Level).
  - unfold mbind, Logged_bind.
    destruct (DestroyActor m Level) as [La ta]. rewrite IH.
    destruct (DestroyRecordedActors l1 La) as [L1 t1].
    destruct (DestroyRecordedActors l2 L1) as [L2 t2].
    by rewrite app_assoc.
Qed.

Lemma DestroyRecordedActors_names (l : list string) (Level : ULevel) :
  NoDup (ActorNames Level) ->
  NoDup (ActorNames (fst (DestroyRecordedActors l Level))) /\
  (∀ m, m ∈ ActorNames (fst (DestroyRecordedActors l Level)) ->
        m ∈ ActorNames Level) /\
  Forall (λ e, IsLogLine e = false /\ IsSpawnCall e = false /\
               IsRestoreCall e = false)
    (snd (DestroyRecordedActors l Level)).
Proof.
  revert Level. induction l as [|m l IH]; intros Level Hnd; simpl.
  - split; [done |]. split; [done | constructor].
  - unfold mbind, Logged_bind.
    destruct (DestroyActor_spec m Level Hnd) as (I1 & I2 & I3 & I4).
    destruct (DestroyActor m Level) as [La ta]. simpl in *.
    destruct (IH La I1) as (J1 & J2 & J3).
    destruct (DestroyRecordedActors l La) as [L1 t1]. simpl in *.
    split; [done |]. split; [by auto |].
    apply Forall_app. split; [| done].
    destruct I4 as [-> | ->]; [constructor | by repeat constructor].
Qed.

Lemma DestroyRecordedActors_absent (n : string) (l : list string)
    (Level : ULevel) :
  NoDup (ActorNames Level) ->
  n ∉ ActorNames Level ->
  List.filter (IsDestroyOf n) (snd (DestroyRecordedActors l Level)) = [].
Proof.
  revert Level. induction l as [|m l IH]; intros Level Hnd Hn; simpl; [done |].
  unfold mbind, Logged_bind.
  destruct (DestroyActor_spec m Level Hnd) as (I1 & I2 & I3 & I4).
  destruct (DestroyActor m Level) as [La ta] eqn:Ea. simpl in *.
  assert (Hn' : n ∉ ActorNames La) by (intros Hin; by apply Hn, I3).
  specialize (IH La I1 Hn').
  destruct (DestroyRecordedActors l La) as [L1 t1]. simpl in *.
  rewrite List.filter_app, IH, app_nil_r.
  destruct I4 as [-> | ->]; [done |]. simpl.
  destruct (String.eqb_spec m n) as [->|_]; [| done].
  rewrite DestroyActor_absent in Ea by done. by inversion Ea.
Qed.

Lemma DestroyRecordedActors_at_most_once (n : string) (l : list string)
    (Level : ULevel) :
  NoDup (ActorNames Level) ->
  (length (List.filter (IsDestroyOf n) (snd (DestroyRecordedActors l Level)))
   ≤ 1)%nat.
Proof.
  revert Level. induction l as [|m l IH]; intros Level Hnd; simpl; [lia |].
  unfold mbind, Logged_bind.
  destruct (DestroyActor_spec m Level Hnd) as (I1 & I2 & I3 & I4).
  destruct (DestroyActor m Level) as [La ta] eqn:Ea. simpl in *.
  assert (IHa := IH La I1).
  assert (Hab := DestroyRecordedActors_absent n l La I1).
  destruct (DestroyRecordedActors l La) as [L1 t1]. simpl in *.
  rewrite List.filter_app, length_app.
  destruct I4 as [-> | ->]; [simpl; lia |]. simpl.
  destruct (String.eqb_spec m n) as [->|_]; [| simpl; lia].
  rewrite Hab by done. simpl. lia.
Qed.

(** C7.  Recording the same level actor as destroyed twice appends its
    name twice, without a check and without a complaint.  Restoring
    from the list with the double entry does what restoring from the
    list with the single entry does, engine call for engine call: the
    actor of that name is removed at most once, the second attempt
    finds nothing and does nothing, nothing is logged, and the name is
    gone from the level. *)
Theorem C7_destroyed_twice_is_idempotent (Actor : AActor)
    (LevelData : FSpudLevelData) (Level : ULevel) :
  NoDup (ActorNames Level) ->
  let Name := GetLevelActorName Actor in
  let Once := UpdateLevelActorDestroyed Actor LevelData in
  let Twice := UpdateLevelActorDestroyed Actor Once in
  DestroyedActors Twice = DestroyedActors LevelData ++ [Name; Name] /\
  DestroyRecordedActors (DestroyedActors Twice) Level
  = DestroyRecordedActors (DestroyedActors Once) Level /\
  (length (List.filter (IsDestroyOf Name)
             (snd (DestroyRecordedActors (DestroyedActors Twice) Level)))
   ≤ 1)%nat /\
  Forall (λ e, IsLogLine e = false)
    (snd (DestroyRecordedActors (DestroyedActors Twice) Level)) /\
  Name ∉ ActorNames (fst (DestroyRecordedActors (DestroyedActors Twice) Level)).
Proof.
  intros Hnd Name Once Twice.
  assert (E2 : DestroyedActors Twice
               = DestroyedActors Once ++ [Name]) by reflexivity.
  assert (E1 : DestroyedActors Once
               = DestroyedActors LevelData ++ [Name]) by reflexivity.
  assert (Hsame : DestroyRecordedActors (DestroyedActors Twice) Level
                  = DestroyRecordedActors (DestroyedActors Once) Level
                  /\ Name ∉ ActorNames
                       (fst (DestroyRecordedActors (DestroyedActors Once) Level))).
  { rewrite E2, DestroyRecordedActors_app.
    assert (Hgone : Name ∉ ActorNames
              (fst (DestroyRecordedActors (DestroyedActors Once) Level))).
    { rewrite E1, DestroyRecordedActors_app.
      destruct (DestroyRecordedActors_names (DestroyedActors LevelData)
                  Level Hnd) as (J1 & _ & _).
      destruct (DestroyRecordedActors (DestroyedActors LevelData) Level)
        as [L1 t1]. simpl in *.
      unfold mbind, Logged_bind.
      destruct (DestroyActor_spec Name L1 J1) as (_ & I2 & _ & _).
      destruct (DestroyActor Name L1) as [L2 t2]. by simpl in *. }
    split; [| done].
    destruct (DestroyRecordedActors (DestroyedActors Once) Level) as [L1 t1].
    simpl in *. unfold mbind, Logged_bind.
    rewrite DestroyActor_absent by done. simpl. by rewrite app_nil_r. }
  destruct Hsame as [Hs Hg].
  split; [by rewrite E2, E1, <- app_assoc |]. split; [done |].
  split; [by apply DestroyRecordedActors_at_most_once |].
  split.
  - destruct (DestroyRecordedActors_names (DestroyedActors Twice) Level Hnd)
      as (_ & _ & J3).
    eapply Forall_impl; [exact J3 |]. by intros e (? & _).
  - by rewrite Hs.
Qed.

End LevelRestore.

Lemma C8_missing_level_data_witness :
  (bLevelValid Demo.Keep = true /\
   LevelDataMap (MkSaveData ∅) !! GetLevelName Demo.Keep = None) /\
  RestoreLevel (H := Demo.host) (MkSaveData ∅) Demo.Keep
  = (Demo.Keep,
     [UE_LOG LogWarning "Unable to restore level %s because data is missing"
        ["Keep"]]).
Proof.
  assert (Hv : bLevelValid Demo.Keep = true) by reflexivity.
  assert (Hn : LevelDataMap (MkSaveData ∅) !! GetLevelName Demo.Keep = None)
    by reflexivity.
  split; [by split |].
  exact (proj1 (C8_missing_level_data (H := Demo.host) (MkSaveData ∅)
                  Demo.Keep Hv Hn)).
Defined.

Lemma C7_destroyed_twice_is_idempotent_witness :
  NoDup (ActorNames Demo.Keep) /\
  DestroyRecordedActors
    (DestroyedActors
       (UpdateLevelActorDestroyed (Demo.Door false x00 x00 []) Demo.KeepData))
    Demo.Keep
  = DestroyRecordedActors (DestroyedActors Demo.KeepData) Demo.Keep.
Proof.
  assert (Hnd : NoDup (ActorNames Demo.Keep)).
  { apply (bool_decide_unpack _). vm_compute. exact I. }
  split; [exact Hnd |].
  destruct (C7_destroyed_twice_is_idempotent (Demo.Door false x00 x00 [])
              (snd (fst (UpdateFromActor (H := Demo.host)
                 (Demo.Door true x01 x02 [x09])
                 (snd (fst (UpdateFromActor (H := Demo.host) Demo.Guard
                    (SetLevelDataName EmptyLevelData "Keep")))))))
              Demo.Keep Hnd) as (_ & H2 & _).
  exact H2.
Defined.

Section WalkInvariant.
Context {V : Type} `{PropertyVisitor V}.
Variable Inv : V -> Prop.
Hypothesis Inv_visit :
  ∀ v r p P D, Inv v -> Inv (snd (VisitProperty v r p P D)).
Hypothesis Inv_unsupported :
  ∀ v r p P D, Inv v -> Inv (UnsupportedProperty v r p P D).
Hypothesis Inv_prefix :
  ∀ v n P, Inv v -> Inv (snd (GetNestedPrefix v n P)).

Lemma Walk_invariant_list (RootObject : string) (l : list FProperty) :
  Forall (λ p, ∀ P D v, Inv v -> Inv (snd (VisitOne RootObject p P D v))) l ->
  ∀ P D v, Inv v -> Inv (snd (VisitList RootObject l P D v)).
Proof using Type.
  induction 1 as [|q l Hq _ IHl]; intros P D v Hv; [done |].
  rewrite VisitList_cons.
  specialize (Hq P D v Hv).
  destruct (VisitOne RootObject q P D v) as [[q' go1] w1]. simpl in Hq.
  destruct go1; [| done].
  specialize (IHl P D w1 Hq).
  by destruct (VisitList RootObject l P D w1) as [[l' go2] w2].
Qed.

Lemma Walk_invariant_one (RootObject : string) (p : FProperty) :
  ∀ P D v, Inv v -> Inv (snd (VisitOne RootObject p P D v)).
Proof using Inv_visit Inv_unsupported Inv_prefix.
  induction p as [n x|n ms IH|n m] using FProperty_ind'; intros P D v Hv.
  - by apply Inv_visit.
  - rewrite VisitOne_struct.
    assert (H1 := Inv_visit v RootObject (StructProperty n ms) P D Hv).
    destruct (VisitProperty v RootObject (StructProperty n ms) P D)
      as [[p' go] v1]. simpl in H1.
    destruct go; [| done].
    assert (H2 := Inv_prefix v1 n P H1).
    destruct (GetNestedPrefix v1 n P) as [NP v2]. simpl in H2.
    assert (H3 := Walk_invariant_list RootObject ms IH NP (S D) v2 H2).
    by destruct (VisitList RootObject ms NP (S D) v2) as [[ms' go'] v3].
  - by apply Inv_unsupported.
Qed.

Lemma Walk_invariant (RootObject : string) (l : list FProperty) :
  ∀ P D v, Inv v -> Inv (snd (VisitList RootObject l P D v)).
Proof using Inv_visit Inv_unsupported Inv_prefix.
  apply Walk_invariant_list, Forall_forall. intros p _.
  apply Walk_invariant_one.
Qed.

End WalkInvariant.

Section RestoreLogs.
Context `{Host}.

Lemma OnlyLogLines_no_calls (t : list Event) :
  OnlyLogLines t -> NoEngineCalls t.
Proof. intros Ht. eapply Forall_impl; [exact Ht |]. by intros []. Qed.

Lemma RestoreProperty_logs (r : string) (p : FProperty)
    (sp : option FSpudPropertyDef) (ro : option RuntimeObjectMap)
    (i : FMemoryReader) :
  NoEngineCalls (snd (RestoreProperty r p sp ro i)).
Proof. apply OnlyLogLines_no_calls, RestoreProperty_only_log_lines. Qed.

Lemma FastWalk_logs (r : string) (l : list FProperty) (P : PrefixID) (D : nat)
    (v : RestoreFastPropertyVisitor) :
  NoEngineCalls (RF_Log v) ->
  NoEngineCalls (RF_Log (snd (VisitList r l P D v))).
Proof.
  apply (Walk_invariant (λ v, NoEngineCalls (RF_Log v))); try done.
  intros w r' p P' D' Hw. cbn -[RestoreProperty].
  destruct (ClassProperties (RF_ClassDef w) !! RF_StoredPropertyIterator w)
    as [sp|].
  - assert (Hl := RestoreProperty_logs r' p (Some sp)
                    (RF_RuntimeObjects w) (RF_DataIn w)).
    destruct (RestoreProperty _ _ _ _ _) as [[p' In'] lg]. simpl in *.
    by apply Forall_app.
  - simpl. apply Forall_app. split; [done | by repeat constructor].
Qed.

Lemma SlowWalk_logs (r : string) (l : list FProperty) (P : PrefixID) (D : nat)
    (v : RestoreSlowPropertyVisitor) :
  NoEngineCalls (RS_Log v) ->
  NoEngineCalls (RS_Log (snd (VisitList r l P D v))).
Proof.
  apply (Walk_invariant (λ v, NoEngineCalls (RS_Log v))); try done.
  intros w r' p P' D' Hw. cbn -[RestoreProperty PropertyLookup].
  destruct (IsCustomStructProperty p); [done |].
  destruct (PropertyLookup (RS_ClassDef w) !! P') as [inner|];
    [| by apply Forall_app; split; [| repeat constructor]].
  destruct (GetPropertyIDFromName (RS_Meta w) (PropertyName p)) as [id|];
    [| by apply Forall_app; split; [| repeat constructor]].
  destruct (inner !! id) as [ix|];
    [| by apply Forall_app; split; [| repeat constructor]].
  destruct (_ || _); [by apply Forall_app; split; [| repeat constructor] |].
  assert (Hl := RestoreProperty_logs r' p
                  (ClassProperties (RS_ClassDef w) !! Z.to_nat ix)
                  (RS_RuntimeObjects w) (RS_DataIn w)).
  destruct (RestoreProperty _ _ _ _ _) as [[p' In'] lg]. simpl in *.
  by apply Forall_app.
Qed.

Lemma RestoreObjectProperties_logs (Obj : AActor) (d : FSpudPropertyData)
    (Meta : FSpudClassMetadata) (ro : option RuntimeObjectMap) :
  NoEngineCalls (snd (RestoreObjectProperties Obj d Meta ro)).
Proof.
  unfold RestoreObjectProperties.
  destruct (GetClassDef Meta (GetClassName Obj)) as [cd|];
    [| by repeat constructor].
  destruct (MatchesRuntimeClass cd Meta (ActorProperties Obj)).
  - unfold RestoreObjectPropertiesFast, VisitPersistentProperties.
    assert (Hl := FastWalk_logs (ActorName Obj) (ActorProperties Obj)
                    SPUDDATA_PREFIXID_NONE 0
                    (MkFastVisitor 0 (MkReader (PropData d) 0 false) cd Meta ro [])).
    destruct (VisitList _ _ _ _ _) as [[ps go] v']. simpl in *.
    constructor; [done | apply Hl; constructor].
  - unfold RestoreObjectPropertiesSlow, VisitPersistentProperties.
    assert (Hl := SlowWalk_logs (ActorName Obj) (ActorProperties Obj)
                    SPUDDATA_PREFIXID_NONE 0
                    (MkSlowVisitor (MkReader (PropData d) 0 false) cd Meta ro [])).
    destruct (VisitList _ _ _ _ _) as [[ps go] v']. simpl in *.
    constructor; [done | apply Hl; constructor].
Qed.

Lemma RestoreCoreActorData_logs (Actor : AActor) (d : list byte) :
  OnlyLogLines (snd (RestoreCoreActorData Actor d)).
Proof.
  unfold RestoreCoreActorData.
  destruct (ReadRaw _ _) as [ver In0].
  destruct (_ =? _)%Z; [| by repeat constructor].
  destruct (ReadRaw _ _) as [hid In1].
  destruct (ReadRaw _ _) as [xf In2].
  destruct (ReadRaw _ _) as [vel In3].
  destruct (ReadRaw _ _) as [ang In4].
  destruct (RootComponent _) as [c|]; [| constructor].
  destruct (IsMovablePhysicsRoot c); [| constructor].
  destruct (bIsPrimitive c); constructor.
Qed.

Lemma GetSpawnedActorData_logs (Actor : AActor) (ld : FSpudLevelData)
    (b : bool) :
  OnlyLogLines (snd (GetSpawnedActorData Actor ld b)).
Proof.
  unfold GetSpawnedActorData.
  destruct (negb (GuidIsValid (GetGuidProperty Actor)) && b).
  - destruct (SetGuidProperty Actor NewGuid) as [ok a'].
    destruct ok; simpl.
    + destruct (SpawnedActors ld !! NewGuid); [constructor |].
      destruct b; [| constructor].
      destruct (FindOrAddClassIDFromName _ _). constructor.
    + by repeat constructor.
  - destruct (negb (GuidIsValid (GetGuidProperty Actor))); simpl.
    + by repeat constructor.
    + destruct (SpawnedActors ld !! GetGuidProperty Actor); [constructor |].
      destruct b; [| constructor].
      destruct (FindOrAddClassIDFromName _ _). constructor.
Qed.

Lemma RestoreActor_logs (Actor : AActor) (ld : FSpudLevelData)
    (ro : option RuntimeObjectMap) :
  NoEngineCalls (snd (RestoreActor Actor ld ro)).
Proof.
  unfold RestoreActor.
  destruct (ActorHasAnyFlags Actor RF_Skipped); [constructor |].
  assert (H0 := OnlyLogLines_no_calls _
                  (GetSpawnedActorData_logs Actor ld false)).
  destruct (ShouldActorBeRespawnedOnRestore Actor);
    unfold mbind, Logged_bind, emit;
    [destruct (GetSpawnedActorData Actor ld false) as [[[r a] ld'] l0] |];
    cbn [mret Logged_ret fst snd] in *;
    (lazymatch goal with
     | |- context [option_bind _ _ (ReadObjectData ld) ?x] =>
         destruct (option_bind _ _ (ReadObjectData ld) x) as [d|]
     end;
     [ lazymatch goal with
       | |- context [RestoreCoreActorData ?a ?c] =>
           assert (H1 := OnlyLogLines_no_calls _
                           (RestoreCoreActorData_logs a c));
           destruct (RestoreCoreActorData a c) as [a1 l1]
       end;
       assert (H2 := RestoreObjectProperties_logs a1 (Properties d)
                       (Metadata ld) ro);
       destruct (RestoreObjectProperties _ _ _ _) as [a2 l2];
       cbn [fst snd] in *
     | cbn [fst snd] ];
     unfold NoEngineCalls in *;
     simpl;
     repeat (rewrite Forall_app || rewrite Forall_cons || rewrite Forall_nil);
     simpl; intuition).
Qed.

(** The trace of [RestoreActor] for an actor whose record is found
    holds log lines only, when the restore of the properties logs
    nothing else; what the restore of the core data logs is in it. *)
Lemma RestoreActor_found_log (Actor : AActor) (LevelData : FSpudLevelData)
    (RuntimeObjects : option RuntimeObjectMap) (ActorData : FSpudObjectData) :
  ActorHasAnyFlags Actor RF_Skipped = false ->
  StoredActorData Actor LevelData = Some ActorData ->
  (OnlyLogLines
     (snd (RestoreObjectProperties
             (fst (RestoreCoreActorData (PreRestoreObject Actor)
                     (CoreData ActorData)))
             (Properties ActorData) (Metadata LevelData) RuntimeObjects)) ->
   OnlyLogLines (snd (RestoreActor Actor LevelData RuntimeObjects))) /\
  (∀ e, e ∈ snd (RestoreCoreActorData (PreRestoreObject Actor)
                   (CoreData ActorData)) ->
        e ∈ snd (RestoreActor Actor LevelData RuntimeObjects)).
Proof.
  intros Hf Hd. unfold RestoreActor, StoredActorData in *. rewrite Hf.
  assert (H0 := GetSpawnedActorData_logs Actor LevelData false).
  assert (H1 := RestoreCoreActorData_logs (PreRestoreObject Actor)
                  (CoreData ActorData)).
  destruct (ShouldActorBeRespawnedOnRestore Actor).
  - destruct (GetSpawnedActorData_lookup Actor LevelData) as (r & l & E).
    rewrite E in *. simpl in *. rewrite Hd. simpl.
    destruct (RestoreCoreActorData _ _) as [a1 l1]. simpl in *.
    destruct (RestoreObjectProperties _ _ _ _) as [a2 l2]. simpl.
    split.
    + intros H2. unfold OnlyLogLines in *.
      repeat (rewrite Forall_app || rewrite Forall_cons || rewrite Forall_nil).
      by repeat split.
    + intros e He. rewrite ?elem_of_app, ?elem_of_cons, ?elem_of_app. auto.
  - simpl in *. rewrite Hd. simpl.
    destruct (RestoreCoreActorData _ _) as [a1 l1]. simpl in *.
    destruct (RestoreObjectProperties _ _ _ _) as [a2 l2]. simpl.
    split.
    + intros H2. unfold OnlyLogLines in *.
      repeat (rewrite Forall_app || rewrite Forall_cons || rewrite Forall_nil).
      by repeat split.
    + intros e He. rewrite ?elem_of_app, ?elem_of_cons, ?elem_of_app. auto.
Qed.

End RestoreLogs.

Section Ordering.
Context `{Host}.

Lemma TableIncludes_insert (T : RuntimeObjectMap) (g : FGuid) (n : string) :
  TableIncludes T (<[g := n]> T).
Proof.
  intros g' Hg'. destruct (decide (g = g')) as [->|Hne].
  - rewrite lookup_insert_eq. by eexists.
  - by rewrite lookup_insert_ne.
Qed.

Lemma TableIncludes_refl (T : RuntimeObjectMap) : TableIncludes T T.
Proof. by intros g Hg. Qed.


Lemma TableIncludes_trans (T1 T2 T3 : RuntimeObjectMap) :
  TableIncludes T1 T2 -> TableIncludes T2 T3 -> TableIncludes T1 T3.
Proof. intros H12 H23 g Hg. by apply H23, H12. Qed.



(** The second loop: what it logs are restore calls and log lines; the
    table every [RestoreActor] call is given includes the table the
    loop started with. *)
Lemma RestoreLevelActors_spec (Acts : list AActor) (LevelData : FSpudLevelData) :
  ∀ T : RuntimeObjectMap,
    let res := RestoreLevelActors Acts LevelData T in
    Forall (λ e, IsSpawnCall e = false /\ IsDestroyCall e = false) (snd res) /\
    TableIncludes T (snd (fst res)) /\
    (∀ a T', CallRestoreActor a T' ∈ snd res ->
       ∃ Tm, T' = Some Tm /\ TableIncludes T Tm) /\
    (∀ a, a ∈ Acts -> IsPersistentObject a = true ->
       ∃ T', CallRestoreActor (ActorName a) T' ∈ snd res).
Proof.
  induction Acts as [|a Acts IH]; intros T; simpl.
  - split; [constructor |]. split; [apply TableIncludes_refl |]. split.
    + intros a T' Hin. by apply not_elem_of_nil in Hin.
    + intros a Hin. by apply not_elem_of_nil in Hin.
  - unfold mbind, Logged_bind, emit.
    destruct (IsPersistentObject a) eqn:Hp.
    + assert (Hl := RestoreActor_logs a LevelData (Some T)).
      destruct (RestoreActor a LevelData (Some T)) as [a1 l1]. simpl in Hl.
      simpl.
      set (T1 := if GuidIsValid (GetGuidProperty a1)
                 then <[GetGuidProperty a1 := ActorName a1]> T else T).
      assert (HT : TableIncludes T T1).
      { subst T1. destruct (GuidIsValid _);
          [apply TableIncludes_insert | apply TableIncludes_refl]. }
      destruct (IH T1) as (I1 & I2 & I3 & I4).
      destruct (RestoreLevelActors Acts LevelData T1) as [[rest T2] t2].
      simpl in *. rewrite !app_nil_r.
      split; [| split; [| split]].
      * constructor; [done |]. apply Forall_app. split; [| done].
        eapply Forall_impl; [exact Hl |]. by intros [] E.
      * by eapply TableIncludes_trans.
      * intros a' T' Hin. apply elem_of_cons in Hin as [E|Hin].
        { inversion E. exists T. split; [done | apply TableIncludes_refl]. }
        apply elem_of_app in Hin as [Hin|Hin].
        { eapply Forall_forall in Hl; [| exact Hin]. done. }
        destruct (I3 a' T' Hin) as (Tm & -> & Hm).
        exists Tm. split; [done |]. by eapply TableIncludes_trans.
      * intros a' Hin Hp'. apply elem_of_cons in Hin as [->|Hin].
        { exists (Some T). apply list_elem_of_here. }
        destruct (I4 a' Hin Hp') as [T' HT'].
        exists T'. apply list_elem_of_further, elem_of_app. by right.
    + simpl. destruct (IH T) as (I1 & I2 & I3 & I4).
      destruct (RestoreLevelActors Acts LevelData T) as [[rest T2] t2].
      simpl in *. rewrite !app_nil_r.
      split; [done |]. split; [done |]. split; [done |].
      intros a' Hin Hp'. apply elem_of_cons in Hin as [->|Hin]; [congruence |].
      by apply I4.
Qed.


End Ordering.


(* --------------------------------------------------------------------- *)
(** *** The slow path *)
(* --------------------------------------------------------------------- *)

Section SlowPath.
Context `{Host}.

(** The path [RestoreObjectProperties] takes is the answer of
    [MatchesRuntimeClass]. *)
Lemma RestoreObjectProperties_path (Obj : AActor) (d : FSpudPropertyData)
    (Meta : FSpudClassMetadata) (ro : option RuntimeObjectMap)
    (cd : FSpudClassDef) :
  GetClassDef Meta (GetClassName Obj) = Some cd ->
  RestoreObjectProperties Obj d Meta ro =
  if MatchesRuntimeClass cd Meta (ActorProperties Obj)
  then RestoreObjectPropertiesFast Obj d Meta cd ro
  else RestoreObjectPropertiesSlow Obj d Meta cd ro.
Proof. intros E. unfold RestoreObjectProperties. by rewrite E. Qed.

End SlowPath.

(** C2, at the input where the code departs from it.  A door is saved
    with A = 1 and B = 2 and restored into the same class after the two
    fields changed places.  The stored definition no longer matches, the
    slow path is taken, both properties are found by name in the stored
    definition, and yet B receives 1 and A receives 2: the slow visitor
    reads each value at the position the reader has reached and never
    moves the reader to the offset recorded for the property it has
    found. *)
Theorem C2_slow_path_reads_in_live_order :
  let LevelData :=
    snd (fst (UpdateFromActor (H := Demo.host) (Demo.Door true x01 x02 [])
                EmptyLevelData)) in
  let Restored :=
    fst (RestoreActor (H := Demo.host) Demo.DoorReordered LevelData None) in
  (∃ cd, GetClassDef (Metadata LevelData) "/Game/BP/Door.Door_C" = Some cd /\
         MatchesRuntimeClass cd (Metadata LevelData)
           (ActorProperties (Demo.Door true x01 x02 [])) = true /\
         MatchesRuntimeClass cd (Metadata LevelData)
           (ActorProperties Demo.DoorReordered) = false) /\
  LeavesOf [] (ActorProperties (Demo.Door true x01 x02 []))
  = [([], "A", VInt (Demo.Word x01)); (["S"], "X", VByte x07);
     (["S"], "A", VBool true); ([], "B", VInt (Demo.Word x02))] /\
  LeavesOf [] (ActorProperties Restored)
  = [([], "B", VInt (Demo.Word x01)); (["S"], "X", VByte x07);
     (["S"], "A", VBool true); ([], "A", VInt (Demo.Word x02))].
Proof.
  intros LevelData Restored. split; [| split].
  - eexists. split; [vm_compute; reflexivity |].
    split; vm_compute; reflexivity.
  - reflexivity.
  - vm_compute. reflexivity.
Qed.

(* --------------------------------------------------------------------- *)
(** *** The registry: IDs are stable *)
(* --------------------------------------------------------------------- *)

Section Interning.
Context {A : Type} `{EqDecision A}.

Lemma IndexOf_Some_lookup (x : A) (l : list A) (i : nat) :
  IndexOf x l = Some i -> l !! i = Some x.
Proof.
  revert i. induction l as [|y l IH]; intros i; simpl; [done |].
  destruct (decide (y = x)) as [->|Hne].
  - intros E. by inversion E.
  - destruct (IndexOf x l) as [j|]; simpl; [| done].
    intros E. inversion E; subst i. simpl. by apply IH.
Qed.

Lemma IndexOf_None (x : A) (l : list A) :
  IndexOf x l = None <-> x ∉ l.
Proof.
  induction l as [|y l IH]; simpl.
  - split; [intros _; apply not_elem_of_nil | done].
  - destruct (decide (y = x)) as [->|Hne].
    + split; [done |]. intros Hn. destruct Hn. apply list_elem_of_here.
    + destruct (IndexOf x l) as [j|]; simpl.
      * split; [done |]. intros Hn. exfalso. apply Hn.
        apply list_elem_of_further. destruct IH as [_ IH].
        destruct (decide (x ∈ l)) as [Hin|Hnin]; [done |].
        by specialize (IH Hnin).
      * split; [| done]. intros _ Hin.
        apply elem_of_cons in Hin as [->|Hin]; [done |].
        destruct IH as [IH _]. by apply IH.
Qed.

Lemma IndexOf_app_l (x : A) (l k : list A) (i : nat) :
  IndexOf x l = Some i -> IndexOf x (l ++ k) = Some i.
Proof.
  revert i. induction l as [|y l IH]; intros i; simpl; [done |].
  destruct (decide (y = x)); [done |].
  destruct (IndexOf x l) as [j|]; simpl; [| done].
  intros E. by rewrite (IH j eq_refl).
Qed.

Lemma IndexOf_snoc_new (x : A) (l : list A) :
  IndexOf x l = None -> IndexOf x (l ++ [x]) = Some (length l).
Proof.
  induction l as [|y l IH]; simpl.
  - intros _. by rewrite decide_True.
  - destruct (decide (y = x)); [done |].
    destruct (IndexOf x l) as [j|]; simpl; [done |].
    intros _. by rewrite IH.
Qed.

Lemma IndexOf_inj (x y : A) (l : list A) (i : nat) :
  IndexOf x l = Some i -> IndexOf y l = Some i -> x = y.
Proof.
  intros Hx Hy. apply IndexOf_Some_lookup in Hx, Hy. congruence.
Qed.

Lemma IndexOf_elem (x : A) (l : list A) :
  x ∈ l -> is_Some (IndexOf x l).
Proof.
  intros Hin. destruct (IndexOf x l) as [i|] eqn:E; [by eexists |].
  by apply IndexOf_None in E.
Qed.

(** [FindOrAdd] appends at most the new entry and returns its ID. *)
Lemma FindOrAdd_spec (x : A) (l l' : list A) (i : nat) :
  FindOrAdd x l = (i, l') ->
  (∃ k, l' = l ++ k) /\ IndexOf x l' = Some i.
Proof.
  unfold FindOrAdd. destruct (IndexOf x l) as [j|] eqn:E; intros Ef;
    inversion Ef; subst.
  - split; [exists []; by rewrite app_nil_r | done].
  - split; [by eexists | by apply IndexOf_snoc_new].
Qed.

End Interning.

Section Registry.

Lemma MetaExtends_refl (m : FSpudClassMetadata) : MetaExtends m m.
Proof. repeat split; try (exists []; by rewrite app_nil_r). Qed.

Lemma MetaExtends_trans (m1 m2 m3 : FSpudClassMetadata) :
  MetaExtends m1 m2 -> MetaExtends m2 m3 -> MetaExtends m1 m3.
Proof.
  intros ([n1 E1] & [p1 F1] & G1) ([n2 E2] & [p2 F2] & G2).
  split; [| split].
  - exists (n1 ++ n2). by rewrite E2, E1, app_assoc.
  - exists (p1 ++ p2). by rewrite F2, F1, app_assoc.
  - congruence.
Qed.

Lemma ResolvePrefix_extends (m m' : FSpudClassMetadata) (Path : list string)
    (P : PrefixID) :
  MetaExtends m m' -> ResolvePrefix m Path = Some P ->
  ResolvePrefix m' Path = Some P.
Proof.
  intros (_ & [ps E] & _). unfold ResolvePrefix.
  destruct Path as [|s Path]; [done |].
  destruct (IndexOf (s :: Path) (PrefixIndex m)) as [i|] eqn:Ei; [| done].
  intros Hp. rewrite E, (IndexOf_app_l _ _ _ _ Ei). done.
Qed.

Lemma PrefixPath_extends (m m' : FSpudClassMetadata) (P : PrefixID)
    (Path : list string) :
  MetaExtends m m' -> PrefixPath m P = Some Path ->
  PrefixPath m' P = Some Path.
Proof.
  intros (_ & [ps E] & _). unfold PrefixPath.
  destruct P as [|i|]; [done | | done].
  intros Hl. rewrite E. by apply lookup_app_l_Some.
Qed.

Lemma GetPropertyIDFromName_extends (m m' : FSpudClassMetadata) (n : string)
    (i : nat) :
  MetaExtends m m' -> GetPropertyIDFromName m n = Some i ->
  GetPropertyIDFromName m' n = Some i.
Proof.
  intros ([ns E] & _ & _). unfold GetPropertyIDFromName.
  intros Hi. rewrite E. by apply IndexOf_app_l.
Qed.

Lemma LeafDef_extends (m m' : FSpudClassMetadata)
    (Leaf : list string * string * PropValue) (d : FSpudPropertyDef) :
  MetaExtends m m' -> LeafDef m Leaf = Some d -> LeafDef m' Leaf = Some d.
Proof.
  intros Hext. unfold LeafDef, ResolveAddress.
  destruct Leaf as [[Path n] v].
  destruct (ResolvePrefix m Path) as [P|] eqn:EP; [| done].
  destruct (GetPropertyIDFromName m n) as [i|] eqn:Ei; [| done].
  rewrite (ResolvePrefix_extends _ _ _ _ Hext EP).
  by rewrite (GetPropertyIDFromName_extends _ _ _ _ Hext Ei).
Qed.

Lemma LeafDefs_extends (m m' : FSpudClassMetadata)
    (Leaves : list (list string * string * PropValue))
    (ds : list FSpudPropertyDef) :
  MetaExtends m m' ->
  LeafDef m <$> Leaves = Some <$> ds -> LeafDef m' <$> Leaves = Some <$> ds.
Proof.
  intros Hext. revert ds.
  induction Leaves as [|lf Leaves IH]; intros [|d ds]; try done.
  rewrite !fmap_cons. intros E. injection E as E1 E2.
  by rewrite (LeafDef_extends _ _ _ _ Hext E1), (IH ds E2).
Qed.

(** The address determines the path and the name. *)
Lemma ResolvePrefix_inj (m : FSpudClassMetadata) (p1 p2 : list string)
    (P : PrefixID) :
  ResolvePrefix m p1 = Some P -> ResolvePrefix m p2 = Some P -> p1 = p2.
Proof.
  unfold ResolvePrefix.
  destruct p1 as [|a p1], p2 as [|b p2]; try done.
  - destruct (IndexOf (b :: p2) (PrefixIndex m)); simpl; [| done]. congruence.
  - destruct (IndexOf (a :: p1) (PrefixIndex m)); simpl; [| done]. congruence.
  - destruct (IndexOf (a :: p1) (PrefixIndex m)) as [i|] eqn:E1; [| done].
    destruct (IndexOf (b :: p2) (PrefixIndex m)) as [j|] eqn:E2; [| done].
    simpl. intros Ei Ej. injection Ei as <-. injection Ej as ->.
    by eapply IndexOf_inj.
Qed.

Lemma LeafDef_address_inj (m : FSpudClassMetadata)
    (l1 l2 : list string * string * PropValue) (d1 d2 : FSpudPropertyDef) :
  LeafDef m l1 = Some d1 -> LeafDef m l2 = Some d2 ->
  DefAddress d1 = DefAddress d2 -> LeafKey l1 = LeafKey l2.
Proof.
  unfold LeafDef, ResolveAddress, LeafKey, DefAddress.
  destruct l1 as [[p1 n1] v1], l2 as [[p2 n2] v2]. simpl.
  destruct (ResolvePrefix m p1) as [P1|] eqn:EP1; [| done].
  destruct (GetPropertyIDFromName m n1) as [i1|] eqn:Ei1; [| done].
  destruct (ResolvePrefix m p2) as [P2|] eqn:EP2; [| done].
  destruct (GetPropertyIDFromName m n2) as [i2|] eqn:Ei2; [| done].
  intros E1 E2. inversion E1; inversion E2; subst. simpl.
  intros E. inversion E; subst.
  f_equal.
  - by eapply ResolvePrefix_inj.
  - by eapply (IndexOf_inj (A := string)).
Qed.

End Registry.

(* --------------------------------------------------------------------- *)
(** *** The snapshot walk *)
(* --------------------------------------------------------------------- *)

Section WriteWalk.

Lemma AddDefs_app (l a b : list FSpudPropertyDef) :
  AddDefs l (a ++ b) = AddDefs (AddDefs l a) b.
Proof. unfold AddDefs. apply fold_left_app. Qed.

Lemma AddDef_present (l : list FSpudPropertyDef) (d : FSpudPropertyDef) :
  DefAddress d ∈ (DefAddress <$> l) -> AddDef l d = l.
Proof.
  intros Hin. unfold AddDef.
  by destruct (IndexOf_elem _ _ Hin) as [i ->].
Qed.

Lemma AddDefs_present (l ds : list FSpudPropertyDef) :
  (∀ d, d ∈ ds -> DefAddress d ∈ (DefAddress <$> l)) -> AddDefs l ds = l.
Proof.
  induction ds as [|d ds IH]; intros Hall; [done |].
  unfold AddDefs. simpl. rewrite AddDef_present.
  - apply IH. intros d' Hd'. apply Hall. by apply list_elem_of_further.
  - apply Hall. apply list_elem_of_here.
Qed.

Lemma AddDefs_fresh (l ds : list FSpudPropertyDef) :
  NoDup (DefAddress <$> (l ++ ds)) -> AddDefs l ds = l ++ ds.
Proof.
  revert l. induction ds as [|d ds IH]; intros l Hnd.
  - by rewrite app_nil_r.
  - unfold AddDefs. simpl.
    assert (Hd : AddDef l d = l ++ [d]).
    { unfold AddDef.
      destruct (IndexOf (DefAddress d) (DefAddress <$> l)) as [i|] eqn:E;
        [| done].
      exfalso. rewrite fmap_app, fmap_cons in Hnd.
      apply NoDup_app in Hnd as (_ & Hdis & _).
      apply (Hdis (DefAddress d)).
      - apply IndexOf_Some_lookup in E. by eapply list_elem_of_lookup_2.
      - apply list_elem_of_here. }
    rewrite Hd. fold (AddDefs (l ++ [d]) ds).
    rewrite IH; rewrite <- app_assoc; done.
Qed.

Lemma EncodeLeaves_app (a b : list (list string * string * PropValue)) :
  EncodeLeaves (a ++ b) = EncodeLeaves a ++ EncodeLeaves b.
Proof. unfold EncodeLeaves. apply List.flat_map_app. Qed.

Lemma PrefixStands_extends (m m' : FSpudClassMetadata) (P : PrefixID)
    (Path : list string) :
  MetaExtends m m' -> PrefixStands m P Path -> PrefixStands m' P Path.
Proof.
  intros Hext [H1 H2]. split.
  - by eapply PrefixPath_extends.
  - by eapply ResolvePrefix_extends.
Qed.

Lemma WriteWalkResult_nil (v : UpdateFromPropertyVisitor) :
  WriteWalkResult [] v v.
Proof.
  split; [apply MetaExtends_refl |].
  split; [by rewrite app_nil_r |]. split; [done |]. by exists [].
Qed.

Lemma WriteWalkResult_app (l1 l2 : list (list string * string * PropValue))
    (v v1 v2 : UpdateFromPropertyVisitor) :
  WriteWalkResult l1 v v1 -> WriteWalkResult l2 v1 v2 ->
  WriteWalkResult (l1 ++ l2) v v2.
Proof.
  intros (M1 & O1 & N1 & d1 & D1 & C1) (M2 & O2 & N2 & d2 & D2 & C2).
  split; [by eapply MetaExtends_trans |].
  split; [by rewrite O2, O1, EncodeLeaves_app, app_assoc |].
  split; [congruence |].
  exists (d1 ++ d2). split.
  - rewrite !fmap_app, D2. f_equal. by eapply LeafDefs_extends.
  - by rewrite AddDefs_app, <- C1.
Qed.

(** The visit of a leaf by the snapshot visitor. *)
Lemma UpdateFromProperty_leaf (n : string) (x : PropValue) (Prefix : PrefixID)
    (Path : list string) (v : UpdateFromPropertyVisitor) :
  PrefixStands (UF_Meta v) Prefix Path ->
  WriteWalkResult [(Path, n, x)] v
    (UpdateFromProperty (LeafProperty n x) Prefix v) /\
  UF_Log (UpdateFromProperty (LeafProperty n x) Prefix v) = UF_Log v.
Proof.
  intros [HP HR]. unfold UpdateFromProperty, FindOrAddPropertyIDFromName.
  destruct (FindOrAdd n (PropertyNameIndex (UF_Meta v))) as [id names] eqn:Ef.
  apply FindOrAdd_spec in Ef as [[k Ek] Ei].
  set (Meta' := MkMetadata (ClassDefinitions (UF_Meta v)) names
                  (PrefixIndex (UF_Meta v))).
  assert (Hext : MetaExtends (UF_Meta v) Meta').
  { split; [by exists k |]. split; [| done]. exists []. by rewrite app_nil_r. }
  unfold FindOrAddPropertyIndex, FindPropertyIndex.
  assert (Hdef : LeafDef Meta' (Path, n, x)
                 = Some (MkPropertyDef id Prefix (KindOf x))).
  { unfold LeafDef, ResolveAddress.
    rewrite (ResolvePrefix_extends _ _ _ _ Hext HR).
    unfold GetPropertyIDFromName. simpl. by rewrite Ei. }
  destruct (IndexOf (Prefix, id) (DefAddress <$> ClassProperties (UF_ClassDef v)))
    as [ix|] eqn:Ex; simpl.
  - split; [| done]. split; [done |].
    split; [unfold EncodeLeaves; simpl; by rewrite app_nil_r |].
    split; [done |].
    exists [MkPropertyDef id Prefix (KindOf x)].
    split; [cbn [UF_Meta]; by rewrite fmap_cons, Hdef |].
    cbn [UF_ClassDef ClassProperties].
    unfold AddDefs, AddDef. simpl. unfold DefAddress at 1. simpl.
    by rewrite Ex.
  - split; [| done]. split; [done |].
    split; [unfold EncodeLeaves; simpl; by rewrite app_nil_r |].
    split; [done |].
    exists [MkPropertyDef id Prefix (KindOf x)].
    split; [cbn [UF_Meta]; by rewrite fmap_cons, Hdef |].
    cbn [UF_ClassDef ClassProperties].
    unfold AddDefs, AddDef. simpl. unfold DefAddress at 1. simpl.
    by rewrite Ex.
Qed.

(** Entering a struct: the new prefix stands for the longer path. *)
Lemma FindOrAddNestedPrefixID_spec (Prefix : PrefixID) (Path : list string)
    (n : string) (m : FSpudClassMetadata) :
  PrefixStands m Prefix Path ->
  let r := FindOrAddNestedPrefixID Prefix n m in
  MetaExtends m (snd r) /\ PrefixStands (snd r) (fst r) (Path ++ [n]).
Proof.
  intros [HP HR]. unfold FindOrAddNestedPrefixID. rewrite HP.
  destruct (FindOrAdd (Path ++ [n]) (PrefixIndex m)) as [i paths] eqn:Ef.
  apply FindOrAdd_spec in Ef as [[k Ek] Ei]. simpl.
  split.
  - split; [exists []; by rewrite app_nil_r |]. split; [by exists k | done].
  - split; simpl.
    + by apply IndexOf_Some_lookup.
    + unfold ResolvePrefix. simpl.
      destruct (Path ++ [n]) as [|s rest] eqn:E.
      * by destruct Path.
      * by rewrite Ei.
Qed.

Lemma WriteWalk_list (RootObject : string) (l : list FProperty) :
  Forall (λ p, ∀ Path Prefix D v,
            PrefixStands (UF_Meta v) Prefix Path ->
            ∃ v', VisitOne RootObject p Prefix D v = ((p, true), v') /\
                  WriteWalkResult (LeavesOfProperty Path p) v v') l ->
  ∀ Path Prefix D v,
    PrefixStands (UF_Meta v) Prefix Path ->
    ∃ v', VisitList RootObject l Prefix D v = ((l, true), v') /\
          WriteWalkResult (LeavesOf Path l) v v'.
Proof.
  induction 1 as [|q l Hq _ IHl]; intros Path Prefix D v HS.
  - exists v. split; [done | apply WriteWalkResult_nil].
  - rewrite VisitList_cons, LeavesOf_cons.
    destruct (Hq Path Prefix D v HS) as (v1 & E1 & W1). rewrite E1.
    assert (HS1 : PrefixStands (UF_Meta v1) Prefix Path).
    { eapply PrefixStands_extends; [| exact HS]. apply W1. }
    destruct (IHl Path Prefix D v1 HS1) as (v2 & E2 & W2). rewrite E2.
    exists v2. split; [done |]. by eapply WriteWalkResult_app.
Qed.

Lemma WriteWalk_one (RootObject : string) (p : FProperty) :
  ∀ Path Prefix D v,
    PrefixStands (UF_Meta v) Prefix Path ->
    ∃ v', VisitOne RootObject p Prefix D v = ((p, true), v') /\
          WriteWalkResult (LeavesOfProperty Path p) v v'.
Proof.
  induction p as [n x|n ms IH|n m] using FProperty_ind';
    intros Path Prefix D v HS.
  - eexists. split; [reflexivity |].
    apply (UpdateFromProperty_leaf n x Prefix Path v HS).
  - rewrite VisitOne_struct, LeavesOfProperty_struct.
    cbn [VisitProperty UpdateFromPropertyVisitor_visitor UpdateFromProperty
         GetNestedPrefix].
    destruct (FindOrAddNestedPrefixID_spec Prefix Path n (UF_Meta v) HS)
      as [Hext HS'].
    destruct (FindOrAddNestedPrefixID Prefix n (UF_Meta v)) as [NP Meta'].
    simpl in Hext, HS'.
    set (v2 := MkUpdateVisitor _ _ Meta' _ _).
    destruct (WriteWalk_list RootObject ms IH (Path ++ [n]) NP (S D) v2 HS')
      as (v3 & E3 & M3 & O3 & N3 & defs & D3 & C3).
    rewrite E3. exists v3. split; [done |].
    split; [by eapply MetaExtends_trans |].
    split; [done |]. split; [done |]. by exists defs.
  - eexists. split; [reflexivity |].
    split; [apply MetaExtends_refl |].
    split; [by rewrite app_nil_r |]. split; [done |]. by exists [].
Qed.

(** The snapshot walk of a whole property list. *)
Lemma WriteWalk (RootObject : string) (l : list FProperty)
    (v : UpdateFromPropertyVisitor) :
  ∃ v', VisitPersistentProperties RootObject l v = (l, v') /\
        WriteWalkResult (LeavesOf [] l) v v'.
Proof.
  unfold VisitPersistentProperties.
  destruct (WriteWalk_list RootObject l
              (proj2 (Forall_forall _ l)
                 (λ p _, WriteWalk_one RootObject p))
              [] SPUDDATA_PREFIXID_NONE 0 v) as (v' & E & W).
  { by split. }
  rewrite E. by exists v'.
Qed.

End WriteWalk.

(* --------------------------------------------------------------------- *)
(** *** The fast restore walk *)
(* --------------------------------------------------------------------- *)

Section Skeletons.

Lemma LeavesOf_skeleton_list (l : list FProperty) :
  Forall (λ p, ∀ Path,
            LeavesOfProperty Path (Skeleton p)
            = (λ lf, (fst lf, DefaultValue (KindOf (snd lf))))
                <$> LeavesOfProperty Path p) l ->
  ∀ Path,
    LeavesOf Path (Skeleton <$> l)
    = (λ lf, (fst lf, DefaultValue (KindOf (snd lf)))) <$> LeavesOf Path l.
Proof.
  induction 1 as [|p l Hp _ IHl]; intros Path; [done |].
  rewrite fmap_cons, !LeavesOf_cons, fmap_app. by rewrite Hp, IHl.
Qed.

Lemma LeavesOf_skeleton_one (p : FProperty) (Path : list string) :
  LeavesOfProperty Path (Skeleton p)
  = (λ lf, (fst lf, DefaultValue (KindOf (snd lf)))) <$> LeavesOfProperty Path p.
Proof.
  revert Path. induction p as [n x|n ms IH|n m] using FProperty_ind';
    intros Path; [done | | done].
  simpl Skeleton. rewrite !LeavesOfProperty_struct.
  by apply LeavesOf_skeleton_list.
Qed.

Lemma LeavesOf_skeleton (l : list FProperty) (Path : list string) :
  LeavesOf Path (Skeleton <$> l)
  = (λ lf, (fst lf, DefaultValue (KindOf (snd lf)))) <$> LeavesOf Path l.
Proof.
  apply LeavesOf_skeleton_list, Forall_forall. intros p _ P.
  apply LeavesOf_skeleton_one.
Qed.

(** Properties of one layout have the same number of leaves. *)
Lemma Skeleton_leaf_count (src dst : FProperty) (P Q : list string) :
  Skeleton src = Skeleton dst ->
  length (LeavesOfProperty P src) = length (LeavesOfProperty Q dst).
Proof.
  intros E.
  assert (H1 := LeavesOf_skeleton_one src P).
  assert (H2 := LeavesOf_skeleton_one dst P).
  rewrite E, H2 in H1. apply (f_equal length) in H1.
  rewrite !length_fmap in H1. rewrite <- H1.
  apply LeavesOfProperty_length.
Qed.

(** The stored entries a fast walk needs depend on the layout only. *)
Lemma StoredEntriesNeeded_skeleton (p : FProperty) :
  StoredEntriesNeeded (Skeleton p) = StoredEntriesNeeded p.
Proof.
  induction p as [n x|n ms IH|n m] using FProperty_ind'; [done | | done].
  simpl Skeleton. rewrite !StoredEntriesNeeded_struct. f_equal.
  induction IH as [|q l Hq _ IHl]; [done |].
  cbn [List.map]. rewrite !StoredEntriesNeededBy_cons, Hq, IHl.
  by rewrite LeavesOf_skeleton_one, length_fmap.
Qed.

Lemma SameLayout_needed (a b : list FProperty) :
  SameLayout a b -> StoredEntriesNeededBy a = StoredEntriesNeededBy b.
Proof.
  unfold SameLayout. revert b.
  induction a as [|p a IH]; intros [|q b] E; try done.
  rewrite !fmap_cons in E. injection E as E1 E2.
  rewrite !StoredEntriesNeededBy_cons, (IH b E2).
  rewrite <- (StoredEntriesNeeded_skeleton p), E1, StoredEntriesNeeded_skeleton.
  by rewrite (Skeleton_leaf_count p q [] [] E1).
Qed.

End Skeletons.

Section ReadWalk.

Lemma PropKind_eqb_eq (a b : PropKind) : PropKind_eqb a b = true <-> a = b.
Proof. destruct a, b; simpl; split; congruence. Qed.

Lemma KindOf_DefaultValue (k : PropKind) : KindOf (DefaultValue k) = k.
Proof. by destruct k. Qed.

(** A value is read back by the decoder of any value of its kind. *)
Lemma ReadValue_at (Dest x : PropValue) (Data Post : list byte) (o : nat) :
  KindOf x = KindOf Dest ->
  drop o Data = ValueToRaw x ++ Post ->
  ReadValue Dest (MkReader Data o false)
  = (x, MkReader Data (o + length (ValueToRaw x)) false).
Proof.
  intros Hk Hd.
  destruct x, Dest; try discriminate Hk; cbn [ValueToRaw ReadValue] in *.
  - rewrite (ReadRaw_at _ _ _ _ _ Hd). by rewrite (ToRaw_length b).
  - rewrite (ReadRaw_at _ _ _ _ _ Hd). by rewrite (ToRaw_length b).
  - rewrite (ReadRaw_at _ _ _ _ _ Hd). by rewrite (ToRaw_length w).
  - rewrite <- app_assoc in Hd.
    rewrite (ReadRaw_at _ _ _ _ _ Hd). apply drop_past in Hd.
    rewrite (ReadRaw_at _ _ _ _ _ Hd).
    rewrite length_app, (ToRaw_length lo), (ToRaw_length hi).
    by rewrite Nat.add_assoc.
  - rewrite (ReadRaw_at _ _ _ _ _ Hd). by rewrite (ToRaw_length w).
  - rewrite (ReadRaw_at _ _ _ _ _ Hd). by rewrite (ToRaw_length v).
Qed.

Lemma drop_head {A} (l : list A) (n : nat) (x : A) (r : list A) :
  drop n l = x :: r -> l !! n = Some x /\ drop (S n) l = r.
Proof.
  intros E. split.
  - rewrite <- (Nat.add_0_r n), <- lookup_drop, E. done.
  - rewrite <- (Nat.add_1_r n), <- drop_drop, E. done.
Qed.

Lemma FastWalkDone_nil (Data Post : list byte) (v : RestoreFastPropertyVisitor) :
  FastWalkReady Data Post [] v -> FastWalkDone Data [] v = v.
Proof.
  intros (E & _ & _). unfold FastWalkDone. destruct v as [it rd cd m ro lg].
  simpl in *. rewrite !Nat.add_0_r. by rewrite <- E.
Qed.

Lemma FastWalkDone_app (Data : list byte)
    (l1 l2 : list (list string * string * PropValue))
    (v : RestoreFastPropertyVisitor) :
  FastWalkDone Data l2 (FastWalkDone Data l1 v) = FastWalkDone Data (l1 ++ l2) v.
Proof.
  unfold FastWalkDone. simpl.
  rewrite EncodeLeaves_app, !length_app, !Nat.add_assoc. done.
Qed.

Lemma FastWalkReady_app (Data Post : list byte)
    (l1 l2 : list (list string * string * PropValue))
    (v : RestoreFastPropertyVisitor) :
  FastWalkReady Data Post (l1 ++ l2) v ->
  FastWalkReady Data (EncodeLeaves l2 ++ Post) l1 v /\
  FastWalkReady Data Post l2 (FastWalkDone Data l1 v).
Proof.
  intros (E & Hd & defs & rest & Hp & Hk).
  rewrite EncodeLeaves_app, <- app_assoc in Hd.
  rewrite fmap_app in Hk.
  assert (Hl : length defs = (length l1 + length l2)%nat).
  { apply (f_equal length) in Hk.
    by rewrite length_fmap, length_app, !length_fmap in Hk. }
  assert (Hk1 : DataType <$> take (length l1) defs
                = (λ lf, KindOf (snd lf)) <$> l1).
  { rewrite fmap_take, Hk. apply take_app_length'. by rewrite length_fmap. }
  assert (Hk2 : DataType <$> drop (length l1) defs
                = (λ lf, KindOf (snd lf)) <$> l2).
  { rewrite fmap_drop, Hk. apply drop_app_length'. by rewrite length_fmap. }
  split.
  - split; [done |]. split; [done |].
    exists (take (length l1) defs), (drop (length l1) defs ++ rest).
    split; [| done]. by rewrite app_assoc, take_drop.
  - split; [done |]. split.
    + simpl. rewrite <- drop_drop, Hd. by apply drop_app_length'.
    + exists (drop (length l1) defs), rest. split; [| done]. simpl.
      rewrite <- drop_drop, Hp.
      rewrite <- (take_drop (length l1) defs) at 1.
      rewrite <- app_assoc. apply drop_app_length'.
      rewrite length_take. lia.
Qed.

Lemma FastWalk_read_list (RootObject : string) (ldst : list FProperty) :
  Forall (λ dst, ∀ src Path P D v Data Post,
            Skeleton src = Skeleton dst ->
            FastWalkReady Data Post (LeavesOfProperty Path src) v ->
            (RF_StoredPropertyIterator v + StoredEntriesNeeded dst
             ≤ length (ClassProperties (RF_ClassDef v)))%nat ->
            ∃ res,
              VisitOne RootObject dst P D v
              = ((res, true), FastWalkDone Data (LeavesOfProperty Path src) v) /\
              LeavesOfProperty Path res = LeavesOfProperty Path src) ldst ->
  ∀ lsrc Path P D v Data Post,
    Skeleton <$> lsrc = Skeleton <$> ldst ->
    FastWalkReady Data Post (LeavesOf Path lsrc) v ->
    (RF_StoredPropertyIterator v + StoredEntriesNeededBy ldst
     ≤ length (ClassProperties (RF_ClassDef v)))%nat ->
    ∃ res,
      VisitList RootObject ldst P D v
      = ((res, true), FastWalkDone Data (LeavesOf Path lsrc) v) /\
      LeavesOf Path res = LeavesOf Path lsrc.
Proof.
  induction 1 as [|dst ldst Hq _ IHl];
    intros lsrc Path P D v Data Post Hs Hr Hn.
  - destruct lsrc as [|? ?]; [| done].
    exists []. split; [| done]. simpl.
    by rewrite (FastWalkDone_nil _ _ _ Hr).
  - destruct lsrc as [|src lsrc]; [done |].
    rewrite !fmap_cons in Hs. injection Hs as Hs1 Hs2.
    rewrite LeavesOf_cons in Hr.
    rewrite StoredEntriesNeededBy_cons in Hn.
    destruct (FastWalkReady_app _ _ _ _ _ Hr) as [Hr1 Hr2].
    destruct (Hq src Path P D v Data _ Hs1 Hr1) as (r1 & E1 & L1); [lia |].
    destruct (IHl lsrc Path P D _ Data Post Hs2 Hr2) as (r2 & E2 & L2).
    { simpl. rewrite (Skeleton_leaf_count src dst Path [] Hs1). lia. }
    exists (r1 :: r2). rewrite VisitList_cons, E1, E2.
    split.
    + by rewrite FastWalkDone_app, LeavesOf_cons.
    + by rewrite !LeavesOf_cons, L1, L2.
Qed.

Lemma FastWalk_read_one (RootObject : string) (dst : FProperty) :
  ∀ src Path P D v Data Post,
    Skeleton src = Skeleton dst ->
    FastWalkReady Data Post (LeavesOfProperty Path src) v ->
    (RF_StoredPropertyIterator v + StoredEntriesNeeded dst
     ≤ length (ClassProperties (RF_ClassDef v)))%nat ->
    ∃ res,
      VisitOne RootObject dst P D v
      = ((res, true), FastWalkDone Data (LeavesOfProperty Path src) v) /\
      LeavesOfProperty Path res = LeavesOfProperty Path src.
Proof.
  induction dst as [n x|n ms IH|n m] using FProperty_ind';
    intros src Path P D v Data Post Hs Hr Hn.
  - destruct src as [ns xs| |]; try discriminate Hs.
    simpl in Hs. injection Hs as -> Hk.
    apply (f_equal KindOf) in Hk. rewrite !KindOf_DefaultValue in Hk.
    destruct Hr as (E & Hd & defs & rest & Hp & Hkd).
    simpl in Hd, Hkd. unfold EncodeLeaves in Hd. simpl in Hd.
    rewrite app_nil_r in Hd.
    destruct defs as [|d [|? ?]]; try discriminate Hkd.
    simpl in Hkd. injection Hkd as Hkd.
    simpl in Hp. apply drop_head in Hp as [Hlk _].
    exists (LeafProperty n xs). split; [| done].
    cbn [VisitOne VisitProperty RestoreFastPropertyVisitor_visitor
         RestoreProperty IsCustomStructProperty negb].
    rewrite Hlk. cbn iota.
    replace (PropKind_eqb (DataType d) (KindOf x)) with true
      by (symmetry; apply PropKind_eqb_eq; congruence).
    rewrite E, (ReadValue_at x xs Data Post _ Hk Hd).
    unfold FastWalkDone, EncodeLeaves. simpl.
    rewrite !app_nil_r, Nat.add_1_r. done.
  - destruct src as [|ns mss|]; try discriminate Hs.
    simpl in Hs. injection Hs as -> Hm.
    rewrite VisitOne_struct. rewrite LeavesOfProperty_struct in *.
    rewrite StoredEntriesNeeded_struct in Hn.
    destruct (lookup_lt_is_Some_2 (ClassProperties (RF_ClassDef v))
                (RF_StoredPropertyIterator v)) as [sp Esp]; [lia |].
    rewrite (FastVisit_in_range _ _ _ _ _ _ Esp).
    cbn [VisitProperty RestoreFastPropertyVisitor_visitor RestoreProperty
         IsCustomStructProperty negb GetNestedPrefix mret Logged_ret].
    set (v1 := MkFastVisitor _ _ _ _ _ _).
    assert (Ev1 : v1 = v).
    { subst v1. destruct v. simpl. by rewrite app_nil_r. }
    rewrite Ev1. clear v1 Ev1.
    destruct (FastWalk_read_list RootObject ms IH mss (Path ++ [n])
                (GetNestedPrefixID P n (RF_Meta v)) (S D) v Data Post)
      as (r & E & L); [done | done | lia |].
    rewrite E. exists (StructProperty n r). split; [done |].
    by rewrite LeavesOfProperty_struct.
  - destruct src as [| |ns mss]; try discriminate Hs.
    exists (OtherProperty n m). split; [| done]. simpl.
    by rewrite (FastWalkDone_nil _ _ _ Hr).
Qed.

(** The fast walk of a whole property list restores every leaf. *)
Lemma FastWalk_read (RootObject : string) (ldst lsrc : list FProperty)
    (v : RestoreFastPropertyVisitor) (Data Post : list byte) :
  SameLayout lsrc ldst ->
  FastWalkReady Data Post (LeavesOf [] lsrc) v ->
  (RF_StoredPropertyIterator v + StoredEntriesNeededBy ldst
   ≤ length (ClassProperties (RF_ClassDef v)))%nat ->
  ∃ res,
    VisitPersistentProperties RootObject ldst v
    = (res, FastWalkDone Data (LeavesOf [] lsrc) v) /\
    LeavesOf [] res = LeavesOf [] lsrc.
Proof.
  intros Hs Hr Hn. unfold VisitPersistentProperties.
  destruct (FastWalk_read_list RootObject ldst
              (proj2 (Forall_forall _ ldst)
                 (λ p _, FastWalk_read_one RootObject p))
              lsrc [] SPUDDATA_PREFIXID_NONE 0 v Data Post Hs Hr Hn)
    as (res & E & L).
  rewrite E. by exists res.
Qed.

End ReadWalk.

(* --------------------------------------------------------------------- *)
(** *** Layouts, class definitions *)
(* --------------------------------------------------------------------- *)

Section Layout.

(** Objects of the same layout have leaves of the same addresses and
    kinds, in the same order. *)
Lemma SameLayout_leaves (a b : list FProperty) (Path : list string) :
  SameLayout a b ->
  (λ lf, (fst lf, KindOf (snd lf))) <$> LeavesOf Path a
  = (λ lf, (fst lf, KindOf (snd lf))) <$> LeavesOf Path b.
Proof.
  intros Hs. unfold SameLayout in Hs.
  assert (E := f_equal (LeavesOf Path) Hs).
  rewrite !LeavesOf_skeleton in E.
  apply (f_equal (fmap (λ lf : list string * string * PropValue,
                          (fst lf, KindOf (snd lf))))) in E.
  rewrite <- !list_fmap_compose in E.
  erewrite list_fmap_ext in E; [erewrite (list_fmap_ext _ _ (LeavesOf Path b)) in E |].
  - exact E.
  - intros i [k x] _. simpl. by rewrite KindOf_DefaultValue.
  - intros i [k x] _. simpl. by rewrite KindOf_DefaultValue.
Qed.

Lemma ResolveAddress_key (m : FSpudClassMetadata)
    (l1 l2 : list string * string * PropValue) :
  fst l1 = fst l2 -> ResolveAddress m l1 = ResolveAddress m l2.
Proof.
  destruct l1 as [[p1 n1] v1], l2 as [[p2 n2] v2]. simpl.
  intros E. injection E as -> ->. reflexivity.
Qed.

Lemma SameLayout_addresses (m : FSpudClassMetadata) (a b : list FProperty) :
  SameLayout a b ->
  ResolveAddress m <$> LeavesOf [] a = ResolveAddress m <$> LeavesOf [] b.
Proof.
  intros Hs. apply (SameLayout_leaves a b []) in Hs.
  revert Hs. generalize (LeavesOf [] a) (LeavesOf [] b).
  induction l as [|x l IH]; intros [|y l']; try done.
  rewrite !fmap_cons. intros E. injection E as E1 E2 E3.
  f_equal; [| by apply IH].
  apply ResolveAddress_key. done.
Qed.

Lemma LeafDefs_addresses (m : FSpudClassMetadata)
    (L : list (list string * string * PropValue))
    (ds : list FSpudPropertyDef) :
  LeafDef m <$> L = Some <$> ds ->
  ResolveAddress m <$> L = (Some ∘ DefAddress) <$> ds /\
  DataType <$> ds = (λ lf, KindOf (snd lf)) <$> L.
Proof.
  revert ds. induction L as [|lf L IH]; intros [|d ds]; try done.
  rewrite !fmap_cons. intros E. injection E as E1 E2.
  destruct (IH ds E2) as [I1 I2]. rewrite I1, I2.
  unfold LeafDef in E1.
  destruct (ResolveAddress m lf) as [[P i]|]; [| done].
  injection E1 as <-. done.
Qed.

Lemma LeafDefs_elem (m : FSpudClassMetadata)
    (L : list (list string * string * PropValue))
    (ds : list FSpudPropertyDef) (d : FSpudPropertyDef) :
  LeafDef m <$> L = Some <$> ds -> d ∈ ds ->
  ∃ lf, lf ∈ L /\ LeafDef m lf = Some d.
Proof.
  revert ds. induction L as [|lf L IH]; intros [|d' ds]; try done.
  - intros _ Hin. by apply not_elem_of_nil in Hin.
  - rewrite !fmap_cons. intros E Hin. injection E as E1 E2.
    apply elem_of_cons in Hin as [->|Hin].
    + exists lf. split; [apply list_elem_of_here | done].
    + destruct (IH ds E2 Hin) as (lf' & Hl & Hd).
      exists lf'. split; [by apply list_elem_of_further | done].
Qed.

(** Distinct leaves have distinct stored addresses. *)
Lemma LeafDefs_NoDup (m : FSpudClassMetadata)
    (L : list (list string * string * PropValue))
    (ds : list FSpudPropertyDef) :
  LeafDef m <$> L = Some <$> ds ->
  NoDup (LeafKey <$> L) -> NoDup (DefAddress <$> ds).
Proof.
  revert ds. induction L as [|lf L IH]; intros [|d ds]; try done.
  - intros _ _. constructor.
  - rewrite !fmap_cons. intros E Hnd. injection E as E1 E2.
    apply NoDup_cons in Hnd as [Hnin Hnd].
    apply NoDup_cons. split; [| by apply IH].
    intros Hin. apply list_elem_of_fmap in Hin as (d' & Ea & Hd').
    destruct (LeafDefs_elem m L ds d' E2 Hd') as (lf' & Hl' & Hdef').
    apply Hnin. apply list_elem_of_fmap. exists lf'. split; [| done].
    by eapply LeafDef_address_inj.
Qed.

End Layout.

Section ClassDefs.

Lemma FindOrAddClassDef_found (m : FSpudClassMetadata) (C : string) (i : nat) :
  FindClassDefIndex m C = Some i -> FindOrAddClassDef m C = (i, m).
Proof. intros E. unfold FindOrAddClassDef. by rewrite E. Qed.

(** After [FindOrAddClassDef] the class has a definition, the one it
    had or an empty one, and the names and prefixes are as before. *)
Lemma FindOrAddClassDef_spec (m : FSpudClassMetadata) (C : string) :
  let r := FindOrAddClassDef m C in
  FindClassDefIndex (snd r) C = Some (fst r) /\
  PropertyNameIndex (snd r) = PropertyNameIndex m /\
  PrefixIndex (snd r) = PrefixIndex m /\
  ∃ cd, ClassDefinitions (snd r) !! fst r = Some cd /\
        ClassName cd = C /\
        (GetClassDef m C = Some cd \/ ClassProperties cd = []).
Proof.
  unfold FindOrAddClassDef, GetClassDef.
  destruct (FindClassDefIndex m C) as [i|] eqn:E; simpl.
  - rewrite E. split; [done |]. split; [done |]. split; [done |].
    unfold FindClassDefIndex in E. apply IndexOf_Some_lookup in E.
    rewrite list_lookup_fmap in E.
    destruct (ClassDefinitions m !! i) as [cd|] eqn:El; [| done].
    simpl in E. injection E as E. exists cd. auto.
  - split; [| split; [done | split; [done |]]].
    + unfold FindClassDefIndex in *. simpl.
      rewrite fmap_app. simpl.
      rewrite <- (length_fmap ClassName (ClassDefinitions m)).
      by apply IndexOf_snoc_new.
    + exists (MkClassDef C []). split; [| auto].
      rewrite lookup_app_r by done. by rewrite Nat.sub_diag.
Qed.

Lemma GetClassDef_SetClassDef (m : FSpudClassMetadata) (C : string) (i : nat)
    (cd : FSpudClassDef) :
  FindClassDefIndex m C = Some i -> ClassName cd = C ->
  GetClassDef (SetClassDef m i cd) C = Some cd.
Proof.
  intros Ei En. unfold GetClassDef, FindClassDefIndex in *. simpl.
  assert (Hl := IndexOf_Some_lookup _ _ _ Ei).
  rewrite list_fmap_insert, En.
  rewrite (list_insert_id (ClassName <$> ClassDefinitions m) i C Hl).
  rewrite Ei. simpl. apply list_lookup_insert_eq.
  apply lookup_lt_Some in Hl. by rewrite length_fmap in Hl.
Qed.

Lemma LeafDef_SetClassDef (m : FSpudClassMetadata) (i : nat)
    (cd : FSpudClassDef) (lf : list string * string * PropValue) :
  LeafDef (SetClassDef m i cd) lf = LeafDef m lf.
Proof. done. Qed.

End ClassDefs.

(* --------------------------------------------------------------------- *)
(** *** Snapshot, then restore *)
(* --------------------------------------------------------------------- *)

Section RoundTrip.
Context `{Host}.

Lemma WriteCoreActorData_V1 (Actor : AActor) :
  WriteCoreActorData Actor []
  = CoreDataV1 (bHidden Actor) (ActorTransform Actor)
      (fst (WrittenVelocities Actor)) (snd (WrittenVelocities Actor)).
Proof.
  unfold WriteCoreActorData, WrittenVelocities, CoreDataV1, WriteRaw.
  destruct (RootComponent Actor) as [c|]; simpl.
  - destruct (IsMovablePhysicsRoot c); simpl;
      [destruct (bIsPrimitive c); simpl |]; by rewrite <- !app_assoc.
  - by rewrite <- !app_assoc.
Qed.

(** The state of [UpdateFromActor] once the record is located. *)
Lemma UpdateFromActor_unfold (E : AActor) (LD : FSpudLevelData)
    (idx : nat) (Meta1 : FSpudClassMetadata) (Ref : ObjectDataRef)
    (A1 : AActor) (LD1 : FSpudLevelData) (lg : list Event)
    (d0 : FSpudObjectData) :
  ActorHasAnyFlags E RF_Skipped = false ->
  FindOrAddClassDef (Metadata LD) (GetClassName E) = (idx, Meta1) ->
  (if ShouldActorBeRespawnedOnRestore E
   then GetSpawnedActorData E (SetMetadata LD Meta1) true
   else let '(r, ld) := GetLevelActorData E (SetMetadata LD Meta1) true in
        mret (r, E, ld)) = ((Some Ref, A1, LD1), lg) ->
  ReadObjectData LD1 Ref = Some d0 ->
  let Aw := if bSpudObjectCallback A1 then SpudPreSaveState A1 else A1 in
  let V0 :=
    MkUpdateVisitor
      (default (MkClassDef (GetClassName Aw) [])
               (ClassDefinitions (Metadata LD1) !! idx))
      (PropertyOffsets (Properties d0)) (Metadata LD1) [] [] in
  ∃ V',
    WriteWalkResult (LeavesOf [] (ActorProperties Aw)) V0 V' /\
    snd (fst (UpdateFromActor E LD))
    = WriteObjectData
        (SetMetadata LD1 (SetClassDef (UF_Meta V') idx (UF_ClassDef V')))
        Ref
        (MkObjectData (WriteCoreActorData Aw [])
           (MkPropertyData (UF_PropertyOffsets V') (UF_Out V'))
           (if bSpudObjectCallback A1
            then snd (SpudFinaliseSaveState Aw) else CustomData d0)).
Proof.
  intros Hf EF Hroute Hd Aw V0.
  destruct (WriteWalk (ActorName Aw) (ActorProperties Aw) V0) as (V' & EV & W).
  exists V'. split; [exact W |].
  unfold UpdateFromActor. rewrite Hf, EF.
  unfold mbind, Logged_bind. rewrite Hroute, Hd.
  fold Aw. fold V0. rewrite EV.
  destruct (bSpudObjectCallback A1); [| reflexivity].
  by destruct (SpudFinaliseSaveState Aw).
Qed.

Lemma ReadObjectData_Write (LD : FSpudLevelData) (M : FSpudClassMetadata)
    (Ref : ObjectDataRef) (d0 d : FSpudObjectData) :
  ReadObjectData LD Ref = Some d0 ->
  ReadObjectData (WriteObjectData (SetMetadata LD M) Ref d) Ref = Some d /\
  Metadata (WriteObjectData (SetMetadata LD M) Ref d) = M.
Proof.
  destruct Ref as [n|g]; simpl; intros E.
  - rewrite lookup_alter_eq.
    destruct (LevelActors LD !! n); [done | done].
  - rewrite lookup_alter_eq.
    destruct (SpawnedActors LD !! g); [done | done].
Qed.

(** Locating the record of a level actor, creating it if needed. *)
Lemma Route_level (E : AActor) (LD : FSpudLevelData) :
  ∃ LD1 d0,
    GetLevelActorData E LD true = (Some (LevelActorRef (ActorName E)), LD1) /\
    Metadata LD1 = Metadata LD /\
    ReadObjectData LD1 (LevelActorRef (ActorName E)) = Some d0.
Proof.
  unfold GetLevelActorData, GetLevelActorName.
  destruct (LevelActors LD !! ActorName E) as [r|] eqn:El.
  - exists LD, (NamedData r). split; [done |]. split; [done |].
    simpl. by rewrite El.
  - eexists _, EmptyObjectData. split; [done |]. split; [done |].
    simpl. by rewrite lookup_insert_eq.
Qed.

(** Locating the record of a runtime actor, creating it if needed. *)
Lemma Route_spawned (E : AActor) (LD : FSpudLevelData) (idx : nat) :
  SpudGuid E ≠ None ->
  FindClassDefIndex (Metadata LD) (GetClassName E) = Some idx ->
  ∃ LD1 d0,
    GetSpawnedActorData E LD true
    = ((Some (SpawnedActorRef (SnapshotGuid E)),
        if negb (GuidIsValid (GetGuidProperty E))
        then snd (SetGuidProperty E NewGuid) else E,
        LD1), []) /\
    Metadata LD1 = Metadata LD /\
    ReadObjectData LD1 (SpawnedActorRef (SnapshotGuid E)) = Some d0.
Proof.
  intros Hg Hi. destruct (SpudGuid E) as [g|] eqn:Eg; [| done].
  unfold GetSpawnedActorData, SnapshotGuid, GetGuidProperty, SetGuidProperty,
    FindOrAddClassIDFromName, GetClassName in *.
  rewrite Eg. simpl.
  destruct (GuidIsValid g) eqn:Hv; simpl;
    rewrite ?(FindOrAddClassDef_found _ _ _ Hi).
  - destruct (SpawnedActors LD !! g) as [r|] eqn:El.
    + exists LD, (SpawnedData r). split; [done |]. split; [done |].
      simpl. by rewrite El.
    + eexists _, EmptyObjectData. split; [done |]. split; [done |].
      simpl. by rewrite lookup_insert_eq.
  - destruct (SpawnedActors LD !! NewGuid) as [r|] eqn:El.
    + exists LD, (SpawnedData r). split; [done |]. split; [done |].
      simpl. by rewrite El.
    + eexists _, EmptyObjectData. split; [done |]. split; [done |].
      simpl. by rewrite lookup_insert_eq.
Qed.

(** The record a second actor standing for the same entity finds. *)
Lemma StoredActorData_same_entity (E E2 : AActor) (LD : FSpudLevelData)
    (d : FSpudObjectData) :
  SameEntity E E2 ->
  ReadObjectData LD
    (if ShouldActorBeRespawnedOnRestore E
     then SpawnedActorRef (SnapshotGuid E)
     else LevelActorRef (ActorName E)) = Some d ->
  StoredActorData E2 LD = Some d.
Proof.
  intros [Hr Hk] Hd. unfold StoredActorData. rewrite Hr.
  destruct (ShouldActorBeRespawnedOnRestore E).
  - destruct Hk as (_ & Hg & Hv).
    unfold GetSpawnedActorData. rewrite Hg, Hv. simpl.
    simpl in Hd.
    destruct (SpawnedActors LD !! SnapshotGuid E) as [r|] eqn:El; [| done].
    simpl. by rewrite El.
  - unfold GetLevelActorData, GetLevelActorName. rewrite Hk.
    simpl in Hd.
    destruct (LevelActors LD !! ActorName E) as [r|] eqn:El; [| done].
    simpl. by rewrite El.
Qed.

End RoundTrip.

Section RoundTripTheorem.
Context `{Host}.

Lemma LeafDefs_tables (m m' : FSpudClassMetadata)
    (L : list (list string * string * PropValue)) :
  PropertyNameIndex m' = PropertyNameIndex m ->
  PrefixIndex m' = PrefixIndex m ->
  LeafDef m' <$> L = LeafDef m <$> L.
Proof.
  intros En Ep. apply list_fmap_ext. intros i [[Path n] x] _.
  unfold LeafDef, ResolveAddress, ResolvePrefix, GetPropertyIDFromName.
  by rewrite En, Ep.
Qed.

(** The class definition after the snapshot walk lists the leaves of the
    object, when it was empty or described the class before. *)
Lemma Snapshot_class_properties (m : FSpudClassMetadata)
    (L : list (list string * string * PropValue))
    (old defs : list FSpudPropertyDef) :
  NoDup (LeafKey <$> L) ->
  LeafDef m <$> L = Some <$> defs ->
  old = [] \/ LeafDef m <$> L = Some <$> old ->
  AddDefs old defs = defs.
Proof.
  intros Hnd Hdefs [-> | Hold].
  - rewrite AddDefs_fresh; [done |]. simpl. by eapply LeafDefs_NoDup.
  - rewrite Hdefs in Hold.
    apply (inj (fmap Some)) in Hold. subst old.
    apply AddDefs_present. intros d Hd.
    apply list_elem_of_fmap. by exists d.
Qed.

Lemma ApplyCoreV1_fields (A : AActor) (h : bool) (t : FTransform)
    (v w : FVector) :
  bHidden (ApplyCoreV1 A h t v w) = h /\
  ActorTransform (ApplyCoreV1 A h t v w) = t /\
  RootComponent (ApplyCoreV1 A h t v w)
  = match RootComponent A with
    | Some c => Some (if IsMovablePhysicsRoot c && bIsPrimitive c
                      then SetPhysicsVelocities c v w else c)
    | None => None
    end /\
  ActorProperties (ApplyCoreV1 A h t v w) = ActorProperties A /\
  ClassPathName (ApplyCoreV1 A h t v w) = ClassPathName A /\
  bSpudObjectCallback (ApplyCoreV1 A h t v w) = bSpudObjectCallback A.
Proof.
  unfold ApplyCoreV1.
  destruct (RootComponent A) as [c|] eqn:ER;
    [destruct (IsMovablePhysicsRoot c && bIsPrimitive c) |];
    repeat split; simpl; by rewrite ?ER.
Qed.

(** Restoring the properties from a record whose class definition lists
    the leaves that were written, into an object of the same layout
    whose walk visits no custom struct after its last leaf. *)
Lemma RestoreObjectProperties_written (Obj : AActor) (Src : list FProperty)
    (Offsets : list N) (Meta : FSpudClassMetadata) (cd : FSpudClassDef)
    (RO : option RuntimeObjectMap) :
  GetClassDef Meta (GetClassName Obj) = Some cd ->
  LeafDef Meta <$> LeavesOf [] Src = Some <$> ClassProperties cd ->
  SameLayout Src (ActorProperties Obj) ->
  NoStructAfterLastLeaf Src ->
  ∃ Props,
    fst (RestoreObjectProperties Obj
           (MkPropertyData Offsets (EncodeLeaves (LeavesOf [] Src))) Meta RO)
    = SetActorProperties Obj Props /\
    LeavesOf [] Props = LeavesOf [] Src /\
    OnlyLogLines
      (snd (RestoreObjectProperties Obj
              (MkPropertyData Offsets (EncodeLeaves (LeavesOf [] Src)))
              Meta RO)).
Proof.
  intros Ecd Hdefs Hs Hend.
  destruct (LeafDefs_addresses _ _ _ Hdefs) as [Ha Hk].
  rewrite (RestoreObjectProperties_path _ _ _ _ _ Ecd).
  assert (Hm : MatchesRuntimeClass cd Meta (ActorProperties Obj) = true).
  { unfold MatchesRuntimeClass. apply bool_decide_eq_true.
    by rewrite <- (SameLayout_addresses Meta _ _ Hs). }
  rewrite Hm. unfold RestoreObjectPropertiesFast. simpl PropData.
  set (Data := EncodeLeaves (LeavesOf [] Src)).
  destruct (FastWalk_read (ActorName Obj) (ActorProperties Obj) Src
              (MkFastVisitor 0 (MkReader Data 0 false) cd Meta RO [])
              Data []) as (res & E & L); [done | | |].
  { split; [done |]. split; [simpl; by rewrite app_nil_r |].
    exists (ClassProperties cd), []. split; [by rewrite app_nil_r | done]. }
  { simpl. rewrite <- (SameLayout_needed _ _ Hs).
    apply (f_equal length) in Hdefs. rewrite !length_fmap in Hdefs.
    unfold NoStructAfterLastLeaf in Hend. lia. }
  rewrite E. exists res. split; [done |]. split; [done |].
  simpl. by repeat constructor.
Qed.

(** The actor a record written by [UpdateFromActor] restores to, up to
    the hooks that run after the properties are back. *)
Lemma Snapshot_restore_general (E E2 : AActor) (LD : FSpudLevelData)
    (RO : option RuntimeObjectMap) :
  let Ew := SnapshotSubject E in
  let LD' := snd (fst (UpdateFromActor E LD)) in
  let E2p := PreRestoreObject E2 in
  ActorHasAnyFlags E RF_Skipped = false ->
  ActorHasAnyFlags E2 RF_Skipped = false ->
  SameEntity E E2 ->
  ClassPathName E2p = ClassPathName E ->
  SameLayout (ActorProperties Ew) (ActorProperties E2p) ->
  DistinctAddresses (ActorProperties Ew) ->
  StoredDefCompatible (Metadata LD) (ClassPathName E) (ActorProperties Ew) ->
  NoStructAfterLastLeaf (ActorProperties Ew) ->
  ∃ (Props : list FProperty) (Custom : list byte),
    fst (RestoreActor E2 LD' RO)
    = PostRestoreObject
        (SetActorProperties
           (ApplyCoreV1 E2p (bHidden Ew) (ActorTransform Ew)
              (fst (WrittenVelocities Ew)) (snd (WrittenVelocities Ew)))
           Props) Custom /\
    LeavesOf [] Props = LeavesOf [] (ActorProperties Ew) /\
    (bSpudObjectCallback E = true -> Custom = snd (SpudFinaliseSaveState Ew)) /\
    OnlyLogLines (snd (RestoreActor E2 LD' RO)).
Proof.
  intros Ew LD' E2p HfE HfE2 Hsame Hclass Hlayout Hdistinct Hcompat Hend.
  (* the class definition the snapshot starts from *)
  destruct (FindOrAddClassDef (Metadata LD) (GetClassName E))
    as [idx Meta1] eqn:EF.
  assert (Hspec := FindOrAddClassDef_spec (Metadata LD) (GetClassName E)).
  rewrite EF in Hspec. simpl in Hspec.
  destruct Hspec as (Hidx & Hnames & Hprefixes & cd0 & Hcd0 & Hname0 & Hold).
  (* the record the snapshot writes to *)
  assert (Hroute : ∃ (A1 : AActor) (LD1 : FSpudLevelData) (lg : list Event)
                     (d0 : FSpudObjectData),
    (if ShouldActorBeRespawnedOnRestore E
     then GetSpawnedActorData E (SetMetadata LD Meta1) true
     else let '(r, ld) := GetLevelActorData E (SetMetadata LD Meta1) true in
          mret (r, E, ld))
    = ((Some (if ShouldActorBeRespawnedOnRestore E
              then SpawnedActorRef (SnapshotGuid E)
              else LevelActorRef (ActorName E)), A1, LD1), lg) /\
    Metadata LD1 = Meta1 /\
    ReadObjectData LD1 (if ShouldActorBeRespawnedOnRestore E
                        then SpawnedActorRef (SnapshotGuid E)
                        else LevelActorRef (ActorName E)) = Some d0 /\
    Ew = (if bSpudObjectCallback A1 then SpudPreSaveState A1 else A1) /\
    bSpudObjectCallback A1 = bSpudObjectCallback E /\
    GetClassName A1 = GetClassName E).
  { subst Ew. unfold SnapshotSubject. destruct Hsame as [_ Hkey].
    destruct (ShouldActorBeRespawnedOnRestore E).
    - destruct Hkey as (Hg & _ & _).
      destruct (Route_spawned E (SetMetadata LD Meta1) idx Hg Hidx)
        as (LD1 & d0 & Er & Em & Ed).
      eexists _, LD1, [], d0. split; [exact Er |]. split; [exact Em |].
      split; [exact Ed |]. simpl. split; [done |].
      unfold SetGuidProperty.
      destruct (negb (GuidIsValid (GetGuidProperty E)));
        [destruct (SpudGuid E) |]; done.
    - destruct (Route_level E (SetMetadata LD Meta1)) as (LD1 & d0 & Er & Em & Ed).
      exists E, LD1, [], d0. rewrite Er. by repeat split. }
  destruct Hroute as (A1 & LD1 & lg & d0 & Er & Em & Ed & EEw & Hcb & Hcn).
  destruct (UpdateFromActor_unfold E LD idx Meta1 _ A1 LD1 lg d0 HfE EF Er Ed)
    as (V' & W & ELD).
  rewrite <- EEw in W, ELD. fold LD' in ELD.
  rewrite Em, Hcd0 in W. simpl default in W.
  destruct W as (Mext & Hout & Hcname & defs & Hdefs & Hprops).
  simpl in Mext, Hout, Hcname, Hprops.
  destruct Mext as (Mn & Mp & Mc).
  (* the class definition the snapshot leaves *)
  assert (Hfinal : ClassProperties (UF_ClassDef V') = defs).
  { rewrite Hprops.
    apply (Snapshot_class_properties (UF_Meta V')
             (LeavesOf [] (ActorProperties Ew))); [done | done |].
    destruct Hold as [Hold | Hold]; [| by left].
    destruct (Hcompat cd0 Hold) as [Hempty | Hdesc]; [by left | right].
    unfold Describes in Hdesc.
    apply (LeafDefs_extends Meta1); [by repeat split |].
    by rewrite (LeafDefs_tables (Metadata LD) Meta1). }
  set (MetaF := SetClassDef (UF_Meta V') idx (UF_ClassDef V')) in *.
  set (Stored :=
         MkObjectData (WriteCoreActorData Ew [])
           (MkPropertyData (UF_PropertyOffsets V') (UF_Out V'))
           (if bSpudObjectCallback A1
            then snd (SpudFinaliseSaveState Ew) else CustomData d0)) in *.
  destruct (ReadObjectData_Write LD1 MetaF _ d0 Stored Ed) as [Hread Hmeta].
  rewrite <- ELD in Hread, Hmeta.
  assert (HclassF : GetClassDef MetaF (ClassPathName E) = Some (UF_ClassDef V')).
  { apply GetClassDef_SetClassDef.
    - unfold FindClassDefIndex in *. by rewrite Mc.
    - by rewrite Hcname. }
  (* the restore *)
  assert (Hfound := StoredActorData_same_entity E E2 LD' Stored Hsame Hread).
  assert (Hlogs := RestoreActor_found_log E2 LD' RO Stored HfE2 Hfound).
  revert Hlogs.
  rewrite (RestoreActor_found E2 LD' RO Stored HfE2 Hfound).
  simpl CoreData. simpl Properties. simpl CustomData.
  rewrite WriteCoreActorData_V1.
  rewrite <- (app_nil_r (CoreDataV1 _ _ _ _)).
  rewrite RestoreCoreActorData_V1. simpl fst. fold E2p.
  set (Core := ApplyCoreV1 E2p (bHidden Ew) (ActorTransform Ew)
                 (fst (WrittenVelocities Ew)) (snd (WrittenVelocities Ew))).
  destruct (ApplyCoreV1_fields E2p (bHidden Ew) (ActorTransform Ew)
              (fst (WrittenVelocities Ew)) (snd (WrittenVelocities Ew)))
    as (Fh & Ft & Fr & Fp & Fc & Fb).
  fold Core in Fh, Ft, Fr, Fp, Fc, Fb.
  rewrite Hmeta, Hout. simpl app.
  destruct (RestoreObjectProperties_written Core (ActorProperties Ew)
              (UF_PropertyOffsets V') MetaF (UF_ClassDef V') RO)
    as (Props & Erest & Hleaves & Hlog).
  { unfold GetClassName. by rewrite Fc, Hclass. }
  { by rewrite Hfinal. }
  { by rewrite Fp. }
  { done. }
  rewrite Erest. intros [Hlogs _]. assert (Hall := Hlogs Hlog).
  exists Props,
         (if bSpudObjectCallback A1
          then snd (SpudFinaliseSaveState Ew) else CustomData d0).
  split; [done |]. split; [done |]. split; [| done].
  intros Hyes. by rewrite Hcb, Hyes.
Qed.

(** X21.  Let a live actor [E] be saved with [UpdateFromActor], and let
    the record then be restored with [RestoreActor] onto another actor
    [E2] of the same class that stands for the same entity.  Assume the
    persisted leaves of the class have distinct addresses, the level
    data has no stale definition of the class, and the walk of the
    properties visits no custom struct after its last leaf.  Then the
    restore logs nothing but log lines and, at the moment the post-load
    hooks are called (and so at the end, for an actor without hooks),
    [E2] has the persisted property values of [E], leaf for leaf, its
    hidden flag and its transform; its root component, when movable
    and simulating physics, has the velocities that were written for
    [E]; and the custom data handed to the load hook is the data the
    save hook produced.  [E] is taken as it is when its state is
    written, [E2] as the pre-load hook leaves it. *)
Theorem Snapshot_restore_round_trip (E E2 : AActor) (LD : FSpudLevelData)
    (RO : option RuntimeObjectMap) :
  let Ew := SnapshotSubject E in
  let LD' := snd (fst (UpdateFromActor E LD)) in
  let E2p := PreRestoreObject E2 in
  ActorHasAnyFlags E RF_Skipped = false ->
  ActorHasAnyFlags E2 RF_Skipped = false ->
  SameEntity E E2 ->
  ClassPathName E2p = ClassPathName E ->
  SameLayout (ActorProperties Ew) (ActorProperties E2p) ->
  DistinctAddresses (ActorProperties Ew) ->
  StoredDefCompatible (Metadata LD) (ClassPathName E) (ActorProperties Ew) ->
  NoStructAfterLastLeaf (ActorProperties Ew) ->
  ∃ (Mid : AActor) (Custom : list byte),
    fst (RestoreActor E2 LD' RO) = PostRestoreObject Mid Custom /\
    (bSpudObjectCallback E2p = false -> fst (RestoreActor E2 LD' RO) = Mid) /\
    (bSpudObjectCallback E = true -> Custom = snd (SpudFinaliseSaveState Ew)) /\
    LeavesOf [] (ActorProperties Mid) = LeavesOf [] (ActorProperties Ew) /\
    bHidden Mid = bHidden Ew /\
    ActorTransform Mid = ActorTransform Ew /\
    RootComponent Mid
    = match RootComponent E2p with
      | Some c2 =>
          Some (if IsMovablePhysicsRoot c2 && bIsPrimitive c2
                then SetPhysicsVelocities c2 (fst (WrittenVelocities Ew))
                       (snd (WrittenVelocities Ew))
                else c2)
      | None => None
      end /\
    (∀ c c2, RootComponent Ew = Some c -> RootComponent E2p = Some c2 ->
       IsMovablePhysicsRoot c && bIsPrimitive c = true ->
       IsMovablePhysicsRoot c2 && bIsPrimitive c2 = true ->
       ∃ c', RootComponent Mid = Some c' /\
             LinearVelocity c' = LinearVelocity c /\
             AngularVelocityInDegrees c' = AngularVelocityInDegrees c) /\
    OnlyLogLines (snd (RestoreActor E2 LD' RO)).
Proof.
  intros Ew LD' E2p HfE HfE2 Hsame Hclass Hlayout Hdistinct Hcompat Hend.
  destruct (Snapshot_restore_general E E2 LD RO HfE HfE2 Hsame Hclass
              Hlayout Hdistinct Hcompat Hend)
    as (Props & Custom & Erest & Hleaves & Hcustom & Hlog).
  fold Ew LD' E2p in Erest, Hleaves, Hcustom, Hlog.
  set (Core := ApplyCoreV1 E2p (bHidden Ew) (ActorTransform Ew)
                 (fst (WrittenVelocities Ew)) (snd (WrittenVelocities Ew)))
    in *.
  destruct (ApplyCoreV1_fields E2p (bHidden Ew) (ActorTransform Ew)
              (fst (WrittenVelocities Ew)) (snd (WrittenVelocities Ew)))
    as (Fh & Ft & Fr & Fp & Fc & Fb).
  fold Core in Fh, Ft, Fr, Fp, Fc, Fb.
  exists (SetActorProperties Core Props), Custom.
  split; [done |].
  split.
  { intros Hno. rewrite Erest. unfold PostRestoreObject.
    simpl bSpudObjectCallback. by rewrite Fb, Hno. }
  split; [done |].
  split; [done |]. split; [done |]. split; [done |]. split; [done |].
  split; [| done].
  intros c c2 Hc Hc2 Hmov Hmov2. simpl RootComponent. rewrite Fr, Hc2, Hmov2.
  eexists. split; [done |]. unfold WrittenVelocities. rewrite Hc, Hmov.
  by split.
Qed.

End RoundTripTheorem.

(** C1.  The round trip does not hold for every class.  A crate, whose
    class has an integer field followed by a custom struct without a
    leaf of its own, is saved with [UpdateFromActor], and the record is
    restored with [RestoreActor] onto a fresh crate of the same class.
    The snapshot stores one property definition and the four bytes of
    the integer.  The stored definition matches the live class, so
    that the fast path is taken; the integer consumes the only stored
    entry, and the visit of the struct then dereferences the iterator
    at the end of the stored list.  The two crates stand for the same
    entity, have the same class and layout and distinct leaf
    addresses, and the level data held no definition of the class. *)
Theorem C1_fast_path_reads_past_the_end :
  let Saved := Demo.Crate x05 in
  let Fresh := Demo.Crate x00 in
  let LevelData := SetLevelDataName EmptyLevelData "Keep" in
  let Stored := snd (fst (UpdateFromActor (H := Demo.host) Saved LevelData)) in
  let ClassDef :=
    MkClassDef "/Game/BP/Crate.Crate_C"
      [MkPropertyDef 0 SPUDDATA_PREFIXID_NONE KInt] in
  (ActorHasAnyFlags Saved RF_Skipped = false /\
   ActorHasAnyFlags Fresh RF_Skipped = false /\
   SameEntity (H := Demo.host) Saved Fresh /\
   ClassPathName (PreRestoreObject (H := Demo.host) Fresh)
   = ClassPathName Saved /\
   SameLayout (ActorProperties (SnapshotSubject (H := Demo.host) Saved))
     (ActorProperties (PreRestoreObject (H := Demo.host) Fresh)) /\
   DistinctAddresses (ActorProperties (SnapshotSubject (H := Demo.host) Saved)) /\
   StoredDefCompatible (Metadata LevelData) (ClassPathName Saved)
     (ActorProperties (SnapshotSubject (H := Demo.host) Saved))) /\
  StoredActorData (H := Demo.host) Fresh Stored
  = Some (MkObjectData (WriteCoreActorData Saved [])
            (MkPropertyData [0%N] [x05; x00; x00; x00]) []) /\
  GetClassDef (Metadata Stored) (GetClassName Fresh) = Some ClassDef /\
  MatchesRuntimeClass ClassDef (Metadata Stored) (ActorProperties Fresh)
  = true /\
  snd (RestoreActor (H := Demo.host) Fresh Stored None)
  = [UE_LOG LogVerbose "Restoring Actor %s" ["Crate_0"];
     UE_LOG LogVerbose "Restoring %s properties via FAST path, %d properties"
       ["/Game/BP/Crate.Crate_C"; "1"];
     OutOfRangeAccess 1 1] /\
  ¬ NoStructAfterLastLeaf (ActorProperties Saved).
Proof.
  intros Saved Fresh LevelData Stored ClassDef.
  split.
  { split; [reflexivity |]. split; [reflexivity |].
    split; [by split |]. split; [reflexivity |]. split; [reflexivity |].
    split.
    - apply (bool_decide_unpack _). vm_compute. exact I.
    - intros cd Hcd. vm_compute in Hcd. discriminate Hcd. }
  split; [by vm_compute |]. split; [by vm_compute |].
  split; [by vm_compute |]. split; [by vm_compute |].
  unfold NoStructAfterLastLeaf. simpl. lia.
Qed.

Section CoreVersion.
Context `{Host}.

(** C5.  When the version tag at the start of the stored core data is
    not 1, [RestoreCoreActorData] logs an error and returns the actor
    unchanged, and [RestoreActor] goes on to restore the reflected
    properties of that same actor: the error is in its log, and when
    the record holds the values of a class that the stored definition
    describes (and whose walk visits no custom struct after its last
    leaf), the actor handed to the load hooks is the actor as the
    pre-load hook left it with every leaf set to its stored value, its
    hidden flag, transform and root component untouched.  When the data
    is the version 1 layout, the hidden flag and the transform are
    applied, and the two velocities are applied when the root
    component is movable and simulates physics (and is a primitive
    component), and otherwise the root component is left as it is. *)
Theorem C5_core_data_version (Actor : AActor) :
  (∀ FromData : list byte,
     StoredCoreVersion FromData ≠ 1%Z ->
     RestoreCoreActorData Actor FromData
     = (Actor, [UE_LOG LogError
                  "Core Actor Data for %s is corrupt, not restoring"
                  [ActorName Actor]])) /\
  (∀ (LevelData : FSpudLevelData) (RuntimeObjects : option RuntimeObjectMap)
     (ActorData : FSpudObjectData),
     ActorHasAnyFlags Actor RF_Skipped = false ->
     StoredActorData Actor LevelData = Some ActorData ->
     StoredCoreVersion (CoreData ActorData) ≠ 1%Z ->
     fst (RestoreActor Actor LevelData RuntimeObjects) =
     PostRestoreObject
       (fst (RestoreObjectProperties (PreRestoreObject Actor)
               (Properties ActorData) (Metadata LevelData) RuntimeObjects))
       (CustomData ActorData) /\
     UE_LOG LogError "Core Actor Data for %s is corrupt, not restoring"
       [ActorName (PreRestoreObject Actor)]
     ∈ snd (RestoreActor Actor LevelData RuntimeObjects)) /\
  (∀ (LevelData : FSpudLevelData) (RuntimeObjects : option RuntimeObjectMap)
     (ActorData : FSpudObjectData) (ClassDef : FSpudClassDef)
     (Src : list FProperty),
     ActorHasAnyFlags Actor RF_Skipped = false ->
     StoredActorData Actor LevelData = Some ActorData ->
     StoredCoreVersion (CoreData ActorData) ≠ 1%Z ->
     GetClassDef (Metadata LevelData) (GetClassName (PreRestoreObject Actor))
     = Some ClassDef ->
     Describes (Metadata LevelData) ClassDef Src ->
     PropData (Properties ActorData) = EncodeLeaves (LeavesOf [] Src) ->
     SameLayout Src (ActorProperties (PreRestoreObject Actor)) ->
     NoStructAfterLastLeaf Src ->
     ∃ Props : list FProperty,
       fst (RestoreActor Actor LevelData RuntimeObjects)
       = PostRestoreObject
           (SetActorProperties (PreRestoreObject Actor) Props)
           (CustomData ActorData) /\
       LeavesOf [] Props = LeavesOf [] Src /\
       OnlyLogLines (snd (RestoreActor Actor LevelData RuntimeObjects))) /\
  (∀ (h : bool) (t : FTransform) (v w : FVector) (Rest : list byte),
     let Restored :=
       fst (RestoreCoreActorData Actor (CoreDataV1 h t v w ++ Rest)) in
     snd (RestoreCoreActorData Actor (CoreDataV1 h t v w ++ Rest)) = [] /\
     bHidden Restored = h /\
     ActorTransform Restored = t /\
     RootComponent Restored =
       match RootComponent Actor with
       | Some c =>
           Some (if IsMovablePhysicsRoot c && bIsPrimitive c
                 then SetPhysicsVelocities c v w else c)
       | None => None
       end /\
     ActorProperties Restored = ActorProperties Actor /\
     SpudGuid Restored = SpudGuid Actor /\
     ActorName Restored = ActorName Actor).
Proof.
  assert (Hcorrupt : ∀ (A : AActor) (FromData : list byte),
            StoredCoreVersion FromData ≠ 1%Z ->
            RestoreCoreActorData A FromData
            = (A, [UE_LOG LogError
                     "Core Actor Data for %s is corrupt, not restoring"
                     [ActorName A]])).
  { intros A FromData Hv. unfold RestoreCoreActorData.
    unfold StoredCoreVersion in Hv.
    destruct (ReadRaw _ _) as [InVersion In]. simpl in Hv.
    destruct (Z.eqb_spec (UInt16_to_Z InVersion) 1); [done | reflexivity]. }
  split; [apply Hcorrupt | split; [| split]].
  - intros LevelData RuntimeObjects ActorData Hf Hd Hv. split.
    + rewrite (RestoreActor_found _ _ _ _ Hf Hd).
      by rewrite (Hcorrupt _ _ Hv).
    + destruct (RestoreActor_found_log Actor LevelData RuntimeObjects
                  ActorData Hf Hd) as [_ Hin].
      apply Hin. rewrite (Hcorrupt _ _ Hv). apply list_elem_of_here.
  - intros LevelData RuntimeObjects ActorData ClassDef Src
      Hf Hd Hv Hcd Hdesc Hdata Hlayout Hend.
    assert (Hl := RestoreActor_found_log Actor LevelData RuntimeObjects
                    ActorData Hf Hd).
    revert Hl. rewrite (RestoreActor_found _ _ _ _ Hf Hd).
    rewrite (Hcorrupt _ _ Hv). simpl fst.
    destruct (Properties ActorData) as [Offsets Data]. simpl in Hdata.
    subst Data.
    destruct (RestoreObjectProperties_written (PreRestoreObject Actor) Src
                Offsets (Metadata LevelData) ClassDef RuntimeObjects
                Hcd Hdesc Hlayout Hend) as (Props & Erest & Hleaves & Hlog).
    rewrite Erest. intros [Hl _]. assert (Hall := Hl Hlog).
    by exists Props.
  - intros h t v w Rest Restored. subst Restored.
    rewrite RestoreCoreActorData_V1. unfold ApplyCoreV1.
    destruct (RootComponent Actor) as [c|] eqn:ER;
      [destruct (IsMovablePhysicsRoot c); [destruct (bIsPrimitive c) |] |];
      repeat split; simpl; by rewrite ?ER.
Qed.

End CoreVersion.

Lemma C5_core_data_version_witness :
  let Door := Demo.Door false x00 x00 [] in
  let Saved := Demo.Door true x01 x02 [x09] in
  let Stored :=
    MkObjectData [x02; x00; x01]
      (MkPropertyData [0; 4; 5; 6]%N
         [x01; x00; x00; x00; x07; x01; x02; x00; x00; x00]) [] in
  (StoredCoreVersion [x02; x00; x01] ≠ 1%Z /\
   ActorHasAnyFlags Door RF_Skipped = false /\
   StoredActorData (H := Demo.host) Door Demo.CorruptKeepData = Some Stored /\
   (∃ ClassDef,
      GetClassDef (Metadata Demo.CorruptKeepData)
        (GetClassName (PreRestoreObject (H := Demo.host) Door))
      = Some ClassDef /\
      Describes (Metadata Demo.CorruptKeepData) ClassDef
        (ActorProperties Saved)) /\
   PropData (Properties Stored)
   = EncodeLeaves (LeavesOf [] (ActorProperties Saved)) /\
   SameLayout (ActorProperties Saved)
     (ActorProperties (PreRestoreObject (H := Demo.host) Door)) /\
   NoStructAfterLastLeaf (ActorProperties Saved)) /\
  RestoreCoreActorData (H := Demo.host) Door [x02; x00; x01]
  = (Door,
     [UE_LOG LogError "Core Actor Data for %s is corrupt, not restoring"
        ["Door_0"]]) /\
  ∃ Props : list FProperty,
    fst (RestoreActor (H := Demo.host) Door Demo.CorruptKeepData None)
    = SetActorProperties Door Props /\
    LeavesOf [] Props
    = [([], "A", VInt (Demo.Word x01)); (["S"], "X", VByte x07);
       (["S"], "A", VBool true); ([], "B", VInt (Demo.Word x02))].
Proof.
  intros Door Saved Stored.
  assert (Hv : StoredCoreVersion [x02; x00; x01] ≠ 1%Z)
    by (vm_compute; congruence).
  assert (Hf : ActorHasAnyFlags Door RF_Skipped = false) by reflexivity.
  assert (Hd : StoredActorData (H := Demo.host) Door Demo.CorruptKeepData
               = Some Stored) by (vm_compute; reflexivity).
  set (cd := default (MkClassDef "" [])
               (GetClassDef (Metadata Demo.CorruptKeepData)
                  "/Game/BP/Door.Door_C")).
  assert (Hcd : GetClassDef (Metadata Demo.CorruptKeepData)
                  (GetClassName (PreRestoreObject (H := Demo.host) Door))
                = Some cd) by (vm_compute; reflexivity).
  assert (Hdesc : Describes (Metadata Demo.CorruptKeepData) cd
                    (ActorProperties Saved)) by (vm_compute; reflexivity).
  assert (Hdata : PropData (Properties Stored)
                  = EncodeLeaves (LeavesOf [] (ActorProperties Saved)))
    by reflexivity.
  assert (Hlayout : SameLayout (ActorProperties Saved)
                      (ActorProperties
                         (PreRestoreObject (H := Demo.host) Door)))
    by reflexivity.
  assert (Hend : NoStructAfterLastLeaf (ActorProperties Saved)).
  { unfold NoStructAfterLastLeaf. simpl. lia. }
  split.
  { split; [exact Hv |]. split; [exact Hf |]. split; [exact Hd |].
    split; [by exists cd |]. by repeat split. }
  destruct (C5_core_data_version (H := Demo.host) Door) as (H1 & _ & H3 & _).
  split; [exact (H1 _ Hv) |].
  destruct (H3 Demo.CorruptKeepData None Stored cd
              (ActorProperties Saved) Hf Hd Hv Hcd Hdesc Hdata Hlayout Hend)
    as (Props & E1 & E2 & _).
  exists Props. split; [exact E1 | exact E2].
Defined.

Lemma Snapshot_restore_round_trip_witness :
  (ActorHasAnyFlags (Demo.Door true x01 x02 [x09]) RF_Skipped = false /\
   ActorHasAnyFlags (Demo.Door false x00 x00 []) RF_Skipped = false /\
   SameEntity (H := Demo.host) (Demo.Door true x01 x02 [x09])
     (Demo.Door false x00 x00 []) /\
   ClassPathName (PreRestoreObject (H := Demo.host) (Demo.Door false x00 x00 []))
   = ClassPathName (Demo.Door true x01 x02 [x09]) /\
   SameLayout
     (ActorProperties (SnapshotSubject (H := Demo.host)
                         (Demo.Door true x01 x02 [x09])))
     (ActorProperties (PreRestoreObject (H := Demo.host)
                         (Demo.Door false x00 x00 []))) /\
   DistinctAddresses
     (ActorProperties (SnapshotSubject (H := Demo.host)
                         (Demo.Door true x01 x02 [x09]))) /\
   StoredDefCompatible (Metadata Demo.KeepData)
     (ClassPathName (Demo.Door true x01 x02 [x09]))
     (ActorProperties (SnapshotSubject (H := Demo.host)
                         (Demo.Door true x01 x02 [x09]))) /\
   NoStructAfterLastLeaf
     (ActorProperties (SnapshotSubject (H := Demo.host)
                         (Demo.Door true x01 x02 [x09])))) /\
  ∃ Mid : AActor,
    fst (RestoreActor (H := Demo.host) (Demo.Door false x00 x00 [])
           (snd (fst (UpdateFromActor (H := Demo.host)
                        (Demo.Door true x01 x02 [x09]) Demo.KeepData)))
           None) = Mid /\
    LeavesOf [] (ActorProperties Mid)
    = LeavesOf [] (ActorProperties (Demo.Door true x01 x02 [x09])) /\
    bHidden Mid = true /\
    ActorTransform Mid = ActorTransform (Demo.Door true x01 x02 [x09]).
Proof.
  assert (H1 : ActorHasAnyFlags (Demo.Door true x01 x02 [x09]) RF_Skipped
               = false) by reflexivity.
  assert (H2 : ActorHasAnyFlags (Demo.Door false x00 x00 []) RF_Skipped
               = false) by reflexivity.
  assert (H3 : SameEntity (H := Demo.host) (Demo.Door true x01 x02 [x09])
                 (Demo.Door false x00 x00 [])) by (split; reflexivity).
  assert (H4 : ClassPathName
                 (PreRestoreObject (H := Demo.host) (Demo.Door false x00 x00 []))
               = ClassPathName (Demo.Door true x01 x02 [x09])) by reflexivity.
  assert (H5 : SameLayout
                 (ActorProperties (SnapshotSubject (H := Demo.host)
                                     (Demo.Door true x01 x02 [x09])))
                 (ActorProperties (PreRestoreObject (H := Demo.host)
                                     (Demo.Door false x00 x00 []))))
    by reflexivity.
  assert (H6 : DistinctAddresses
                 (ActorProperties (SnapshotSubject (H := Demo.host)
                                     (Demo.Door true x01 x02 [x09])))).
  { apply (bool_decide_unpack _). vm_compute. exact I. }
  assert (H7 : StoredDefCompatible (Metadata Demo.KeepData)
                 (ClassPathName (Demo.Door true x01 x02 [x09]))
                 (ActorProperties (SnapshotSubject (H := Demo.host)
                                     (Demo.Door true x01 x02 [x09])))).
  { intros cd Hcd. vm_compute in Hcd. injection Hcd as <-.
    right. vm_compute. reflexivity. }
  assert (H8 : NoStructAfterLastLeaf
                 (ActorProperties (SnapshotSubject (H := Demo.host)
                                     (Demo.Door true x01 x02 [x09])))).
  { unfold NoStructAfterLastLeaf. simpl. lia. }
  split; [by repeat split |].
  destruct (Snapshot_restore_round_trip (H := Demo.host)
              (Demo.Door true x01 x02 [x09]) (Demo.Door false x00 x00 [])
              Demo.KeepData None H1 H2 H3 H4 H5 H6 H7 H8)
    as (Mid & Custom & _ & Hno & _ & Hl & Hh & Ht & _).
  exists Mid. split; [exact (Hno eq_refl) |]. by repeat split.
Defined.

(* ===================================================================== *)
(** * Further properties of the code *)
(* ===================================================================== *)

(* --------------------------------------------------------------------- *)
(** *** Level names *)
(* --------------------------------------------------------------------- *)

Lemma AfterLastSlash_none (s : string) :
  ContainsSlash s = false -> AfterLastSlash s = None.
Proof.
  induction s as [|c s IH]; simpl; [done |].
  intros Hs. apply orb_false_iff in Hs as [Hc Hs].
  by rewrite (IH Hs), Hc.
Qed.

Lemma AfterLastSlash_segment (Dir Seg : string) :
  ContainsSlash Seg = false ->
  AfterLastSlash (Dir +:+ String "/" Seg) = Some Seg.
Proof.
  intros Hs. induction Dir as [|c Dir IH]; simpl.
  - by rewrite (AfterLastSlash_none _ Hs).
  - by rewrite IH.
Qed.

Lemma DropChars_all (n : nat) (s : string) :
  (String.length s <= n)%nat -> DropChars n s = "".
Proof.
  revert n. induction s as [|c s IH]; intros n; simpl.
  - by destruct n.
  - destruct n; simpl; [lia |]. intros Hn. apply IH. lia.
Qed.

Lemma FString_Right_drop (s : string) (k : nat) :
  FString_Right s (Z.of_nat (String.length s) - Z.of_nat k) = DropChars k s.
Proof.
  unfold FString_Right.
  destruct (decide (String.length s <= k)%nat) as [Hle|Hgt].
  - rewrite (DropChars_all k s Hle).
    replace (Z.max 0 _) with 0%Z by lia.
    rewrite Z.sub_0_r, Nat2Z.id. by apply DropChars_all.
  - replace (Z.max 0 _) with (Z.of_nat (String.length s) - Z.of_nat k)%Z by lia.
    f_equal. lia.
Qed.

(** X1.  The level name of an object is the last segment of the name
    of its outermost package, without its first nine characters when
    the segment starts with UEDPIE_ (in any case): the play-in-editor
    prefix of a session numbered with one digit is removed, so that
    the editor session and the packaged game agree on the name.  A
    package name without a slash gives the empty level name. *)
Theorem GetLevelNameForObject_segment (Dir Seg : string) :
  ContainsSlash Seg = false ->
  GetLevelNameForObject (Some (Dir +:+ String "/" Seg))
  = (if StartsWith Seg "UEDPIE_" then DropChars 9 Seg else Seg) /\
  GetLevelNameForObject (Some Seg) = "".
Proof.
  intros Hs. unfold GetLevelNameForObject. split.
  - rewrite (AfterLastSlash_segment Dir Seg Hs). simpl default.
    destruct (StartsWith Seg "UEDPIE_"); [| done].
    apply (FString_Right_drop Seg 9).
  - by rewrite (AfterLastSlash_none Seg Hs).
Qed.

(* --------------------------------------------------------------------- *)
(** *** Locating records *)
(* --------------------------------------------------------------------- *)

(** X2.  [GetLevelData] with [AutoCreate] always returns level data:
    the data stored under the name, or new empty data that carries the
    name and is entered in the map.  It touches no other name, changes
    nothing when the data exists, and asking again, with or without
    [AutoCreate], returns the same data.  Without [AutoCreate] the save
    data is never changed. *)
Theorem GetLevelData_find_or_create (SaveData : FSpudSaveData)
    (LevelName : string) :
  let r := GetLevelData SaveData LevelName true in
  (∃ ld, fst r = Some ld /\
         LevelDataMap (snd r) !! LevelName = Some ld /\
         (LevelDataMap SaveData !! LevelName = None ->
          ld = SetLevelDataName EmptyLevelData LevelName)) /\
  (∀ n, n ≠ LevelName ->
        LevelDataMap (snd r) !! n = LevelDataMap SaveData !! n) /\
  (is_Some (LevelDataMap SaveData !! LevelName) -> snd r = SaveData) /\
  GetLevelData (snd r) LevelName true = r /\
  GetLevelData (snd r) LevelName false = r /\
  snd (GetLevelData SaveData LevelName false) = SaveData.
Proof.
  unfold GetLevelData.
  destruct (LevelDataMap SaveData !! LevelName) as [ld|] eqn:E; simpl.
  - rewrite E. repeat split; try done. by exists ld.
  - rewrite lookup_insert_eq. repeat split; try done.
    + eexists. by repeat split.
    + intros n Hn. by rewrite lookup_insert_ne.
Qed.

Section Frame.
Context `{Host}.

Lemma WriteObjectData_frame (LD : FSpudLevelData) (r : ObjectDataRef)
    (d : FSpudObjectData) :
  DestroyedActors (WriteObjectData LD r d) = DestroyedActors LD /\
  LevelDataName (WriteObjectData LD r d) = LevelDataName LD /\
  Metadata (WriteObjectData LD r d) = Metadata LD /\
  (∀ n, LevelActorRef n ≠ r ->
        LevelActors (WriteObjectData LD r d) !! n = LevelActors LD !! n) /\
  (∀ g, SpawnedActorRef g ≠ r ->
        SpawnedActors (WriteObjectData LD r d) !! g = SpawnedActors LD !! g) /\
  (∀ n, is_Some (LevelActors LD !! n) ->
        is_Some (LevelActors (WriteObjectData LD r d) !! n)) /\
  (∀ g, is_Some (SpawnedActors LD !! g) ->
        is_Some (SpawnedActors (WriteObjectData LD r d) !! g)).
Proof.
  destruct r as [m|k]; simpl; repeat split; try done.
  - intros n Hn. apply lookup_alter_ne. congruence.
  - intros n [x Hx]. destruct (decide (m = n)) as [->|Hne].
    + rewrite lookup_alter_eq, Hx. by eexists.
    + rewrite lookup_alter_ne by done. by eexists.
  - intros g Hg. apply lookup_alter_ne. congruence.
  - intros g [x Hx]. destruct (decide (k = g)) as [->|Hne].
    + rewrite lookup_alter_eq, Hx. by eexists.
    + rewrite lookup_alter_ne by done. by eexists.
Qed.

Lemma GetLevelActorData_frame (E : AActor) (LD : FSpudLevelData) (b : bool) :
  let r := GetLevelActorData E LD b in
  DestroyedActors (snd r) = DestroyedActors LD /\
  LevelDataName (snd r) = LevelDataName LD /\
  Metadata (snd r) = Metadata LD /\
  SpawnedActors (snd r) = SpawnedActors LD /\
  (∀ n, n ≠ ActorName E -> LevelActors (snd r) !! n = LevelActors LD !! n) /\
  (∀ n, is_Some (LevelActors LD !! n) -> is_Some (LevelActors (snd r) !! n)) /\
  (fst r = None \/ fst r = Some (LevelActorRef (ActorName E))).
Proof.
  unfold GetLevelActorData, GetLevelActorName.
  destruct (LevelActors LD !! ActorName E) eqn:El; [| destruct b]; simpl;
    repeat split; try done; try (by right); try (by left).
  - intros n Hn. by rewrite lookup_insert_ne.
  - intros n Hn. destruct (decide (ActorName E = n)) as [<-|Hne].
    + rewrite lookup_insert_eq. by eexists.
    + by rewrite lookup_insert_ne.
Qed.

Lemma GetSpawnedActorData_frame (E : AActor) (LD : FSpudLevelData) (b : bool) :
  let r := fst (GetSpawnedActorData E LD b) in
  DestroyedActors (snd r) = DestroyedActors LD /\
  LevelDataName (snd r) = LevelDataName LD /\
  LevelActors (snd r) = LevelActors LD /\
  (∀ g, g ≠ SnapshotGuid E -> SpawnedActors (snd r) !! g = SpawnedActors LD !! g) /\
  (∀ g, is_Some (SpawnedActors LD !! g) -> is_Some (SpawnedActors (snd r) !! g)) /\
  (fst (fst r) = None \/
   b = true /\ fst (fst r) = Some (SpawnedActorRef (SnapshotGuid E)) \/
   b = false /\ snd r = LD).
Proof.
  unfold GetSpawnedActorData, SnapshotGuid, SetGuidProperty.
  destruct (GuidIsValid (GetGuidProperty E)) eqn:Ev; simpl.
  - destruct (SpawnedActors LD !! GetGuidProperty E) eqn:El; simpl.
    + repeat split; try done. destruct b; [right; left | right; right]; done.
    + destruct b; simpl; [| repeat split; try done; by left].
      destruct (FindOrAddClassIDFromName _ _) as [ID Meta]. simpl.
      repeat split; try done.
      * intros g Hg. by rewrite lookup_insert_ne.
      * intros g Hg. destruct (decide (GetGuidProperty E = g)) as [<-|Hne].
        -- rewrite lookup_insert_eq. by eexists.
        -- by rewrite lookup_insert_ne.
      * right; left; done.
  - destruct b; simpl; [| repeat split; try done; by left].
    destruct (SpudGuid E); simpl; [| repeat split; try done; by left].
    destruct (SpawnedActors LD !! NewGuid) eqn:El; simpl.
    + repeat split; try done. right; left; done.
    + destruct (FindOrAddClassIDFromName _ _) as [ID Meta]. simpl.
      repeat split; try done.
      * intros g Hg. by rewrite lookup_insert_ne.
      * intros g Hg. destruct (decide (NewGuid = g)) as [<-|Hne].
        -- rewrite lookup_insert_eq. by eexists.
        -- by rewrite lookup_insert_ne.
      * right; left; done.
Qed.

(** The level data [UpdateFromActor] returns is the data after the
    record was located, with a new registry and, when there is a record,
    the record rewritten. *)
Lemma UpdateFromActor_shape (E : AActor) (LD : FSpudLevelData) :
  let LD' := snd (fst (UpdateFromActor E LD)) in
  LD' = LD \/
  ∃ (M0 M : FSpudClassMetadata),
    let R := if ShouldActorBeRespawnedOnRestore E
             then (let r := fst (GetSpawnedActorData E (SetMetadata LD M0) true)
                   in (fst (fst r), snd r))
             else GetLevelActorData E (SetMetadata LD M0) true in
    ActorHasAnyFlags E RF_Skipped = false /\
    (LD' = snd R \/
     ∃ Ref d, fst R = Some Ref /\
       LD' = WriteObjectData (SetMetadata (snd R) M) Ref d).
Proof.
  unfold UpdateFromActor.
  destruct (ActorHasAnyFlags E RF_Skipped) eqn:Ef; [by left |].
  destruct (FindOrAddClassDef (Metadata LD) (GetClassName E)) as [idx M0].
  right. exists M0.
  destruct (ShouldActorBeRespawnedOnRestore E).
  - destruct (GetSpawnedActorData E (SetMetadata LD M0) true)
      as [[[r a] ld] lg]. simpl.
    destruct r as [Ref|]; simpl; [| exists M0; split; [done | by left]].
    destruct (ReadObjectData ld Ref) as [d0|]; simpl;
      [| exists M0; split; [done | by left]].
    destruct (VisitPersistentProperties _ _ _) as [ps V'].
    destruct (bSpudObjectCallback a);
      [destruct (SpudFinaliseSaveState _) as [a1 cu] |]; simpl;
      (eexists; split; [done |]; right; eexists _, _; split; done).
  - destruct (GetLevelActorData E (SetMetadata LD M0) true) as [r ld].
    simpl.
    destruct r as [Ref|]; simpl; [| exists M0; split; [done | by left]].
    destruct (ReadObjectData ld Ref) as [d0|]; simpl;
      [| exists M0; split; [done | by left]].
    destruct (VisitPersistentProperties _ _ _) as [ps V'].
    destruct (bSpudObjectCallback E);
      [destruct (SpudFinaliseSaveState _) as [a1 cu] |]; simpl;
      (eexists; split; [done |]; right; eexists _, _; split; done).
Qed.

Lemma Snapshot_frame (E : AActor) (LD : FSpudLevelData) :
  let LD' := snd (fst (UpdateFromActor E LD)) in
  DestroyedActors LD' = DestroyedActors LD /\
  LevelDataName LD' = LevelDataName LD /\
  (∀ n, n ≠ ActorName E -> LevelActors LD' !! n = LevelActors LD !! n) /\
  (∀ g, g ≠ SnapshotGuid E -> SpawnedActors LD' !! g = SpawnedActors LD !! g) /\
  (ShouldActorBeRespawnedOnRestore E = true ->
   LevelActors LD' = LevelActors LD) /\
  (ShouldActorBeRespawnedOnRestore E = false ->
   SpawnedActors LD' = SpawnedActors LD) /\
  (∀ n, is_Some (LevelActors LD !! n) -> is_Some (LevelActors LD' !! n)) /\
  (∀ g, is_Some (SpawnedActors LD !! g) -> is_Some (SpawnedActors LD' !! g)).
Proof.
  intros LD'. subst LD'.
  destruct (UpdateFromActor_shape E LD) as [E0 | (M0 & M & _ & Hs)].
  { rewrite E0. by repeat split. }
  destruct (ShouldActorBeRespawnedOnRestore E) eqn:Er.
  - destruct (GetSpawnedActorData_frame E (SetMetadata LD M0) true)
      as (F1 & F2 & F3 & F4 & F5 & F6).
    set (r := fst (GetSpawnedActorData E (SetMetadata LD M0) true)) in *.
    simpl in Hs, F1, F2, F3, F4, F5.
    destruct Hs as [Hs | (Ref & d & ERef & Hs)]; rewrite Hs; clear Hs.
    { repeat split; try done; intros; rewrite ?F3; auto. }
    destruct F6 as [F6 | [[_ F6] | [? _]]]; [congruence | | done].
    assert (Ref = SpawnedActorRef (SnapshotGuid E)) as -> by congruence.
    destruct (WriteObjectData_frame (SetMetadata (snd r) M)
                (SpawnedActorRef (SnapshotGuid E)) d)
      as (W1 & W2 & _ & W4 & W5 & W6 & W7).
    split; [rewrite W1; exact F1 |]. split; [rewrite W2; exact F2 |].
    repeat split; try done.
    + intros n Hn. rewrite W4 by done. simpl. by rewrite F3.
    + intros g Hg. rewrite W5 by congruence. by apply F4.
    + intros n Hn. apply W6. simpl. by rewrite F3.
    + intros g Hg. apply W7. by apply F5.
  - destruct (GetLevelActorData_frame E (SetMetadata LD M0) true)
      as (F1 & F2 & _ & F3 & F4 & F5 & F6).
    set (r := GetLevelActorData E (SetMetadata LD M0) true) in *.
    simpl in Hs, F1, F2, F3, F4, F5.
    destruct Hs as [Hs | (Ref & d & ERef & Hs)]; rewrite Hs; clear Hs.
    { repeat split; try done; intros; rewrite ?F3; auto. }
    destruct F6 as [F6 | F6]; [congruence |].
    assert (Ref = LevelActorRef (ActorName E)) as -> by congruence.
    destruct (WriteObjectData_frame (SetMetadata (snd r) M)
                (LevelActorRef (ActorName E)) d)
      as (W1 & W2 & _ & W4 & W5 & W6 & W7).
    split; [rewrite W1; exact F1 |]. split; [rewrite W2; exact F2 |].
    repeat split; try done.
    + intros n Hn. rewrite W4 by congruence. by apply F4.
    + intros g Hg. rewrite W5 by done. simpl. by rewrite F3.
    + intros n Hn. apply W6. by apply F5.
    + intros g Hg. apply W7. simpl. by rewrite F3.
Qed.

(** X6.  A snapshot touches the record of its actor and no other: the
    records of the level actors with another name and of the runtime
    actors with another GUID, the names recorded as destroyed and the
    name of the level data are as before; a runtime actor's snapshot
    leaves the level actors alone and a level actor's snapshot the
    runtime actors; no record is removed. *)
Theorem UpdateFromActor_frame (E : AActor) (LD : FSpudLevelData) :
  let LD' := snd (fst (UpdateFromActor E LD)) in
  DestroyedActors LD' = DestroyedActors LD /\
  LevelDataName LD' = LevelDataName LD /\
  (∀ n, n ≠ ActorName E -> LevelActors LD' !! n = LevelActors LD !! n) /\
  (∀ g, g ≠ SnapshotGuid E -> SpawnedActors LD' !! g = SpawnedActors LD !! g) /\
  (ShouldActorBeRespawnedOnRestore E = true ->
   LevelActors LD' = LevelActors LD) /\
  (ShouldActorBeRespawnedOnRestore E = false ->
   SpawnedActors LD' = SpawnedActors LD) /\
  (∀ n, is_Some (LevelActors LD !! n) -> is_Some (LevelActors LD' !! n)) /\
  (∀ g, is_Some (SpawnedActors LD !! g) -> is_Some (SpawnedActors LD' !! g)).
Proof. exact (Snapshot_frame E LD). Qed.
End Frame.

(* --------------------------------------------------------------------- *)
(** *** What a snapshot stores *)
(* --------------------------------------------------------------------- *)

Section Stored.
Context `{Host}.

(** Locating the record of an actor that can be stored, creating it if
    needed: the record found is the one the level data had, or an empty
    one. *)
Lemma Snapshot_route (E : AActor) (LD : FSpudLevelData) (idx : nat) :
  (ShouldActorBeRespawnedOnRestore E = true -> SpudGuid E ≠ None) ->
  FindClassDefIndex (Metadata LD) (GetClassName E) = Some idx ->
  ∃ (A1 : AActor) (LD1 : FSpudLevelData),
    (if ShouldActorBeRespawnedOnRestore E
     then GetSpawnedActorData E LD true
     else let '(r, ld) := GetLevelActorData E LD true in mret (r, E, ld))
    = ((Some (SnapshotRef E), A1, LD1), []) /\
    Metadata LD1 = Metadata LD /\
    ReadObjectData LD1 (SnapshotRef E)
    = Some (default EmptyObjectData (ReadObjectData LD (SnapshotRef E))) /\
    SnapshotSubject E
    = (if bSpudObjectCallback A1 then SpudPreSaveState A1 else A1) /\
    bSpudObjectCallback A1 = bSpudObjectCallback E /\
    GetClassName A1 = GetClassName E.
Proof.
  intros Hg Hi. unfold SnapshotRef, SnapshotSubject.
  destruct (ShouldActorBeRespawnedOnRestore E) eqn:Er.
  - specialize (Hg eq_refl).
    destruct (SpudGuid E) as [g|] eqn:Eg; [| done].
    unfold GetSpawnedActorData, SnapshotGuid, GetGuidProperty, SetGuidProperty,
      FindOrAddClassIDFromName, GetClassName in *.
    rewrite Eg. simpl.
    destruct (GuidIsValid g) eqn:Hv; simpl;
      rewrite ?(FindOrAddClassDef_found _ _ _ Hi).
    + destruct (SpawnedActors LD !! g) as [r|] eqn:El;
        (eexists _, _; split; [reflexivity |]; repeat split; simpl;
         rewrite ?lookup_insert_eq, ?El; done).
    + destruct (SpawnedActors LD !! NewGuid) as [r|] eqn:El;
        (eexists _, _; split; [reflexivity |]; repeat split; simpl;
         rewrite ?lookup_insert_eq, ?El; done).
  - unfold GetLevelActorData, GetLevelActorName. simpl.
    destruct (LevelActors LD !! ActorName E) as [r|] eqn:El;
      (eexists _, _; split; [reflexivity |]; repeat split; simpl;
       rewrite ?lookup_insert_eq, ?El; done).
Qed.

Lemma Snapshot_record (E : AActor) (LD : FSpudLevelData) :
  ActorHasAnyFlags E RF_Skipped = false ->
  (ShouldActorBeRespawnedOnRestore E = true -> SpudGuid E ≠ None) ->
  let Ew := SnapshotSubject E in
  ∃ (Offsets : list N) (Custom : list byte),
    ReadObjectData (snd (fst (UpdateFromActor E LD))) (SnapshotRef E)
    = Some (MkObjectData (WriteCoreActorData Ew [])
              (MkPropertyData Offsets
                 (EncodeLeaves (LeavesOf [] (ActorProperties Ew))))
              Custom) /\
    (bSpudObjectCallback E = true -> Custom = snd (SpudFinaliseSaveState Ew)) /\
    (bSpudObjectCallback E = false ->
     Custom = default [] (CustomData <$> ReadObjectData LD (SnapshotRef E))).
Proof.
  intros Hf Hg Ew.
  destruct (FindOrAddClassDef (Metadata LD) (GetClassName E))
    as [idx Meta1] eqn:EF.
  assert (Hspec := FindOrAddClassDef_spec (Metadata LD) (GetClassName E)).
  rewrite EF in Hspec. simpl in Hspec. destruct Hspec as (Hidx & _).
  destruct (Snapshot_route E (SetMetadata LD Meta1) idx Hg Hidx)
    as (A1 & LD1 & Er & Em & Ed & EEw & Hcb & Hcn).
  destruct (UpdateFromActor_unfold E LD idx Meta1 _ A1 LD1 [] _ Hf EF Er Ed)
    as (V' & W & ELD).
  rewrite <- EEw in W, ELD. fold Ew in W, ELD.
  destruct W as (_ & Hout & _).
  destruct (ReadObjectData_Write LD1
              (SetClassDef (UF_Meta V') idx (UF_ClassDef V')) _ _
              (MkObjectData (WriteCoreActorData Ew [])
                 (MkPropertyData (UF_PropertyOffsets V') (UF_Out V'))
                 (if bSpudObjectCallback A1
                  then snd (SpudFinaliseSaveState Ew)
                  else CustomData
                         (default EmptyObjectData
                            (ReadObjectData (SetMetadata LD Meta1)
                               (SnapshotRef E))))) Ed) as [Hread _].
  rewrite <- ELD in Hread. rewrite Hread. simpl in Hout. rewrite Hout.
  eexists _, _. split; [reflexivity |]. rewrite Hcb.
  split; intros ->; [done |].
  by destruct (SnapshotRef E) as [n|g]; simpl;
    [destruct (LevelActors LD !! n) | destruct (SpawnedActors LD !! g)].
Qed.

(** X5.  What [UpdateFromActor] leaves in the record of an actor that
    can be stored: the core data [WriteCoreActorData] writes for the
    actor, the raw values of its persisted leaves in visiting order
    (a property of an unsupported type contributes nothing), and as
    custom data what the finalise hook wrote; for an actor without
    hooks the custom data the record had is kept. *)
Theorem UpdateFromActor_stored (E : AActor) (LD : FSpudLevelData) :
  ActorHasAnyFlags E RF_Skipped = false ->
  (ShouldActorBeRespawnedOnRestore E = true -> SpudGuid E ≠ None) ->
  let Ew := SnapshotSubject E in
  ∃ (Offsets : list N) (Custom : list byte),
    ReadObjectData (snd (fst (UpdateFromActor E LD))) (SnapshotRef E)
    = Some (MkObjectData (WriteCoreActorData Ew [])
              (MkPropertyData Offsets
                 (EncodeLeaves (LeavesOf [] (ActorProperties Ew))))
              Custom) /\
    (bSpudObjectCallback E = true -> Custom = snd (SpudFinaliseSaveState Ew)) /\
    (bSpudObjectCallback E = false ->
     Custom = default [] (CustomData <$> ReadObjectData LD (SnapshotRef E))).
Proof. exact (Snapshot_record E LD). Qed.

End Stored.

(* --------------------------------------------------------------------- *)
(** *** The entry points that find the level data themselves *)
(* --------------------------------------------------------------------- *)

Section EntryPoints.
Context `{Host}.

Lemma Snapshot_entry_point (SaveData : FSpudSaveData) (Obj : AActor) :
  ActorHasAnyFlags Obj RF_Skipped = false ->
  let LevelName := GetLevelNameForObject (OuterMostName Obj) in
  let Before :=
    default (SetLevelDataName EmptyLevelData LevelName)
            (LevelDataMap SaveData !! LevelName) in
  let After := snd (fst (UpdateFromActor Obj Before)) in
  let SaveData' := snd (fst (UpdateFromActor_Obj SaveData Obj)) in
  LevelDataMap SaveData' !! LevelName = Some After /\
  fst (fst (UpdateFromActor_Obj SaveData Obj))
  = fst (fst (UpdateFromActor Obj Before)) /\
  snd (UpdateFromActor_Obj SaveData Obj) = snd (UpdateFromActor Obj Before) /\
  (∀ n, n ≠ LevelName ->
        LevelDataMap SaveData' !! n = LevelDataMap SaveData !! n) /\
  (∀ Actor2,
     ActorHasAnyFlags Actor2 RF_Skipped = false ->
     GetLevelNameForObject (OuterMostName Actor2) = LevelName ->
     RestoreActor_Actor SaveData' Actor2 = RestoreActor Actor2 After None).
Proof.
  intros Hf LevelName Before After SaveData'.
  assert (E : UpdateFromActor_Obj SaveData Obj
              = (let '((a, ld), lg) := UpdateFromActor Obj Before in
                 ((a, MkSaveData (<[LevelName := ld]> (LevelDataMap SaveData))),
                  lg))).
  { unfold UpdateFromActor_Obj, GetLevelData, PutLevelData. rewrite Hf.
    fold LevelName. subst Before.
    destruct (LevelDataMap SaveData !! LevelName) as [ld|] eqn:El; simpl.
    - destruct (UpdateFromActor Obj ld) as [[a ld'] lg]. simpl.
      by rewrite app_nil_r.
    - destruct (UpdateFromActor Obj _) as [[a ld'] lg]. simpl.
      by rewrite app_nil_r, insert_insert_eq. }
  subst SaveData' After. rewrite E.
  destruct (UpdateFromActor Obj Before) as [[a ld] lg]. simpl.
  split; [by rewrite lookup_insert_eq |]. split; [done |]. split; [done |].
  split; [intros n Hn; by rewrite lookup_insert_ne |].
  intros Actor2 Hf2 Hn. unfold RestoreActor_Actor, GetLevelData.
  rewrite Hf2, Hn. simpl. by rewrite lookup_insert_eq.
Qed.

(** X3.  [UpdateFromActor(Obj)] files the snapshot under the level name
    of the actor's package, creating the level data when there is none,
    and leaves the data of every other level alone; [RestoreActor(Actor)]
    on an actor of the same package then works from that level data. *)
Theorem UpdateFromActor_Obj_level (SaveData : FSpudSaveData) (Obj : AActor) :
  ActorHasAnyFlags Obj RF_Skipped = false ->
  let LevelName := GetLevelNameForObject (OuterMostName Obj) in
  let Before :=
    default (SetLevelDataName EmptyLevelData LevelName)
            (LevelDataMap SaveData !! LevelName) in
  let After := snd (fst (UpdateFromActor Obj Before)) in
  let SaveData' := snd (fst (UpdateFromActor_Obj SaveData Obj)) in
  LevelDataMap SaveData' !! LevelName = Some After /\
  fst (fst (UpdateFromActor_Obj SaveData Obj))
  = fst (fst (UpdateFromActor Obj Before)) /\
  snd (UpdateFromActor_Obj SaveData Obj) = snd (UpdateFromActor Obj Before) /\
  (∀ n, n ≠ LevelName ->
        LevelDataMap SaveData' !! n = LevelDataMap SaveData !! n) /\
  (∀ Actor2,
     ActorHasAnyFlags Actor2 RF_Skipped = false ->
     GetLevelNameForObject (OuterMostName Actor2) = LevelName ->
     RestoreActor_Actor SaveData' Actor2 = RestoreActor Actor2 After None).
Proof. exact (Snapshot_entry_point SaveData Obj). Qed.

End EntryPoints.

(* --------------------------------------------------------------------- *)
(** *** Removing the actors recorded as destroyed *)
(* --------------------------------------------------------------------- *)

Lemma filter_all {A} (P : A -> Prop) `{∀ x, Decision (P x)} (l : list A) :
  Forall P l -> filter P l = l.
Proof.
  induction 1 as [|x l Hx _ IH]; [done |].
  rewrite filter_cons_True by done. by rewrite IH.
Qed.

Lemma RemoveActor_filter (n : string) (acts : list AActor) :
  NoDup (ActorName <$> acts) ->
  RemoveActor n acts = filter (λ a, ActorName a ≠ n) acts.
Proof.
  induction acts as [|a r IH]; [done |].
  rewrite fmap_cons. intros Hnd. apply NoDup_cons in Hnd as [Hn Hnd].
  simpl. destruct (String.eqb (ActorName a) n) eqn:Ea.
  - apply String.eqb_eq in Ea. subst n.
    rewrite filter_cons_False by (intros Hc; by apply Hc).
    symmetry. apply filter_all. apply Forall_forall.
    intros b Hb Heq. apply Hn. rewrite <- Heq.
    apply list_elem_of_fmap. by exists b.
  - apply String.eqb_neq in Ea.
    rewrite filter_cons_True by done. by rewrite IH.
Qed.

Lemma StaticFindObject_present (Level : ULevel) (n : string) :
  n ∈ ActorNames Level -> is_Some (StaticFindObject Level n).
Proof.
  unfold ActorNames, StaticFindObject. intros Hin.
  apply list_elem_of_fmap in Hin as (a & -> & Ha).
  induction (Actors Level) as [|b r IH]; [by apply elem_of_nil in Ha |].
  simpl. destruct (String.eqb (ActorName b) (ActorName a)) eqn:Eb;
    [by eexists |].
  apply elem_of_cons in Ha as [->|Ha]; [| by apply IH].
  by rewrite String.eqb_refl in Eb.
Qed.

Lemma DestroyActor_filter (n : string) (Level : ULevel) :
  NoDup (ActorNames Level) ->
  DestroyActor n Level
  = (SetActors Level (filter (λ a, ActorName a ≠ n) (Actors Level)),
     if bool_decide (n ∈ ActorNames Level) then [CallDestroyActor n] else []).
Proof.
  intros Hnd. unfold DestroyActor.
  destruct (StaticFindObject Level n) as [a|] eqn:Ef.
  - assert (Hn := StaticFindObject_name _ _ _ Ef). rewrite Hn.
    rewrite (RemoveActor_filter n _ Hnd).
    rewrite bool_decide_eq_true_2; [done |].
    destruct (decide (n ∈ ActorNames Level)) as [Hin|Hnin]; [done |].
    by rewrite (StaticFindObject_absent _ _ Hnin) in Ef.
  - assert (Hnin : n ∉ ActorNames Level).
    { intros Hin. apply StaticFindObject_present in Hin as [? Hin].
      congruence. }
    rewrite bool_decide_eq_false_2 by done.
    rewrite filter_all; [by destruct Level |].
    apply Forall_forall. intros b Hb Heq. apply Hnin. rewrite <- Heq.
    apply list_elem_of_fmap. by exists b.
Qed.

Lemma NoDup_filter_names (P : AActor -> Prop) `{∀ a, Decision (P a)}
    (acts : list AActor) :
  NoDup (ActorName <$> acts) -> NoDup (ActorName <$> filter P acts).
Proof.
  induction acts as [|a r IH]; [done |].
  rewrite fmap_cons. intros Hnd. apply NoDup_cons in Hnd as [Hn Hnd].
  destruct (decide (P a)).
  - rewrite filter_cons_True by done. rewrite fmap_cons.
    apply NoDup_cons. split; [| by apply IH].
    intros Hin. apply Hn. apply list_elem_of_fmap in Hin as (b & -> & Hb).
    apply list_elem_of_fmap. exists b. split; [done |].
    by apply list_elem_of_filter in Hb as [_ Hb].
  - rewrite filter_cons_False by done. by apply IH.
Qed.

(** X15.  The third loop of [RestoreLevel] removes from the level exactly
    the actors whose names are recorded, keeps the others in their
    order, and calls the engine once for each recorded name that names
    an actor of the level. *)
Theorem DestroyRecordedActors_removes (Values : list string) (Level : ULevel) :
  NoDup (ActorNames Level) ->
  let r := DestroyRecordedActors Values Level in
  fst r = SetActors Level
            (filter (λ a, ActorName a ∉ Values) (Actors Level)) /\
  (∀ n, CallDestroyActor n ∈ snd r <-> n ∈ Values /\ n ∈ ActorNames Level) /\
  Forall (λ e, IsDestroyCall e = true) (snd r).
Proof.
  revert Level. induction Values as [|v rest IH]; intros Level Hnd; simpl.
  - split; [| split; [| done]].
    + rewrite filter_all; [by destruct Level |].
      apply Forall_forall. intros a _. apply not_elem_of_nil.
    + intros n. split; [intros Hin; by apply elem_of_nil in Hin |].
      intros [Hin _]. by apply elem_of_nil in Hin.
  - unfold mbind, Logged_bind. rewrite (DestroyActor_filter v Level Hnd).
    set (L1 := SetActors Level (filter (λ a, ActorName a ≠ v) (Actors Level))).
    assert (Hnd1 : NoDup (ActorNames L1)).
    { unfold ActorNames, L1. simpl. by apply NoDup_filter_names. }
    destruct (IH L1 Hnd1) as (I1 & I2 & I3).
    destruct (DestroyRecordedActors rest L1) as [L2 t2]. simpl in *.
    split; [| split].
    + rewrite I1. unfold L1, SetActors. simpl. f_equal.
      rewrite list_filter_filter. apply list_filter_iff.
      intros a. rewrite not_elem_of_cons. tauto.
    + intros n. rewrite elem_of_app, I2, elem_of_cons.
      assert (Hn1 : n ∈ ActorNames L1 <-> n ∈ ActorNames Level /\ n ≠ v).
      { unfold ActorNames, L1. simpl. rewrite !list_elem_of_fmap. split.
        - intros (a & -> & Ha). apply list_elem_of_filter in Ha as [Hne Ha].
          split; [by exists a | done].
        - intros [(a & -> & Ha) Hne]. exists a. split; [done |].
          by apply list_elem_of_filter. }
      rewrite Hn1. case_bool_decide as Hv.
      * rewrite list_elem_of_singleton. split.
        -- intros [E | (? & ? & ?)]; [injection E as ->; auto | auto].
        -- intros [[->|Hr] Hl]; [by left |].
           destruct (decide (n = v)) as [->|Hne]; [by left | right; auto].
      * split.
        -- intros [E | (? & ? & ?)]; [by apply elem_of_nil in E | auto].
        -- intros [[->|Hr] Hl]; [done |].
           right. split; [done |]. split; [done |]. by intros ->.
    + apply Forall_app. split; [| done].
      case_bool_decide; [by apply Forall_cons | done].
Qed.

(* --------------------------------------------------------------------- *)
(** *** Restoring what was never stored *)
(* --------------------------------------------------------------------- *)

Section NoRecord.
Context `{Host}.

Lemma Restore_no_record (Actor : AActor)
    (LevelData : FSpudLevelData) (RuntimeObjects : option RuntimeObjectMap) :
  ActorHasAnyFlags Actor RF_Skipped = false ->
  StoredActorData Actor LevelData = None ->
  RestoreActor Actor LevelData RuntimeObjects
  = (Actor,
     if ShouldActorBeRespawnedOnRestore Actor &&
        negb (GuidIsValid (GetGuidProperty Actor))
     then MissingGuidLog Actor else []).
Proof.
  intros Hf Hd. unfold RestoreActor, StoredActorData in *. rewrite Hf.
  destruct (ShouldActorBeRespawnedOnRestore Actor); simpl in *.
  - unfold GetSpawnedActorData in *.
    destruct (GuidIsValid (GetGuidProperty Actor)); simpl in *; [| done].
    destruct (SpawnedActors LevelData !! GetGuidProperty Actor) eqn:El;
      simpl in *; [| done].
    by rewrite Hd.
  - by rewrite Hd.
Qed.

(** X10.  [RestoreActor] on an actor for which the level data holds no
    record leaves the actor as it is (its load hooks are not run, no
    GUID is given to it).  Nothing is logged, except for a runtime
    actor whose GUID is missing or blank, which is reported. *)
Theorem RestoreActor_without_record (Actor : AActor)
    (LevelData : FSpudLevelData) (RuntimeObjects : option RuntimeObjectMap) :
  ActorHasAnyFlags Actor RF_Skipped = false ->
  StoredActorData Actor LevelData = None ->
  RestoreActor Actor LevelData RuntimeObjects
  = (Actor,
     if ShouldActorBeRespawnedOnRestore Actor &&
        negb (GuidIsValid (GetGuidProperty Actor))
     then MissingGuidLog Actor else []).
Proof. exact (Restore_no_record Actor LevelData RuntimeObjects). Qed.

Lemma RestoreLevelActors_no_records (Acts : list AActor)
    (LevelData : FSpudLevelData) :
  LevelActors LevelData = ∅ -> SpawnedActors LevelData = ∅ ->
  ∀ T, fst (fst (RestoreLevelActors Acts LevelData T)) = Acts /\
       Forall (λ e, IsDestroyCall e = false) (snd (RestoreLevelActors Acts LevelData T)).
Proof.
  intros El Es. induction Acts as [|a r IH]; intros T; simpl; [done |].
  assert (Hn : StoredActorData a LevelData = None).
  { unfold StoredActorData, GetSpawnedActorData, GetLevelActorData.
    rewrite El, Es.
    destruct (ShouldActorBeRespawnedOnRestore a); simpl.
    - destruct (GuidIsValid (GetGuidProperty a)); simpl; [| done].
      by rewrite lookup_empty.
    - by rewrite lookup_empty. }
  unfold mbind, Logged_bind.
  destruct (IsPersistentObject a); simpl.
  - destruct (ActorHasAnyFlags a RF_Skipped) eqn:Hf.
    + unfold RestoreActor. rewrite Hf. simpl.
      destruct (IH (if GuidIsValid (GetGuidProperty a)
                    then <[GetGuidProperty a := ActorName a]> T else T))
        as [I1 I2].
      destruct (RestoreLevelActors r LevelData _) as [[r' T'] t]. simpl in *.
      split; [by rewrite I1 |]. rewrite app_nil_r. by apply Forall_cons.
    + rewrite (Restore_no_record a LevelData (Some T) Hf Hn). simpl.
      destruct (IH (if GuidIsValid (GetGuidProperty a)
                    then <[GetGuidProperty a := ActorName a]> T else T))
        as [I1 I2].
      destruct (RestoreLevelActors r LevelData _) as [[r' T'] t]. simpl in *.
      split; [by rewrite I1 |]. rewrite !app_nil_r.
      apply Forall_cons. split; [done |]. apply Forall_app. split; [| done].
      by destruct (_ && _); repeat constructor.
  - destruct (IH T) as [I1 I2].
    destruct (RestoreLevelActors r LevelData T) as [[r' T'] t]. simpl in *.
    split; [by rewrite I1 |]. by rewrite app_nil_r.
Qed.

(** X16.  An actor recorded as destroyed through
    [UpdateLevelActorDestroyed(Actor)] in a level that has no data yet
    gets the level its data; restoring the level then removes the
    actor, and nothing else, from it. *)
Theorem Destroyed_actor_is_removed_on_restore (SaveData : FSpudSaveData)
    (Level : ULevel) (Actor : AActor) :
  bLevelValid Level = true ->
  GetLevelNameForObject (OuterMostName Actor) = GetLevelName Level ->
  LevelDataMap SaveData !! GetLevelName Level = None ->
  NoDup (ActorNames Level) ->
  let SaveData' := UpdateLevelActorDestroyed_Actor SaveData Actor in
  let r := RestoreLevel SaveData' Level in
  LevelDataMap SaveData' !! GetLevelName Level
  = Some (MkLevelData (GetLevelName Level) EmptyMetadata ∅ ∅ [ActorName Actor]) /\
  fst r = SetActors Level
            (filter (λ a, ActorName a ≠ ActorName Actor) (Actors Level)) /\
  (CallDestroyActor (ActorName Actor) ∈ snd r
   <-> ActorName Actor ∈ ActorNames Level).
Proof.
  intros Hv Hn Hnone Hnd SaveData' r.
  set (LD := MkLevelData (GetLevelName Level) EmptyMetadata ∅ ∅
               [ActorName Actor]).
  assert (ES : LevelDataMap SaveData' !! GetLevelName Level = Some LD).
  { unfold SaveData', UpdateLevelActorDestroyed_Actor, GetLevelData,
      PutLevelData. rewrite Hn, Hnone. simpl.
    by rewrite lookup_insert_eq. }
  split; [exact ES |].
  assert (Er : r = RestoreLevelFrom [] LD Level).
  { unfold r, RestoreLevel, GetLevelData. rewrite Hv, ES. simpl.
    unfold LD. simpl. by rewrite map_to_list_empty. }
  rewrite Er. unfold RestoreLevelFrom. simpl.
  destruct (RestoreLevelActors_no_records (Actors Level) LD eq_refl eq_refl ∅)
    as [I1 I2].
  destruct (RestoreLevelActors (Actors Level) LD ∅) as [[acts T] t].
  simpl in I1, I2. subst acts. unfold mbind, Logged_bind. simpl.
  assert (EL : SetActors Level (Actors Level) = Level) by by destruct Level.
  rewrite EL. rewrite (DestroyActor_filter _ _ Hnd). simpl.
  rewrite !app_nil_r. split; [done |].
  rewrite elem_of_app. case_bool_decide as Hin.
  - split; [done |]. intros _. right. apply list_elem_of_here.
  - split; [| done]. intros [Hc | Hc]; [| by apply elem_of_nil in Hc].
    apply (proj1 (Forall_forall _ _) I2) in Hc. done.
Qed.

End NoRecord.

(* --------------------------------------------------------------------- *)
(** *** Saving a level and a world *)
(* --------------------------------------------------------------------- *)

Section Worlds.
Context `{Host} `{DataHost}.

Lemma UpdateFromLevelActors_frame (Acts : list AActor) :
  ∀ LD : FSpudLevelData,
    let LD' := snd (fst (UpdateFromLevelActors Acts LD)) in
    DestroyedActors LD' = DestroyedActors LD /\
    LevelDataName LD' = LevelDataName LD /\
    (∀ n, n ∉ (ActorName <$> Acts) ->
          LevelActors LD' !! n = LevelActors LD !! n).
Proof.
  induction Acts as [|a r IH]; intros LD; simpl; [done |].
  unfold mbind, Logged_bind.
  destruct (IsPersistentObject a).
  - destruct (Snapshot_frame a LD) as (F1 & F2 & F3 & _).
    destruct (UpdateFromActor a LD) as [[a1 LD1] t1]. simpl in F1, F2, F3.
    destruct (IH LD1) as (I1 & I2 & I3).
    destruct (UpdateFromLevelActors r LD1) as [[r' LD2] t2].
    simpl in *. rewrite I1, I2. repeat split; try done.
    intros n Hn. apply not_elem_of_cons in Hn as [Hna Hnr].
    rewrite I3 by done. by apply F3.
  - simpl. destruct (IH LD) as (I1 & I2 & I3).
    destruct (UpdateFromLevelActors r LD) as [[r' LD2] t2].
    simpl in *. repeat split; try done.
    intros n Hn. apply not_elem_of_cons in Hn as [Hna Hnr]. by apply I3.
Qed.

Lemma UpdateFromLevelActors_records (Acts : list AActor) (a : AActor) :
  NoDup (ActorName <$> Acts) -> a ∈ Acts ->
  ∀ LD : FSpudLevelData,
    let LD' := snd (fst (UpdateFromLevelActors Acts LD)) in
    (IsPersistentObject a = true ->
     ActorHasAnyFlags a RF_Skipped = false ->
     ShouldActorBeRespawnedOnRestore a = false ->
     ∃ (Offsets : list N) (Custom : list byte),
       ReadObjectData LD' (LevelActorRef (ActorName a))
       = Some (MkObjectData (WriteCoreActorData (SnapshotSubject a) [])
                 (MkPropertyData Offsets
                    (EncodeLeaves
                       (LeavesOf [] (ActorProperties (SnapshotSubject a)))))
                 Custom)) /\
    (IsPersistentObject a = false ->
     LevelActors LD' !! ActorName a = LevelActors LD !! ActorName a).
Proof.
  induction Acts as [|b r IH]; intros Hnd Hin LD;
    [by apply elem_of_nil in Hin |].
  rewrite fmap_cons in Hnd. apply NoDup_cons in Hnd as [Hb Hnd].
  simpl. unfold mbind, Logged_bind.
  apply elem_of_cons in Hin as [-> | Hin].
  - (* the actor is the first one: the rest do not touch its record *)
    destruct (IsPersistentObject b) eqn:Ep.
    + assert (St := Snapshot_record b LD).
      destruct (UpdateFromActor b LD) as [[b1 LD1] t1]. simpl in St.
      destruct (UpdateFromLevelActors_frame r LD1) as (_ & _ & F).
      destruct (UpdateFromLevelActors r LD1) as [[r' LD2] t2]. simpl in *.
      split; [| done]. intros _ Hf Hr.
      destruct (St Hf ltac:(by rewrite Hr)) as (O & C & Hrec & _).
      exists O, C. unfold SnapshotRef in Hrec. rewrite Hr in Hrec.
      simpl in *. by rewrite (F _ Hb).
    + simpl.
      destruct (UpdateFromLevelActors_frame r LD) as (_ & _ & F).
      destruct (UpdateFromLevelActors r LD) as [[r' LD2] t2]. simpl in *.
      split; [done |]. intros _. by apply F.
  - (* the actor comes later: the first one does not touch its record *)
    assert (Hne : ActorName a ≠ ActorName b).
    { intros Heq. apply Hb. rewrite <- Heq. apply list_elem_of_fmap.
      by exists a. }
    destruct (IsPersistentObject b) eqn:Ep.
    + destruct (Snapshot_frame b LD) as (_ & _ & F3 & _).
      destruct (UpdateFromActor b LD) as [[b1 LD1] t1]. simpl in F3.
      destruct (IH Hnd Hin LD1) as [I1 I2].
      destruct (UpdateFromLevelActors r LD1) as [[r' LD2] t2]. simpl in *.
      split; [done |]. intros Hp. rewrite (I2 Hp). by apply F3.
    + simpl. destruct (IH Hnd Hin LD) as [I1 I2].
      destruct (UpdateFromLevelActors r LD) as [[r' LD2] t2]. by simpl in *.
Qed.

(** X17.  [UpdateFromLevel] files the level under its name and touches
    no other level.  In a level whose actors have distinct names, every
    persistent actor that is saved as level actor has its record, with
    its core data and the raw values of its leaves; an actor that is not
    persistent gets none. *)
Theorem UpdateFromLevel_records (SaveData : FSpudSaveData) (Level : ULevel) :
  NoDup (ActorNames Level) ->
  let Before :=
    PreUpdateFromWorld
      (default (SetLevelDataName EmptyLevelData (GetLevelName Level))
               (LevelDataMap SaveData !! GetLevelName Level)) in
  let SaveData' := snd (fst (UpdateFromLevel SaveData Level)) in
  ∃ After,
    LevelDataMap SaveData' !! GetLevelName Level = Some After /\
    DestroyedActors After = DestroyedActors Before /\
    (∀ n, n ≠ GetLevelName Level ->
          LevelDataMap SaveData' !! n = LevelDataMap SaveData !! n) /\
    (∀ a, a ∈ Actors Level ->
       IsPersistentObject a = true ->
       ActorHasAnyFlags a RF_Skipped = false ->
       ShouldActorBeRespawnedOnRestore a = false ->
       ∃ (Offsets : list N) (Custom : list byte),
         ReadObjectData After (LevelActorRef (ActorName a))
         = Some (MkObjectData (WriteCoreActorData (SnapshotSubject a) [])
                   (MkPropertyData Offsets
                      (EncodeLeaves
                         (LeavesOf [] (ActorProperties (SnapshotSubject a)))))
                   Custom)) /\
    (∀ a, a ∈ Actors Level -> IsPersistentObject a = false ->
       LevelActors After !! ActorName a = LevelActors Before !! ActorName a).
Proof.
  intros Hnd Before SaveData'.
  set (n := GetLevelName Level) in *.
  assert (E : UpdateFromLevel SaveData Level
              = (let '((acts, ld), lg) :=
                   UpdateFromLevelActors (Actors Level) Before in
                 ((SetActors Level acts,
                   MkSaveData (<[n := ld]> (LevelDataMap SaveData))), lg))).
  { unfold UpdateFromLevel, GetLevelData, PutLevelData. fold n. subst Before.
    destruct (LevelDataMap SaveData !! n) as [ld|] eqn:El; simpl.
    - destruct (UpdateFromLevelActors _ _) as [[a ld'] lg]. simpl.
      by rewrite app_nil_r.
    - destruct (UpdateFromLevelActors _ _) as [[a ld'] lg]. simpl.
      by rewrite app_nil_r, insert_insert_eq. }
  subst SaveData'. rewrite E.
  destruct (UpdateFromLevelActors_frame (Actors Level) Before) as (F1 & _).
  assert (R := λ a Hin, UpdateFromLevelActors_records (Actors Level) a Hnd Hin
                          Before).
  destruct (UpdateFromLevelActors (Actors Level) Before) as [[acts ld] lg].
  simpl in *. exists ld. split; [by rewrite lookup_insert_eq |].
  split; [done |].
  split; [intros m Hm; by rewrite lookup_insert_ne |].
  split.
  - intros a Hin. by apply (R a Hin).
  - intros a Hin. by apply (R a Hin).
Qed.

End Worlds.

Section WorldScope.
Context `{Host} `{DataHost}.

Lemma UpdateFromLevel_frame (SaveData : FSpudSaveData) (Level : ULevel) :
  let SaveData' := snd (fst (UpdateFromLevel SaveData Level)) in
  is_Some (LevelDataMap SaveData' !! GetLevelName Level) /\
  (∀ n, n ≠ GetLevelName Level ->
        LevelDataMap SaveData' !! n = LevelDataMap SaveData !! n).
Proof.
  unfold UpdateFromLevel, GetLevelData, PutLevelData.
  destruct (LevelDataMap SaveData !! GetLevelName Level) as [ld|] eqn:El;
    simpl; destruct (UpdateFromLevelActors _ _) as [[a ld'] lg]; simpl.
  - rewrite lookup_insert_eq. split; [by eexists |].
    intros n Hn. by rewrite lookup_insert_ne.
  - rewrite lookup_insert_eq. split; [by eexists |].
    intros n Hn. by rewrite !lookup_insert_ne.
Qed.

Lemma UpdateFromLevels_scope (Levels : list ULevel) (bSingleLevel : bool)
    (OnlyLevel : string) :
  ∀ SaveData : FSpudSaveData,
    let SaveData' :=
      snd (fst (UpdateFromLevels Levels bSingleLevel OnlyLevel SaveData)) in
    (∀ n, is_Some (LevelDataMap SaveData !! n) ->
          is_Some (LevelDataMap SaveData' !! n)) /\
    (∀ L, L ∈ Levels -> LevelIsSaved bSingleLevel OnlyLevel L = true ->
          is_Some (LevelDataMap SaveData' !! GetLevelName L)) /\
    (∀ n, (∀ L, L ∈ Levels -> LevelIsSaved bSingleLevel OnlyLevel L = true ->
                GetLevelName L ≠ n) ->
          LevelDataMap SaveData' !! n = LevelDataMap SaveData !! n).
Proof.
  induction Levels as [|L r IH]; intros S; simpl.
  - split; [done |]. split; [| done]. intros L HL. by apply elem_of_nil in HL.
  - unfold mbind, Logged_bind. fold (LevelIsSaved bSingleLevel OnlyLevel L).
    destruct (LevelIsSaved bSingleLevel OnlyLevel L) eqn:Es.
    + destruct (UpdateFromLevel_frame S L) as [F1 F2].
      destruct (UpdateFromLevel S L) as [[L1 S1] t1]. simpl in F1, F2.
      destruct (IH S1) as (I1 & I2 & I3).
      destruct (UpdateFromLevels r bSingleLevel OnlyLevel S1)
        as [[r' S2] t2]. simpl in *.
      split; [| split].
      * intros n Hn. apply I1.
        destruct (decide (n = GetLevelName L)) as [->|Hne]; [done |].
        by rewrite F2.
      * intros L' HL' Hs'. apply elem_of_cons in HL' as [->|HL'].
        -- by apply I1.
        -- by apply I2.
      * intros n Hn. rewrite I3.
        -- apply F2. intros ->.
           by apply (Hn L (list_elem_of_here _ _) Es).
        -- intros L' HL'. apply Hn. by apply list_elem_of_further.
    + simpl. destruct (IH S) as (I1 & I2 & I3).
      destruct (UpdateFromLevels r bSingleLevel OnlyLevel S)
        as [[r' S2] t2]. simpl in *.
      split; [done |]. split.
      * intros L' HL' Hs'. apply elem_of_cons in HL' as [->|HL'].
        -- congruence.
        -- by apply I2.
      * intros n Hn. apply I3. intros L' HL'. apply Hn.
        by apply list_elem_of_further.
Qed.

(** X18.  [UpdateFromWorldImpl] records the name of the world as current
    level, also when a single level is saved, and changes nothing
    else in the global section.  Every level it saves (all of them, or
    those whose name is the one asked for, ignoring case) has data
    afterwards, no level data is lost, and the data of a level that is
    not saved stays as it was. *)
Theorem UpdateFromWorldImpl_scope (World : UWorld) (bSingleLevel : bool)
    (OnlyLevel : string) (SaveData : FSpudSaveData) (G : FSpudGlobalData) :
  let r := fst (UpdateFromWorldImpl World bSingleLevel OnlyLevel SaveData G) in
  let SaveData' := snd (fst r) in
  snd r = MkGlobalData (WorldName World) (GlobalMetadata G) (Objects G) /\
  WorldName (fst (fst r)) = WorldName World /\
  (∀ n, is_Some (LevelDataMap SaveData !! n) ->
        is_Some (LevelDataMap SaveData' !! n)) /\
  (∀ L, L ∈ WorldLevels World ->
        LevelIsSaved bSingleLevel OnlyLevel L = true ->
        is_Some (LevelDataMap SaveData' !! GetLevelName L)) /\
  (∀ n, (∀ L, L ∈ WorldLevels World ->
              LevelIsSaved bSingleLevel OnlyLevel L = true ->
              GetLevelName L ≠ n) ->
        LevelDataMap SaveData' !! n = LevelDataMap SaveData !! n).
Proof.
  unfold UpdateFromWorldImpl, mbind, Logged_bind.
  destruct (UpdateFromLevels_scope (WorldLevels World) bSingleLevel OnlyLevel
              SaveData) as (I1 & I2 & I3).
  destruct (UpdateFromLevels _ _ _ _) as [[ls S'] t]. by simpl in *.
Qed.

Lemma RestoreLevels_scope (Levels : list ULevel) (bSingleLevel : bool)
    (OnlyLevel : string) (SaveData : FSpudSaveData) :
  RestoreLevels Levels bSingleLevel OnlyLevel SaveData
  = ((λ L, if LevelIsRestored bSingleLevel OnlyLevel L
           then fst (RestoreLevel SaveData L) else L) <$> Levels,
     List.flat_map (λ L, if LevelIsRestored bSingleLevel OnlyLevel L
                         then snd (RestoreLevel SaveData L) else []) Levels).
Proof.
  induction Levels as [|L r IH]; [done |].
  simpl. rewrite IH. unfold mbind, Logged_bind, LevelIsRestored.
  destruct (bLevelValid L); simpl.
  - destruct bSingleLevel; simpl.
    + destruct (FString_eqb (GetLevelName L) OnlyLevel); simpl.
      * destruct (RestoreLevel SaveData L). simpl. by rewrite app_nil_r.
      * by rewrite ?app_nil_r.
    + destruct (RestoreLevel SaveData L). simpl. by rewrite app_nil_r.
  - by rewrite ?app_nil_r.
Qed.

(** X19.  [RestoreLoadedWorld] restores, each as [RestoreLevel] does, the
    valid levels of the world (all of them, or those whose name is the
    one asked for, ignoring case) and returns the others as they are.
    When no level qualifies, so for [RestoreLevel(World, LevelName)]
    with a name no loaded level has, nothing changes and nothing is
    logged. *)
Theorem RestoreLoadedWorld_scope (World : UWorld) (bSingleLevel : bool)
    (OnlyLevel : string) (SaveData : FSpudSaveData) :
  let r := RestoreLoadedWorld World bSingleLevel OnlyLevel SaveData in
  WorldName (fst r) = WorldName World /\
  (∀ i L, WorldLevels World !! i = Some L ->
     WorldLevels (fst r) !! i
     = Some (if LevelIsRestored bSingleLevel OnlyLevel L
             then fst (RestoreLevel SaveData L) else L)) /\
  (∀ e, e ∈ snd r <->
     ∃ L, L ∈ WorldLevels World /\
          LevelIsRestored bSingleLevel OnlyLevel L = true /\
          e ∈ snd (RestoreLevel SaveData L)) /\
  ((∀ L, L ∈ WorldLevels World ->
         LevelIsRestored bSingleLevel OnlyLevel L = false) ->
   r = (World, [])).
Proof.
  unfold RestoreLoadedWorld, mbind, Logged_bind.
  rewrite RestoreLevels_scope. simpl. rewrite app_nil_r.
  split; [done |]. split; [| split].
  - intros i L Hi. by rewrite list_lookup_fmap, Hi.
  - intros e. rewrite list_elem_of_In, in_flat_map. split.
    + intros (L & HL & He). exists L. rewrite list_elem_of_In.
      split; [done |].
      destruct (LevelIsRestored bSingleLevel OnlyLevel L); [| done].
      split; [done |]. by apply list_elem_of_In.
    + intros (L & HL & Hs & He). exists L. rewrite <- list_elem_of_In.
      split; [done |]. rewrite Hs. by apply list_elem_of_In.
  - intros Hno. destruct World as [wn ls]. simpl in *. f_equal.
    + f_equal. induction ls as [|L r IH]; [done |].
      simpl. rewrite (Hno L (list_elem_of_here _ _)). f_equal.
      apply IH. intros L' HL'. apply Hno. by apply list_elem_of_further.
    + induction ls as [|L r IH]; [done |].
      simpl. rewrite (Hno L (list_elem_of_here _ _)). simpl.
      apply IH. intros L' HL'. apply Hno. by apply list_elem_of_further.
Qed.

End WorldScope.

(* --------------------------------------------------------------------- *)
(** *** Global objects *)
(* --------------------------------------------------------------------- *)

Section Globals.
Context `{Host} `{DataHost}.

(** X20.  Round trip of a global object.  Assume the persisted leaves
    of the class have distinct addresses, the global data has no stale
    definition of the class, and the walk of the properties visits no
    custom struct after its last leaf.  Then
    [UpdateFromGlobalObject(Obj, ID)] followed by
    [RestoreGlobalObject(Obj2, ID)] on an object of the same class and
    layout gives [Obj2] the persisted property values of [Obj], leaf
    for leaf, hands the custom data of the save hook to the load hook,
    and logs nothing but log lines.  No core data is involved: hidden
    flag, transform and root component of [Obj2] stay as they are.
    The update leaves the records of the other IDs and the current
    level alone. *)
Theorem GlobalObject_round_trip (Obj Obj2 : AActor) (ID : string)
    (G : FSpudGlobalData) :
  let Ow := if bSpudObjectCallback Obj then SpudPreSaveState Obj else Obj in
  let G' := snd (fst (UpdateFromGlobalObject_ID Obj ID G)) in
  let O2p := PreRestoreObject Obj2 in
  ClassPathName O2p = ClassPathName Obj ->
  SameLayout (ActorProperties Ow) (ActorProperties O2p) ->
  DistinctAddresses (ActorProperties Ow) ->
  StoredDefCompatible (GlobalMetadata G) (ClassPathName Obj)
    (ActorProperties Ow) ->
  NoStructAfterLastLeaf (ActorProperties Ow) ->
  ∃ (Props : list FProperty) (Custom : list byte),
    fst (RestoreGlobalObject_ID Obj2 ID G')
    = PostRestoreObject (SetActorProperties O2p Props) Custom /\
    LeavesOf [] Props = LeavesOf [] (ActorProperties Ow) /\
    (bSpudObjectCallback Obj = true ->
     Custom = snd (SpudFinaliseSaveState Ow)) /\
    OnlyLogLines (snd (RestoreGlobalObject_ID Obj2 ID G')) /\
    (∀ n, n ≠ ID -> Objects G' !! n = Objects G !! n) /\
    CurrentLevel G' = CurrentLevel G.
Proof.
  intros Ow G' O2p Hclass Hlayout Hdistinct Hcompat Hend.
  (* the record *)
  set (d0 := default EmptyObjectData (NamedData <$> Objects G !! ID)).
  set (n0 := default ID (NamedName <$> Objects G !! ID)).
  set (G1 := (GetGlobalObjectData_ID G ID true).2).
  assert (E1 : GetGlobalObjectData_ID G ID true = (Some ID, G1)).
  { unfold G1, GetGlobalObjectData_ID. by destruct (Objects G !! ID). }
  assert (E2 : Objects G1 !! ID = Some (MkNamedObjectData n0 d0)).
  { unfold G1, GetGlobalObjectData_ID, n0, d0.
    destruct (Objects G !! ID) as [[nm d]|] eqn:El; simpl.
    - by rewrite El.
    - by rewrite lookup_insert_eq. }
  assert (E3 : GlobalMetadata G1 = GlobalMetadata G /\
               CurrentLevel G1 = CurrentLevel G /\
               ∀ n, n ≠ ID -> Objects G1 !! n = Objects G !! n).
  { unfold G1, GetGlobalObjectData_ID.
    destruct (Objects G !! ID); simpl; repeat split; try done.
    intros n Hn. by rewrite lookup_insert_ne. }
  destruct E3 as (E3 & E4 & E5).
  (* the class definition the snapshot starts from *)
  destruct (FindOrAddClassDef (GlobalMetadata G) (GetClassName Obj))
    as [idx Meta1] eqn:EF.
  assert (Hspec := FindOrAddClassDef_spec (GlobalMetadata G) (GetClassName Obj)).
  rewrite EF in Hspec. simpl in Hspec.
  destruct Hspec as (Hidx & Hnames & Hprefixes & cd0 & Hcd0 & Hname0 & Hold).
  set (V0 := MkUpdateVisitor cd0 (PropertyOffsets (Properties d0)) Meta1 [] []).
  destruct (WriteWalk (ActorName Ow) (ActorProperties Ow) V0) as (V' & EV & W).
  set (MetaF := SetClassDef (UF_Meta V') idx (UF_ClassDef V')).
  set (Custom := if bSpudObjectCallback Obj
                 then snd (SpudFinaliseSaveState Ow) else CustomData d0).
  set (Rec' := MkNamedObjectData n0
                 (MkObjectData (CoreData d0)
                    (MkPropertyData (UF_PropertyOffsets V') (UF_Out V'))
                    Custom)).
  assert (EG : G' = MkGlobalData (CurrentLevel G) MetaF
                      (<[ID := Rec']> (Objects G1))).
  { unfold G', UpdateFromGlobalObject_ID. rewrite E1.
    unfold UpdateFromGlobalObject_Data. simpl. rewrite E2. simpl.
    rewrite E3, EF. unfold mbind, Logged_bind. simpl.
    fold Ow. rewrite Hcd0. simpl. fold V0. rewrite EV.
    unfold Rec', Custom, MetaF. rewrite E4.
    destruct (bSpudObjectCallback Obj); [| done].
    by destruct (SpudFinaliseSaveState Ow). }
  destruct W as (Mext & Hout & Hcname & defs & Hdefs & Hprops).
  simpl in Mext, Hout, Hcname, Hprops.
  destruct Mext as (Mn & Mp & Mc).
  assert (Hfinal : ClassProperties (UF_ClassDef V') = defs).
  { rewrite Hprops.
    apply (Snapshot_class_properties (UF_Meta V')
             (LeavesOf [] (ActorProperties Ow))); [done | done |].
    destruct Hold as [Hold | Hold]; [| by left].
    destruct (Hcompat cd0 Hold) as [Hempty | Hdesc]; [by left | right].
    unfold Describes in Hdesc.
    apply (LeafDefs_extends Meta1); [by repeat split |].
    by rewrite (LeafDefs_tables (GlobalMetadata G) Meta1). }
  assert (HclassF : GetClassDef MetaF (ClassPathName Obj)
                    = Some (UF_ClassDef V')).
  { apply GetClassDef_SetClassDef.
    - unfold FindClassDefIndex in *. by rewrite Mc.
    - by rewrite Hcname. }
  (* the restore *)
  destruct (RestoreObjectProperties_written O2p (ActorProperties Ow)
              (UF_PropertyOffsets V') MetaF (UF_ClassDef V') None)
    as (Props & Erest & Hleaves & Hlog).
  { unfold GetClassName. by rewrite Hclass. }
  { by rewrite Hfinal. }
  { done. }
  { done. }
  exists Props, Custom.
  split; [| split; [done | split; [by unfold Custom; intros -> |
                                   split; [| split]]]].
  - unfold RestoreGlobalObject_ID, GetGlobalObjectData_ID,
      RestoreGlobalObject_Data.
    rewrite EG. simpl. rewrite lookup_insert_eq. simpl.
    rewrite lookup_insert_eq. simpl. fold O2p.
    unfold mbind, Logged_bind. rewrite Hout. simpl.
    destruct (RestoreObjectProperties O2p _ MetaF None) as [a l] eqn:Ea.
    simpl in *. by rewrite Erest.
  - unfold RestoreGlobalObject_ID, GetGlobalObjectData_ID,
      RestoreGlobalObject_Data.
    rewrite EG. simpl. rewrite lookup_insert_eq. simpl.
    rewrite lookup_insert_eq. simpl. fold O2p.
    unfold mbind, Logged_bind. rewrite Hout. simpl.
    destruct (RestoreObjectProperties O2p _ MetaF None) as [a l] eqn:Ea.
    simpl in *. unfold OnlyLogLines in *. rewrite app_nil_r.
    by constructor.
  - intros n Hn. rewrite EG. simpl. rewrite lookup_insert_ne by done.
    by apply E5.
  - by rewrite EG.
Qed.

End Globals.

(* --------------------------------------------------------------------- *)
(** *** The registry never renumbers *)
(* --------------------------------------------------------------------- *)

Lemma MetaGrows_refl (m : FSpudClassMetadata) : MetaGrows m m.
Proof.
  repeat split; try (exists []; by rewrite app_nil_r).
  intros i cd Hi. exists cd. repeat split; try done.
  exists []. by rewrite app_nil_r.
Qed.

Lemma MetaGrows_trans (m1 m2 m3 : FSpudClassMetadata) :
  MetaGrows m1 m2 -> MetaGrows m2 m3 -> MetaGrows m1 m3.
Proof.
  intros ([n1 N1] & [p1 P1] & [c1 C1] & D1) ([n2 N2] & [p2 P2] & [c2 C2] & D2).
  split; [exists (n1 ++ n2); by rewrite N2, N1, app_assoc |].
  split; [exists (p1 ++ p2); by rewrite P2, P1, app_assoc |].
  split; [exists (c1 ++ c2); by rewrite C2, C1, app_assoc |].
  intros i cd Hi. destruct (D1 i cd Hi) as (cd' & Hi' & Hn' & ds' & Hp').
  destruct (D2 i cd' Hi') as (cd'' & Hi'' & Hn'' & ds'' & Hp'').
  exists cd''. split; [done |]. split; [congruence |].
  exists (ds' ++ ds''). by rewrite Hp'', Hp', app_assoc.
Qed.

Lemma AddDef_extends (l : list FSpudPropertyDef) (d : FSpudPropertyDef) :
  ∃ k, AddDef l d = l ++ k.
Proof.
  unfold AddDef. destruct (IndexOf _ _); [exists [] | exists [d]];
    by rewrite ?app_nil_r.
Qed.

Lemma AddDefs_extends (ds l : list FSpudPropertyDef) :
  ∃ k, AddDefs l ds = l ++ k.
Proof.
  revert l. induction ds as [|d ds IH]; intros l; simpl.
  - exists []. by rewrite app_nil_r.
  - destruct (AddDef_extends l d) as [k1 E1].
    destruct (IH (AddDef l d)) as [k2 E2].
    exists (k1 ++ k2). unfold AddDefs in *. simpl.
    by rewrite E2, E1, app_assoc.
Qed.

Lemma FindOrAddClassDef_grows (m : FSpudClassMetadata) (C : string) :
  MetaGrows m (snd (FindOrAddClassDef m C)).
Proof.
  unfold FindOrAddClassDef.
  destruct (FindClassDefIndex m C); simpl; [apply MetaGrows_refl |].
  split; [exists []; by rewrite app_nil_r |].
  split; [exists []; by rewrite app_nil_r |].
  split; [exists [C]; simpl; by rewrite ?fmap_app |].
  intros i cd Hi. exists cd. split; [by apply lookup_app_l_Some |].
  split; [done |]. exists []. by rewrite app_nil_r.
Qed.

(** The registry after the snapshot visitor has walked an object and the
    class definition was put back. *)
Lemma WriteWalk_grows (Leaves : list (list string * string * PropValue))
    (Meta : FSpudClassMetadata) (idx : nat) (cd0 : FSpudClassDef)
    (Offsets : list N) (V' : UpdateFromPropertyVisitor) :
  ClassDefinitions Meta !! idx = Some cd0 ->
  WriteWalkResult Leaves (MkUpdateVisitor cd0 Offsets Meta [] []) V' ->
  MetaGrows Meta (SetClassDef (UF_Meta V') idx (UF_ClassDef V')).
Proof.
  intros Hcd ((Mn & Mp & Mc) & _ & Hname & defs & _ & Hprops).
  simpl in Mn, Mp, Mc, Hname, Hprops.
  split; [done |]. split; [done |]. split.
  - exists []. unfold SetClassDef. cbn [ClassDefinitions].
    rewrite app_nil_r, list_fmap_insert, Mc, Hname.
    apply list_insert_id. by rewrite list_lookup_fmap, Hcd.
  - intros i cd Hi. unfold SetClassDef. cbn [ClassDefinitions]. rewrite Mc.
    destruct (decide (i = idx)) as [->|Hne].
    + exists (UF_ClassDef V'). rewrite list_lookup_insert_eq
        by (by apply lookup_lt_Some in Hcd).
      assert (cd = cd0) as -> by congruence.
      split; [done |]. split; [done |]. rewrite Hprops.
      apply AddDefs_extends.
    + exists cd. rewrite list_lookup_insert_ne by done.
      split; [done |]. split; [done |]. exists []. by rewrite app_nil_r.
Qed.

Section Registry2.
Context `{Host}.

Lemma GetSpawnedActorData_metadata (E : AActor) (LD : FSpudLevelData)
    (b : bool) (idx : nat) :
  FindClassDefIndex (Metadata LD) (GetClassName E) = Some idx ->
  Metadata (snd (fst (GetSpawnedActorData E LD b))) = Metadata LD.
Proof.
  intros Hi. unfold GetSpawnedActorData, SetGuidProperty.
  destruct (negb (GuidIsValid (GetGuidProperty E)) && b); simpl.
  - destruct (SpudGuid E); simpl; [| done].
    destruct (SpawnedActors LD !! NewGuid); simpl; [done |].
    destruct b; simpl; [| done].
    unfold FindOrAddClassIDFromName, GetClassName in *. simpl.
    by rewrite (FindOrAddClassDef_found _ _ _ Hi).
  - destruct (negb (GuidIsValid (GetGuidProperty E))); simpl; [done |].
    destruct (SpawnedActors LD !! GetGuidProperty E); simpl; [done |].
    destruct b; simpl; [| done].
    unfold FindOrAddClassIDFromName, GetClassName in *. simpl.
    by rewrite (FindOrAddClassDef_found _ _ _ Hi).
Qed.

Lemma GetLevelActorData_metadata (E : AActor) (LD : FSpudLevelData) (b : bool) :
  Metadata (snd (GetLevelActorData E LD b)) = Metadata LD.
Proof.
  unfold GetLevelActorData.
  by destruct (LevelActors LD !! _); [| destruct b].
Qed.

Lemma UpdateFromActor_grows (E : AActor) (LD : FSpudLevelData) :
  MetaGrows (Metadata LD) (Metadata (snd (fst (UpdateFromActor E LD)))).
Proof.
  unfold UpdateFromActor.
  destruct (ActorHasAnyFlags E RF_Skipped); [apply MetaGrows_refl |].
  assert (G1 := FindOrAddClassDef_grows (Metadata LD) (GetClassName E)).
  assert (Hspec := FindOrAddClassDef_spec (Metadata LD) (GetClassName E)).
  destruct (FindOrAddClassDef (Metadata LD) (GetClassName E)) as [idx M1].
  simpl in G1, Hspec. destruct Hspec as (Hidx & _ & _ & cd0 & Hcd0 & _).
  assert (Hm : ∀ r a ld lg,
    (if ShouldActorBeRespawnedOnRestore E
     then GetSpawnedActorData E (SetMetadata LD M1) true
     else let '(r, ld) := GetLevelActorData E (SetMetadata LD M1) true in
          mret (r, E, ld)) = ((r, a, ld), lg) -> Metadata ld = M1).
  { intros r a ld lg Er. destruct (ShouldActorBeRespawnedOnRestore E).
    - assert (Em := GetSpawnedActorData_metadata E (SetMetadata LD M1) true
                      idx Hidx).
      by rewrite Er in Em.
    - assert (Em := GetLevelActorData_metadata E (SetMetadata LD M1) true).
      destruct (GetLevelActorData E (SetMetadata LD M1) true) as [r' ld'].
      simpl in Em. injection Er as _ _ <- _. done. }
  destruct (if ShouldActorBeRespawnedOnRestore E then _ else _)
    as [[[r a] ld] lg] eqn:Er.
  specialize (Hm r a ld lg eq_refl).
  unfold mbind, Logged_bind.
  destruct r as [Ref|]; simpl; [| by rewrite Hm].
  destruct (ReadObjectData ld Ref) as [d0|]; simpl; [| by rewrite Hm].
  rewrite Hm, Hcd0. simpl.
  set (Aw := if bSpudObjectCallback a then SpudPreSaveState a else a).
  destruct (WriteWalk (ActorName Aw) (ActorProperties Aw)
              (MkUpdateVisitor cd0 (PropertyOffsets (Properties d0)) M1 [] []))
    as (V' & EV & W).
  rewrite EV.
  assert (G2 := WriteWalk_grows _ M1 idx cd0 _ V' Hcd0 W).
  assert (Em : ∀ d, Metadata
            (WriteObjectData
               (SetMetadata ld (SetClassDef (UF_Meta V') idx (UF_ClassDef V')))
               Ref d) = SetClassDef (UF_Meta V') idx (UF_ClassDef V')).
  { intros d. by destruct Ref. }
  destruct (bSpudObjectCallback a);
    [destruct (SpudFinaliseSaveState Aw) |]; simpl; rewrite Em;
    by apply (MetaGrows_trans _ M1).
Qed.

(** X7.  A snapshot never renumbers the registry of the level.  Every
    class ID, property name and struct prefix the registry knew before
    the snapshot has the same ID after it, and every class definition
    still lists the properties it listed, at the same indices. *)
Theorem UpdateFromActor_registry (E : AActor) (LD : FSpudLevelData) :
  let M := Metadata LD in
  let M' := Metadata (snd (fst (UpdateFromActor E LD))) in
  (∀ ID C, ClassName <$> ClassDefinitions M !! ID = Some C ->
           GetClassNameFromID M' ID = C) /\
  (∀ Name ID, GetPropertyIDFromName M Name = Some ID ->
              GetPropertyIDFromName M' Name = Some ID) /\
  (∀ Path P, ResolvePrefix M Path = Some P -> ResolvePrefix M' Path = Some P) /\
  (∀ C cd, GetClassDef M C = Some cd ->
     ∃ cd', GetClassDef M' C = Some cd' /\
            ∀ i d, ClassProperties cd !! i = Some d ->
                   ClassProperties cd' !! i = Some d).
Proof.
  intros M M'.
  destruct (UpdateFromActor_grows E LD) as ([ns N] & [ps P] & [cs C] & D).
  fold M M' in N, P, C, D.
  split; [| split; [| split]].
  - intros ID Cn Hi. unfold GetClassNameFromID.
    destruct (ClassDefinitions M !! ID) as [cd|] eqn:El; [| done].
    destruct (D ID cd El) as (cd' & El' & Hn & _). rewrite El'.
    simpl in Hi. congruence.
  - intros Name ID Hi. unfold GetPropertyIDFromName in *. rewrite N.
    by apply IndexOf_app_l.
  - intros Path Pf Hp. unfold ResolvePrefix in *.
    destruct Path; [done |]. rewrite P.
    destruct (IndexOf (s :: Path) (PrefixIndex M)) as [i|] eqn:Ei; [| done].
    by rewrite (IndexOf_app_l _ _ ps _ Ei).
  - intros Cn cd Hc. unfold GetClassDef, FindClassDefIndex in *.
    destruct (IndexOf Cn (ClassName <$> ClassDefinitions M)) as [i|] eqn:Ei;
      [| done].
    simpl in Hc. destruct (D i cd Hc) as (cd' & El' & _ & ds & Hp).
    exists cd'. rewrite C, (IndexOf_app_l _ _ cs _ Ei). simpl.
    split; [done |]. intros j d Hj. rewrite Hp. by apply lookup_app_l_Some.
Qed.

End Registry2.

(* --------------------------------------------------------------------- *)
(** *** From the snapshot of a runtime actor to its respawn *)
(* --------------------------------------------------------------------- *)

Section Respawn.
Context `{Host}.

(** The spawned-actor record after it was located for writing. *)
Lemma Spawned_record_located (E : AActor) (LD : FSpudLevelData) (idx : nat) :
  SpudGuid E ≠ None ->
  FindClassDefIndex (Metadata LD) (GetClassName E) = Some idx ->
  (∀ r, SpawnedActors LD !! SnapshotGuid E = Some r ->
        Guid r = SnapshotGuid E /\
        ClassName <$> ClassDefinitions (Metadata LD) !! ClassID r
        = Some (GetClassName E)) ->
  ∃ r, SpawnedActors (snd (fst (GetSpawnedActorData E LD true)))
         !! SnapshotGuid E = Some r /\
       Guid r = SnapshotGuid E /\
       ClassName <$> ClassDefinitions (Metadata LD) !! ClassID r
       = Some (GetClassName E).
Proof.
  intros Hg Hi Hold.
  assert (Hidx : ClassName <$> ClassDefinitions (Metadata LD) !! idx
                 = Some (GetClassName E)).
  { unfold FindClassDefIndex in Hi. apply IndexOf_Some_lookup in Hi.
    by rewrite list_lookup_fmap in Hi. }
  destruct (SpudGuid E) as [g|] eqn:Eg; [| done].
  unfold GetSpawnedActorData, SnapshotGuid, GetGuidProperty, SetGuidProperty,
    FindOrAddClassIDFromName, GetClassName in *.
  rewrite Eg in *. simpl in *.
  destruct (GuidIsValid g) eqn:Hv; simpl;
    rewrite ?(FindOrAddClassDef_found _ _ _ Hi).
  - destruct (SpawnedActors LD !! g) as [r|] eqn:El; simpl.
    + exists r. rewrite El. split; [done |]. by apply Hold.
    + eexists. rewrite lookup_insert_eq. by repeat split.
  - destruct (SpawnedActors LD !! NewGuid) as [r|] eqn:El; simpl.
    + exists r. rewrite El. split; [done |]. by apply Hold.
    + eexists. rewrite lookup_insert_eq. by repeat split.
Qed.

(** X13.  A runtime actor that was saved is respawned from its own class
    and is given its own GUID.  After [UpdateFromActor], the record of
    the actor names the class of the actor and holds the GUID under
    which it is filed; [RespawnActor] on that record loads that class
    and, when the engine spawns an actor with a SpudGuid property, sets
    the property to that GUID and adds the actor to the level. *)
Theorem Snapshot_then_respawn (E : AActor) (LD : FSpudLevelData) :
  ActorHasAnyFlags E RF_Skipped = false ->
  ShouldActorBeRespawnedOnRestore E = true ->
  SpudGuid E ≠ None ->
  (∀ r, SpawnedActors LD !! SnapshotGuid E = Some r ->
        Guid r = SnapshotGuid E /\
        ClassName <$> ClassDefinitions (Metadata LD) !! ClassID r
        = Some (GetClassName E)) ->
  let LD' := snd (fst (UpdateFromActor E LD)) in
  ∃ rec,
    SpawnedActors LD' !! SnapshotGuid E = Some rec /\
    Guid rec = SnapshotGuid E /\
    GetClassNameFromID (Metadata LD') (ClassID rec) = GetClassName E /\
    ∀ (Level : ULevel) (C : string) (a : AActor),
      TryLoadClass (GetClassName E) = Some C ->
      SpawnActor C Level = Some a ->
      SpudGuid a ≠ None ->
      RespawnActor rec (Metadata LD') Level
      = ((Some (SetSpudGuid a (Some (SnapshotGuid E))),
          SetActors Level
            (Actors Level ++ [SetSpudGuid a (Some (SnapshotGuid E))])),
         [CallSpawnActor C (SnapshotGuid E) (ActorName a)]).
Proof.
  intros Hf Hr Hg Hold LD'.
  destruct (FindOrAddClassDef (Metadata LD) (GetClassName E))
    as [idx Meta1] eqn:EF.
  assert (Hspec := FindOrAddClassDef_spec (Metadata LD) (GetClassName E)).
  assert (G1 := FindOrAddClassDef_grows (Metadata LD) (GetClassName E)).
  rewrite EF in Hspec, G1. simpl in Hspec, G1.
  destruct Hspec as (Hidx & _ & _ & cd0 & Hcd0 & _).
  destruct (Snapshot_route E (SetMetadata LD Meta1) idx (λ _, Hg) Hidx)
    as (A1 & LD1 & Er & Em & Ed & EEw & Hcb & Hcn).
  destruct (UpdateFromActor_unfold E LD idx Meta1 _ A1 LD1 [] _ Hf EF Er Ed)
    as (V' & W & ELD).
  rewrite <- EEw in W, ELD.
  fold LD' in ELD. rewrite Em in W. cbn [Metadata SetMetadata] in W, Em.
  rewrite Hcd0 in W. simpl default in W.
  assert (G2 := WriteWalk_grows _ Meta1 idx cd0 _ V' Hcd0 W).
  (* the record located *)
  destruct (Spawned_record_located E (SetMetadata LD Meta1) idx Hg Hidx)
    as (r & Hrec & Hgr & Hcr).
  { intros r0 Hr0. destruct (Hold r0 Hr0) as [Hg0 Hc0]. split; [done |].
    simpl.
    destruct (ClassDefinitions (Metadata LD) !! ClassID r0) as [cd|] eqn:El;
      [| done].
    destruct G1 as (_ & _ & _ & D).
    destruct (D _ cd El) as (cd' & El' & Hn & _). rewrite El'.
    simpl in *. congruence. }
  rewrite Hr in Er. rewrite Er in Hrec. simpl in Hrec, Hcr.
  unfold SnapshotRef in ELD. rewrite Hr in ELD.
  set (MetaF := SetClassDef (UF_Meta V') idx (UF_ClassDef V')) in *.
  assert (Hclass : ∀ d, GetClassNameFromID
            (Metadata (WriteObjectData (SetMetadata LD1 MetaF)
                         (SpawnedActorRef (SnapshotGuid E)) d)) (ClassID r)
          = GetClassName E).
  { intros d. simpl. unfold GetClassNameFromID.
    destruct (ClassDefinitions Meta1 !! ClassID r) as [cd|] eqn:El; [| done].
    destruct G2 as (_ & _ & _ & D).
    destruct (D _ cd El) as (cd' & El' & Hn & _). fold MetaF in El'.
    rewrite El'. simpl in Hcr. congruence. }
  eexists. rewrite ELD. simpl. rewrite lookup_alter_eq, Hrec. simpl.
  split; [reflexivity |]. split; [done |].
  split; [exact (Hclass EmptyObjectData) |].
  intros Level C a HC Ha Hga. unfold RespawnActor.
  specialize (Hclass EmptyObjectData). simpl in Hclass. simpl.
  rewrite Hclass, HC, Ha. unfold SetGuidProperty.
  destruct (SpudGuid a); [| done]. by rewrite Hgr.
Qed.

End Respawn.

(* --------------------------------------------------------------------- *)
(** *** Saving and restoring through the entry points *)
(* --------------------------------------------------------------------- *)

Section EntryRoundTrip.
Context `{Host}.

(** X9.  The round trip through the entry points.  [UpdateFromActor(Obj)]
    files the snapshot under the level name of the actor's package and
    [RestoreActor(Actor)] looks it up under the level name of the
    package of the actor it restores, so that an actor saved in a
    play-in-editor package is restored in the packaged level of the
    same name.  Assume the two actors stand for the same entity and
    have the same class and layout, the persisted leaves of the class
    have distinct addresses, the level data has no stale definition of
    the class, and the walk of the properties visits no custom struct
    after its last leaf.  Then the second actor gets the persisted
    leaves, the hidden flag and the transform of the first, the load
    hook gets the custom data of the save hook, and the restore logs
    nothing but log lines. *)
Theorem Entry_points_round_trip (SaveData : FSpudSaveData) (E E2 : AActor) :
  let LevelName := GetLevelNameForObject (OuterMostName E) in
  let Before :=
    default (SetLevelDataName EmptyLevelData LevelName)
            (LevelDataMap SaveData !! LevelName) in
  let Ew := SnapshotSubject E in
  let E2p := PreRestoreObject E2 in
  let SaveData' := snd (fst (UpdateFromActor_Obj SaveData E)) in
  ActorHasAnyFlags E RF_Skipped = false ->
  ActorHasAnyFlags E2 RF_Skipped = false ->
  GetLevelNameForObject (OuterMostName E2) = LevelName ->
  SameEntity E E2 ->
  ClassPathName E2p = ClassPathName E ->
  SameLayout (ActorProperties Ew) (ActorProperties E2p) ->
  DistinctAddresses (ActorProperties Ew) ->
  StoredDefCompatible (Metadata Before) (ClassPathName E) (ActorProperties Ew) ->
  NoStructAfterLastLeaf (ActorProperties Ew) ->
  ∃ (Mid : AActor) (Custom : list byte),
    fst (RestoreActor_Actor SaveData' E2) = PostRestoreObject Mid Custom /\
    LeavesOf [] (ActorProperties Mid) = LeavesOf [] (ActorProperties Ew) /\
    bHidden Mid = bHidden Ew /\
    ActorTransform Mid = ActorTransform Ew /\
    (bSpudObjectCallback E = true -> Custom = snd (SpudFinaliseSaveState Ew)) /\
    OnlyLogLines (snd (RestoreActor_Actor SaveData' E2)).
Proof.
  intros LevelName Before Ew E2p SaveData' HfE HfE2 Hn Hsame Hclass Hlayout
    Hdistinct Hcompat Hend.
  destruct (Snapshot_entry_point SaveData E HfE) as (_ & _ & _ & _ & Hr).
  fold LevelName Before SaveData' in Hr. rewrite (Hr E2 HfE2 Hn).
  destruct (Snapshot_restore_general E E2 Before None HfE HfE2 Hsame Hclass
              Hlayout Hdistinct Hcompat Hend)
    as (Props & Custom & E1 & E2' & E3 & E4).
  eexists _, Custom. split; [exact E1 |].
  destruct (ApplyCoreV1_fields E2p (bHidden Ew) (ActorTransform Ew)
              (fst (WrittenVelocities Ew)) (snd (WrittenVelocities Ew)))
    as (Fh & Ft & _).
  by repeat split.
Qed.

End EntryRoundTrip.

(* --------------------------------------------------------------------- *)
(** *** Core data *)
(* --------------------------------------------------------------------- *)

Section CoreRoundTrip.
Context `{Host}.

(** X8.  What [WriteCoreActorData] writes for any actor,
    [RestoreCoreActorData] accepts and applies to any actor: the
    version is 1, nothing is logged, the hidden flag and the transform
    are those of the actor written, and a root that is movable and
    simulates physics gets the velocities written (zero when the actor
    written had no such root); nothing else of the actor changes. *)
Theorem CoreData_round_trip (A B : AActor) :
  let r := RestoreCoreActorData B (WriteCoreActorData A []) in
  StoredCoreVersion (WriteCoreActorData A []) = 1%Z /\
  snd r = [] /\
  bHidden (fst r) = bHidden A /\
  ActorTransform (fst r) = ActorTransform A /\
  RootComponent (fst r)
  = match RootComponent B with
    | Some c =>
        Some (if IsMovablePhysicsRoot c && bIsPrimitive c
              then SetPhysicsVelocities c
                     (match RootComponent A with
                      | Some ca =>
                          if IsMovablePhysicsRoot ca && bIsPrimitive ca
                          then LinearVelocity ca else ZeroVector
                      | None => ZeroVector
                      end)
                     (match RootComponent A with
                      | Some ca =>
                          if IsMovablePhysicsRoot ca && bIsPrimitive ca
                          then AngularVelocityInDegrees ca else ZeroVector
                      | None => ZeroVector
                      end)
              else c)
    | None => None
    end /\
  ActorProperties (fst r) = ActorProperties B /\
  SpudGuid (fst r) = SpudGuid B /\
  ActorName (fst r) = ActorName B /\
  ClassPathName (fst r) = ClassPathName B.
Proof.
  intros r. subst r. rewrite WriteCoreActorData_V1.
  rewrite <- (app_nil_r (CoreDataV1 _ _ _ _)).
  split; [apply StoredCoreVersion_V1 |].
  rewrite RestoreCoreActorData_V1.
  simpl fst. simpl snd. split; [done |].
  unfold ApplyCoreV1, WrittenVelocities.
  destruct (RootComponent B) as [c|] eqn:EB;
    [destruct (IsMovablePhysicsRoot c && bIsPrimitive c) |];
    (destruct (RootComponent A) as [ca|];
     [destruct (IsMovablePhysicsRoot ca && bIsPrimitive ca) |]);
    simpl; rewrite ?EB; by repeat split.
Qed.

End CoreRoundTrip.

(* --------------------------------------------------------------------- *)
(** *** The identity table and the level actors *)
(* --------------------------------------------------------------------- *)

Section LevelActorTable.
Context `{Host}.

Lemma RestoreLevelActors_app (l1 l2 : list AActor) (LD : FSpudLevelData) :
  ∀ T : RuntimeObjectMap,
    RestoreLevelActors (l1 ++ l2) LD T
    = (let '((r1, T1), t1) := RestoreLevelActors l1 LD T in
       let '((r2, T2), t2) := RestoreLevelActors l2 LD T1 in
       ((r1 ++ r2, T2), t1 ++ t2)).
Proof.
  induction l1 as [|a l1 IH]; intros T; simpl.
  - by destruct (RestoreLevelActors l2 LD T) as [[r2 T2] t2].
  - unfold mbind, Logged_bind.
    destruct (if IsPersistentObject a then _ else _) as [[a' Ta] ta].
    rewrite IH.
    destruct (RestoreLevelActors l1 LD Ta) as [[r1 T1] t1]. simpl.
    destruct (RestoreLevelActors l2 LD T1) as [[r2 T2] t2].
    simpl. by rewrite !app_nil_r, <- !app_assoc.
Qed.

(** X14.  In the second loop of [RestoreLevel] an actor of the level is
    entered in the identity table after it was restored, under the GUID
    it then has: the table given to its own restore is the table the
    actors before it left, every later restore in the loop finds the
    GUID in its table, and so does whoever uses the table after the
    loop. *)
Theorem RestoreLevelActors_registers (l1 l2 : list AActor) (a : AActor)
    (LD : FSpudLevelData) (T : RuntimeObjectMap) :
  IsPersistentObject a = true ->
  let T1 := snd (fst (RestoreLevelActors l1 LD T)) in
  let a' := fst (RestoreActor a LD (Some T1)) in
  GuidIsValid (GetGuidProperty a') = true ->
  let r := RestoreLevelActors (l1 ++ a :: l2) LD T in
  ∃ t1 ta t2,
    snd r = t1 ++ CallRestoreActor (ActorName a) (Some T1) :: ta ++ t2 /\
    t1 = snd (RestoreLevelActors l1 LD T) /\
    Forall (λ e, IsRestoreCall e = false) ta /\
    (∀ b Tb, CallRestoreActor b Tb ∈ t2 ->
       ∃ Tm, Tb = Some Tm /\ is_Some (Tm !! GetGuidProperty a')) /\
    is_Some (snd (fst r) !! GetGuidProperty a').
Proof.
  intros Hp T1 a' Hv r. subst r. rewrite RestoreLevelActors_app.
  subst T1 a'.
  destruct (RestoreLevelActors l1 LD T) as [[r1 T1] t1]. simpl in Hv.
  simpl fst; simpl snd.
  simpl RestoreLevelActors. unfold mbind, Logged_bind. rewrite Hp. simpl.
  assert (Hl := RestoreActor_logs a LD (Some T1)).
  destruct (RestoreActor a LD (Some T1)) as [a' ta]. simpl in *.
  rewrite Hv.
  destruct (RestoreLevelActors_spec l2 LD
              (<[GetGuidProperty a' := ActorName a']> T1)) as (_ & S2 & S3 & _).
  destruct (RestoreLevelActors l2 LD _) as [[r2 T2] t2]. simpl in *.
  exists t1, ta, t2. split; [by rewrite !app_nil_r |]. split; [done |].
  split.
  - eapply Forall_impl; [exact Hl |]. intros e He. by destruct e.
  - split.
    + intros b Tb Hin. destruct (S3 b Tb Hin) as (Tm & -> & Hinc).
      exists Tm. split; [done |]. apply Hinc. rewrite lookup_insert_eq.
      by eexists.
    + apply S2. rewrite lookup_insert_eq. by eexists.
Qed.

End LevelActorTable.

(* --------------------------------------------------------------------- *)
(** *** A record without a class definition; the actor after a snapshot *)
(* --------------------------------------------------------------------- *)

Section MoreEdges.
Context `{Host}.

(** X11.  When the record of an actor is found but the registry of the
    level has no definition of the class the actor has now,
    [RestoreActor] still runs the pre-load hook, applies the core data
    and runs the load hooks with the custom data; only the properties
    are left as they are, and the missing definition is reported. *)
Theorem RestoreActor_class_def_missing (Actor : AActor)
    (LevelData : FSpudLevelData) (RuntimeObjects : option RuntimeObjectMap)
    (ActorData : FSpudObjectData) :
  ActorHasAnyFlags Actor RF_Skipped = false ->
  StoredActorData Actor LevelData = Some ActorData ->
  let Core :=
    fst (RestoreCoreActorData (PreRestoreObject Actor) (CoreData ActorData)) in
  GetClassDef (Metadata LevelData) (GetClassName Core) = None ->
  fst (RestoreActor Actor LevelData RuntimeObjects)
  = PostRestoreObject Core (CustomData ActorData) /\
  UE_LOG LogError "Unable to find ClassDef for: %s %s" [GetClassName Core]
  ∈ snd (RestoreActor Actor LevelData RuntimeObjects).
Proof.
  intros Hf Hd Core Hc.
  assert (Ep : RestoreObjectProperties Core (Properties ActorData)
                 (Metadata LevelData) RuntimeObjects
               = (Core, [UE_LOG LogError "Unable to find ClassDef for: %s %s"
                           [GetClassName Core]])).
  { unfold RestoreObjectProperties. by rewrite Hc. }
  split.
  - rewrite (RestoreActor_found Actor LevelData RuntimeObjects ActorData Hf Hd).
    fold Core. by rewrite Ep.
  - unfold RestoreActor, StoredActorData in *. rewrite Hf.
    destruct (ShouldActorBeRespawnedOnRestore Actor).
    + destruct (GetSpawnedActorData_lookup Actor LevelData) as (r & l & E).
      rewrite E in *. simpl in *. rewrite Hd. simpl.
      fold Core in Ep |- *.
      destruct (RestoreCoreActorData _ _) as [a1 l1]. simpl in *.
      subst Core. rewrite Ep. simpl.
      apply elem_of_app; right. apply elem_of_cons; right.
      apply elem_of_app; right. apply list_elem_of_here.
    + simpl in *. rewrite Hd. simpl.
      destruct (RestoreCoreActorData _ _) as [a1 l1]. simpl in *.
      subst Core. rewrite Ep. simpl.
      apply elem_of_cons; right.
      apply elem_of_app; right. apply list_elem_of_here.
Qed.


End MoreEdges.

(* --------------------------------------------------------------------- *)
(** *** The slow path when properties were only added *)
(* --------------------------------------------------------------------- *)

Section SlowWalk.

Lemma PropertyLookup_from (l : list FSpudPropertyDef) :
  ∀ (k : nat) (P : PrefixID) (ID : nat),
    (foldr (λ '(i, d) (m : gmap PrefixID (gmap nat Z)),
              <[DefPrefixID d :=
                  <[PropertyID d := Z.of_nat i]>
                    (default ∅ (m !! DefPrefixID d))]> m)
           ∅ (imap (λ i d, ((k + i)%nat, d)) l) !! P) ≫= (λ inner, inner !! ID)
    = (λ i, Z.of_nat (k + i)) <$> IndexOf (P, ID) (DefAddress <$> l).
Proof.
  induction l as [|d l IH]; intros k P ID; [done |].
  rewrite imap_cons. cbn [foldr].
  rewrite (imap_ext _ (λ i d, ((S k + i)%nat, d)) l)
    by (intros i x _; simpl; f_equal; lia).
  set (m := foldr _ ∅ (imap (λ i d, ((S k + i)%nat, d)) l)).
  specialize (IH (S k) P ID). fold m in IH.
  rewrite fmap_cons. cbn [IndexOf].
  assert (Et : (λ i, Z.of_nat (k + i)) <$> (S <$> IndexOf (P, ID) (DefAddress <$> l))
               = (λ i, Z.of_nat (S k + i)) <$> IndexOf (P, ID) (DefAddress <$> l)).
  { destruct (IndexOf _ _); simpl; [f_equal; lia | done]. }
  destruct (decide (DefAddress d = (P, ID))) as [Ea|Hne].
  - unfold DefAddress in Ea. injection Ea as -> ->.
    rewrite lookup_insert_eq. simpl. rewrite lookup_insert_eq.
    by rewrite Nat.add_0_r.
  - rewrite Et, <- IH.
    destruct (decide (DefPrefixID d = P)) as [<-|HP].
    + rewrite lookup_insert_eq. simpl.
      rewrite lookup_insert_ne
        by (intros Hid; apply Hne; unfold DefAddress; by rewrite Hid).
      by destruct (m !! DefPrefixID d).
    + by rewrite lookup_insert_ne.
Qed.

(** The lookup structure of a class definition finds the first property
    stored under a prefix and a name. *)
Lemma PropertyLookup_spec (cd : FSpudClassDef) (P : PrefixID) (ID : nat) :
  (PropertyLookup cd !! P) ≫= (λ inner, inner !! ID)
  = Z.of_nat <$> IndexOf (P, ID) (DefAddress <$> ClassProperties cd).
Proof. apply (PropertyLookup_from (ClassProperties cd) 0). Qed.

Lemma WalkPrefix_snoc (Meta : FSpudClassMetadata) (Path : list string)
    (n : string) :
  WalkPrefix Meta (Path ++ [n]) = GetNestedPrefixID (WalkPrefix Meta Path) n Meta.
Proof. unfold WalkPrefix. by rewrite fold_left_app. Qed.

Lemma seq_split (a b : list nat) (c n : nat) :
  a ++ b = seq c n ->
  a = seq c (length a) /\ b = seq (c + length a) (length b) /\
  n = (length a + length b)%nat.
Proof.
  intros E.
  assert (Hn : n = (length a + length b)%nat).
  { apply (f_equal length) in E. by rewrite length_app, length_seq in E. }
  subst n. rewrite seq_app in E.
  apply app_inj_1 in E as [-> ->]; [| by rewrite length_seq].
  by rewrite !length_seq.
Qed.

Lemma EncodeValues_app (a b : list PropValue) :
  EncodeValues (a ++ b) = EncodeValues a ++ EncodeValues b.
Proof. unfold EncodeValues. apply List.flat_map_app. Qed.

Lemma EncodeValues_at (vs : list PropValue) (c : nat) (x : PropValue) :
  vs !! c = Some x ->
  drop (length (EncodeValues (take c vs))) (EncodeValues vs)
  = ValueToRaw x ++ EncodeValues (drop (S c) vs) /\
  length (EncodeValues (take (S c) vs))
  = (length (EncodeValues (take c vs)) + length (ValueToRaw x))%nat.
Proof.
  intros Hc. split.
  - rewrite <- (take_drop c vs) at 2. rewrite EncodeValues_app.
    rewrite drop_app_length.
    rewrite (drop_S _ _ _ Hc). unfold EncodeValues. simpl. done.
  - rewrite (take_S_r _ _ _ Hc), EncodeValues_app, length_app.
    unfold EncodeValues at 2. simpl. by rewrite app_nil_r.
Qed.

Context (RootObject : string) (Meta : FSpudClassMetadata)
  (cd : FSpudClassDef) (vs : list PropValue)
  (RO : option RuntimeObjectMap).
Hypothesis Hkinds : KindOf <$> vs = DataType <$> ClassProperties cd.

Lemma SlowAt_log (c : nat) (v : RestoreSlowPropertyVisitor) (l : list Event) :
  SlowAt Meta cd vs RO c v -> SlowAt Meta cd vs RO c (SlowLog v l).
Proof. by intros (? & ? & ? & ?). Qed.

Lemma SlowWalk_leaf (name : string) (x : PropValue) (Path : list string)
    (D : nat) (v : RestoreSlowPropertyVisitor) (c n : nat) :
  SlowAt Meta cd vs RO c v ->
  omap (StoredIndex Meta cd) [(Path, name, x)] = seq c n ->
  KindAsStored Meta cd (Path, name, x) ->
  ∃ v',
    VisitProperty v RootObject (LeafProperty name x) (WalkPrefix Meta Path) D
    = ((SlowOverlay Meta cd vs Path (LeafProperty name x), true), v') /\
    SlowAt Meta cd vs RO (c + n) v'.
Proof.
  intros Hat Hseq Hkind.
  assert (Hat' := Hat). destruct Hat' as (Ecd & Em & Ero & Erd).
  assert (K := λ ID, PropertyLookup_spec cd (WalkPrefix Meta Path) ID).
  assert (Hnone : StoredIndex Meta cd (Path, name, x) = None ->
    n = 0%nat /\ SlowOverlay Meta cd vs Path (LeafProperty name x)
                 = LeafProperty name x).
  { intros En. simpl in Hseq. rewrite En in Hseq.
    split; [by destruct n | simpl; by rewrite En]. }
  cbn [VisitProperty RestoreSlowPropertyVisitor_visitor IsCustomStructProperty
       PropertyName].
  rewrite Ecd, Em.
  destruct (PropertyLookup cd !! WalkPrefix Meta Path) as [inner|] eqn:EL.
  2:{ destruct Hnone as [-> ->].
      { unfold StoredIndex. simpl.
        destruct (GetPropertyIDFromName Meta name) as [ID|]; [| done].
        simpl. specialize (K ID). simpl in K.
        by destruct (IndexOf _ _). }
      eexists. split; [reflexivity |]. rewrite Nat.add_0_r.
      by apply SlowAt_log. }
  destruct (GetPropertyIDFromName Meta name) as [ID|] eqn:EI.
  2:{ destruct Hnone as [-> ->].
      { unfold StoredIndex. simpl. by rewrite EI. }
      eexists. split; [reflexivity |]. rewrite Nat.add_0_r.
      by apply SlowAt_log. }
  specialize (K ID). simpl in K.
  destruct (inner !! ID) as [z|] eqn:Ez.
  2:{ destruct Hnone as [-> ->].
      { unfold StoredIndex. simpl. rewrite EI. simpl.
        by destruct (IndexOf _ _). }
      eexists. split; [reflexivity |]. rewrite Nat.add_0_r.
      by apply SlowAt_log. }
  destruct (IndexOf (WalkPrefix Meta Path, ID)
              (DefAddress <$> ClassProperties cd)) as [i|] eqn:Ei; [| done].
  simpl in K. injection K as ->.
  assert (Es : StoredIndex Meta cd (Path, name, x) = Some i).
  { unfold StoredIndex. simpl. rewrite EI. simpl. exact Ei. }
  simpl in Hseq. rewrite Es in Hseq.
  destruct n as [|[|n]]; try discriminate Hseq.
  simpl in Hseq. injection Hseq as ->.
  specialize (Hkind c Es). simpl in Hkind.
  destruct (ClassProperties cd !! c) as [d|] eqn:Ed; [| done].
  simpl in Hkind. injection Hkind as Hkind.
  assert (Hlt : (c < length (ClassProperties cd))%nat)
    by (by apply lookup_lt_Some in Ed).
  destruct (vs !! c) as [x'|] eqn:Ex.
  2:{ apply lookup_ge_None in Ex. apply (f_equal length) in Hkinds.
      rewrite !length_fmap in Hkinds. lia. }
  assert (Hkx : KindOf x' = KindOf x).
  { assert (Hl := f_equal (λ l, l !! c) Hkinds). simpl in Hl.
    rewrite !list_lookup_fmap, Ex, Ed in Hl. simpl in Hl. congruence. }
  replace ((Z.of_nat c <? 0)%Z ||
           (Z.of_nat (length (ClassProperties cd)) <=? Z.of_nat c)%Z)
    with false by (symmetry; apply orb_false_iff; split; lia).
  rewrite Nat2Z.id, Ed.
  cbn [RestoreProperty].
  replace (PropKind_eqb (DataType d) (KindOf x)) with true
    by (symmetry; by apply PropKind_eqb_eq).
  destruct (EncodeValues_at vs c x' Ex) as [Hdrop Hlen].
  rewrite Erd, (ReadValue_at x x' _ _ _ Hkx Hdrop).
  cbn [SlowOverlay]. rewrite Es. simpl. rewrite Ex.
  eexists. split; [reflexivity |].
  split; [done |]. split; [done |]. split; [done |]. simpl.
  by rewrite Nat.add_1_r, Hlen.
Qed.

Lemma SlowWalk_list (l : list FProperty) :
  Forall (λ p, ∀ Path D v c n,
            SlowAt Meta cd vs RO c v ->
            omap (StoredIndex Meta cd) (LeavesOfProperty Path p) = seq c n ->
            Forall (KindAsStored Meta cd) (LeavesOfProperty Path p) ->
            ∃ v',
              VisitOne RootObject p (WalkPrefix Meta Path) D v
              = ((SlowOverlay Meta cd vs Path p, true), v') /\
              SlowAt Meta cd vs RO (c + n) v') l ->
  ∀ Path D v c n,
    SlowAt Meta cd vs RO c v ->
    omap (StoredIndex Meta cd) (LeavesOf Path l) = seq c n ->
    Forall (KindAsStored Meta cd) (LeavesOf Path l) ->
    ∃ v',
      VisitList RootObject l (WalkPrefix Meta Path) D v
      = ((SlowOverlay Meta cd vs Path <$> l, true), v') /\
      SlowAt Meta cd vs RO (c + n) v'.
Proof.
  induction 1 as [|p l Hp _ IH]; intros Path D v c n Hat Hseq Hk.
  - exists v. simpl in Hseq. destruct n; [| done].
    rewrite Nat.add_0_r. by split.
  - rewrite LeavesOf_cons in Hseq, Hk. rewrite omap_app in Hseq.
    apply seq_split in Hseq as (H1 & H2 & ->).
    apply Forall_app in Hk as [Hk1 Hk2].
    destruct (Hp Path D v c _ Hat H1 Hk1) as (v1 & E1 & Hat1).
    destruct (IH Path D v1 _ _ Hat1 H2 Hk2) as (v2 & E2 & Hat2).
    exists v2. rewrite VisitList_cons, E1, E2.
    split; [done |]. by rewrite Nat.add_assoc.
Qed.

Lemma SlowWalk_one (p : FProperty) :
  ∀ Path D v c n,
    SlowAt Meta cd vs RO c v ->
    omap (StoredIndex Meta cd) (LeavesOfProperty Path p) = seq c n ->
    Forall (KindAsStored Meta cd) (LeavesOfProperty Path p) ->
    ∃ v',
      VisitOne RootObject p (WalkPrefix Meta Path) D v
      = ((SlowOverlay Meta cd vs Path p, true), v') /\
      SlowAt Meta cd vs RO (c + n) v'.
Proof.
  induction p as [name x|name ms IH|name m] using FProperty_ind';
    intros Path D v c n Hat Hseq Hk.
  - apply (SlowWalk_leaf name x Path D v c n Hat Hseq).
    by apply Forall_inv in Hk.
  - rewrite VisitOne_struct. rewrite LeavesOfProperty_struct in Hseq, Hk.
    cbn [VisitProperty RestoreSlowPropertyVisitor_visitor
         IsCustomStructProperty GetNestedPrefix].
    assert (Em : RS_Meta v = Meta) by by destruct Hat as (_ & ? & _).
    rewrite Em, <- WalkPrefix_snoc.
    destruct (SlowWalk_list ms IH (Path ++ [name]) (S D) v c n Hat Hseq Hk)
      as (v' & E & Hat').
    rewrite E. exists v'. split; [| done]. reflexivity.
  - exists v. simpl in Hseq. destruct n; [| done].
    rewrite Nat.add_0_r. by split.
Qed.

Lemma SlowOverlay_leaves (l : list FProperty) :
  ∀ Path,
    LeavesOf Path (SlowOverlay Meta cd vs Path <$> l)
    = (λ lf, (fst lf, default (snd lf)
                        (StoredIndex Meta cd lf ≫= (vs !!.))))
        <$> LeavesOf Path l.
Proof.
  induction l as [|p l IHl]; intros Path; [done |].
  rewrite fmap_cons, !LeavesOf_cons, fmap_app, IHl. f_equal.
  clear IHl. revert Path.
  induction p as [name x|name ms IH|name m] using FProperty_ind';
    intros Path.
  - simpl. unfold StoredIndex. simpl.
    by destruct (_ ≫= _).
  - cbn [SlowOverlay]. rewrite !LeavesOfProperty_struct.
    generalize (Path ++ [name]). intros Q.
    induction IH as [|q ms Hq _ IHms]; [done |].
    cbn [List.map]. rewrite !LeavesOf_cons, fmap_app, Hq. f_equal.
    apply IHms.
  - done.
Qed.

End SlowWalk.

Section SlowPath.

(** X12.  The slow path restores a class to which properties were added.
    When the live class no longer matches the stored definition but
    still meets the stored properties in the order in which they are
    stored, with their kinds, [RestoreObjectProperties] gives every
    live leaf that has a stored property its stored value and leaves
    the other leaves, among them the added ones, as they are. *)
Theorem SlowPath_added_properties (Obj : AActor) (Meta : FSpudClassMetadata)
    (cd : FSpudClassDef) (vs : list PropValue) (Offsets : list N)
    (RO : option RuntimeObjectMap) :
  GetClassDef Meta (GetClassName Obj) = Some cd ->
  KindOf <$> vs = DataType <$> ClassProperties cd ->
  MatchesRuntimeClass cd Meta (ActorProperties Obj) = false ->
  VisitsInStoredOrder Meta cd (ActorProperties Obj) ->
  let Restored :=
    fst (RestoreObjectProperties Obj
           (MkPropertyData Offsets (EncodeValues vs)) Meta RO) in
  Restored
  = SetActorProperties Obj
      (SlowOverlay Meta cd vs [] <$> ActorProperties Obj) /\
  LeavesOf [] (ActorProperties Restored)
  = (λ lf, (fst lf, default (snd lf) (StoredIndex Meta cd lf ≫= (vs !!.))))
      <$> LeavesOf [] (ActorProperties Obj).
Proof.
  intros Hcd Hkinds Hslow [Hseq Hk] Restored.
  assert (E : Restored = SetActorProperties Obj
                (SlowOverlay Meta cd vs [] <$> ActorProperties Obj)).
  { subst Restored. rewrite (RestoreObjectProperties_path _ _ _ _ _ Hcd), Hslow.
    unfold RestoreObjectPropertiesSlow, VisitPersistentProperties.
    simpl PropData.
    destruct (SlowWalk_list (ActorName Obj) Meta cd vs RO
                (ActorProperties Obj)
                (proj2 (Forall_forall _ _)
                   (λ p _, SlowWalk_one (ActorName Obj) Meta cd vs RO Hkinds p))
                [] 0
                (MkSlowVisitor (MkReader (EncodeValues vs) 0 false) cd Meta RO [])
                0 _ ltac:(by repeat split) Hseq Hk) as (v' & Ev & _).
    change (WalkPrefix Meta []) with SPUDDATA_PREFIXID_NONE in Ev.
    by rewrite Ev. }
  split; [exact E |]. rewrite E. simpl. apply SlowOverlay_leaves.
Qed.

End SlowPath.

(* --------------------------------------------------------------------- *)
(** *** The properties on the small world *)
(* --------------------------------------------------------------------- *)

Lemma GetLevelNameForObject_segment_witness :
  ContainsSlash "UEDPIE_0_Keep" = false /\
  GetLevelNameForObject (Some ("/Game/Maps" +:+ String "/" "UEDPIE_0_Keep"))
  = "Keep".
Proof.
  assert (Hs : ContainsSlash "UEDPIE_0_Keep" = false) by reflexivity.
  split; [exact Hs |].
  exact (proj1 (GetLevelNameForObject_segment "/Game/Maps" "UEDPIE_0_Keep" Hs)).
Defined.

Lemma UpdateFromActor_stored_witness :
  (ActorHasAnyFlags (Demo.Door true x01 x02 [x09]) RF_Skipped = false /\
   (ShouldActorBeRespawnedOnRestore (H := Demo.host)
      (Demo.Door true x01 x02 [x09]) = true ->
    SpudGuid (Demo.Door true x01 x02 [x09]) ≠ None)) /\
  ∃ (Offsets : list N) (Custom : list byte),
    ReadObjectData
      (snd (fst (UpdateFromActor (H := Demo.host)
                   (Demo.Door true x01 x02 [x09]) EmptyLevelData)))
      (LevelActorRef "Door_0")
    = Some (MkObjectData
              (WriteCoreActorData (Demo.Door true x01 x02 [x09]) [])
              (MkPropertyData Offsets
                 [x01; x00; x00; x00; x07; x01; x02; x00; x00; x00])
              Custom).
Proof.
  assert (H1 : ActorHasAnyFlags (Demo.Door true x01 x02 [x09]) RF_Skipped
               = false) by reflexivity.
  assert (H2 : ShouldActorBeRespawnedOnRestore (H := Demo.host)
                 (Demo.Door true x01 x02 [x09]) = true ->
               SpudGuid (Demo.Door true x01 x02 [x09]) ≠ None)
    by (intros Hr; vm_compute in Hr; discriminate Hr).
  split; [by split |].
  destruct (UpdateFromActor_stored (H := Demo.host)
              (Demo.Door true x01 x02 [x09]) EmptyLevelData H1 H2)
    as (O & C & Hrec & _).
  exists O, C. exact Hrec.
Defined.

Lemma UpdateFromActor_Obj_level_witness :
  ActorHasAnyFlags (Demo.Door true x01 x02 [x09]) RF_Skipped = false /\
  LevelDataMap
    (snd (fst (UpdateFromActor_Obj (H := Demo.host) (MkSaveData ∅)
                 (Demo.Door true x01 x02 [x09])))) !! "Keep"
  = Some (snd (fst (UpdateFromActor (H := Demo.host)
                      (Demo.Door true x01 x02 [x09])
                      (SetLevelDataName EmptyLevelData "Keep")))).
Proof.
  assert (H1 : ActorHasAnyFlags (Demo.Door true x01 x02 [x09]) RF_Skipped
               = false) by reflexivity.
  split; [exact H1 |].
  exact (proj1 (UpdateFromActor_Obj_level (H := Demo.host) (MkSaveData ∅)
                  (Demo.Door true x01 x02 [x09]) H1)).
Defined.

Lemma DestroyRecordedActors_removes_witness :
  NoDup (ActorNames Demo.Keep) /\
  fst (DestroyRecordedActors ["Door_0"; "Nobody"; "Door_0"] Demo.Keep)
  = SetActors Demo.Keep [].
Proof.
  assert (H1 : NoDup (ActorNames Demo.Keep)).
  { apply (bool_decide_unpack _). vm_compute. exact I. }
  split; [exact H1 |].
  exact (proj1 (DestroyRecordedActors_removes ["Door_0"; "Nobody"; "Door_0"]
                  Demo.Keep H1)).
Defined.

Lemma RestoreActor_without_record_witness :
  (ActorHasAnyFlags Demo.BlankEnemy RF_Skipped = false /\
   StoredActorData (H := Demo.host) Demo.BlankEnemy Demo.KeepData = None) /\
  RestoreActor (H := Demo.host) Demo.BlankEnemy Demo.KeepData None
  = (Demo.BlankEnemy, MissingGuidLog Demo.BlankEnemy).
Proof.
  assert (H1 : ActorHasAnyFlags Demo.BlankEnemy RF_Skipped = false)
    by reflexivity.
  assert (H2 : StoredActorData (H := Demo.host) Demo.BlankEnemy Demo.KeepData
               = None) by reflexivity.
  split; [by split |].
  exact (RestoreActor_without_record (H := Demo.host) Demo.BlankEnemy
           Demo.KeepData None H1 H2).
Defined.

Lemma Destroyed_actor_is_removed_on_restore_witness :
  (bLevelValid Demo.Keep = true /\
   GetLevelNameForObject (OuterMostName (Demo.Door false x00 x00 []))
   = GetLevelName Demo.Keep /\
   LevelDataMap (MkSaveData ∅) !! GetLevelName Demo.Keep = None /\
   NoDup (ActorNames Demo.Keep)) /\
  fst (RestoreLevel (H := Demo.host)
         (UpdateLevelActorDestroyed_Actor (MkSaveData ∅)
            (Demo.Door false x00 x00 []))
         Demo.Keep)
  = SetActors Demo.Keep [].
Proof.
  assert (H1 : bLevelValid Demo.Keep = true) by reflexivity.
  assert (H2 : GetLevelNameForObject
                 (OuterMostName (Demo.Door false x00 x00 []))
               = GetLevelName Demo.Keep) by reflexivity.
  assert (H3 : LevelDataMap (MkSaveData ∅) !! GetLevelName Demo.Keep = None)
    by reflexivity.
  assert (H4 : NoDup (ActorNames Demo.Keep)).
  { apply (bool_decide_unpack _). vm_compute. exact I. }
  split; [by repeat split |].
  exact (proj1 (proj2 (Destroyed_actor_is_removed_on_restore (H := Demo.host)
                         (MkSaveData ∅) Demo.Keep (Demo.Door false x00 x00 [])
                         H1 H2 H3 H4))).
Defined.

Lemma UpdateFromLevel_records_witness :
  NoDup (ActorNames Demo.Keep) /\
  ∃ After,
    LevelDataMap
      (snd (fst (UpdateFromLevel (H := Demo.host) (H0 := Demo2.dataHost)
                   (MkSaveData ∅) Demo.Keep))) !! "Keep" = Some After /\
    ∃ (Offsets : list N) (Custom : list byte),
      ReadObjectData After (LevelActorRef "Door_0")
      = Some (MkObjectData (WriteCoreActorData (Demo.Door false x00 x00 []) [])
                (MkPropertyData Offsets
                   [x00; x00; x00; x00; x07; x00; x00; x00; x00; x00])
                Custom).
Proof.
  assert (H1 : NoDup (ActorNames Demo.Keep)).
  { apply (bool_decide_unpack _). vm_compute. exact I. }
  split; [exact H1 |].
  destruct (UpdateFromLevel_records (H := Demo.host) (H0 := Demo2.dataHost)
              (MkSaveData ∅) Demo.Keep H1) as (After & E1 & _ & _ & R & _).
  exists After. split; [exact E1 |].
  apply (R (Demo.Door false x00 x00 [])); [| reflexivity ..].
  apply list_elem_of_here.
Defined.

Lemma GlobalObject_round_trip_witness :
  (ClassPathName (PreRestoreObject (H := Demo.host) (Demo.Door false x00 x00 []))
   = ClassPathName (Demo.Door true x01 x02 [x09]) /\
   SameLayout (ActorProperties (Demo.Door true x01 x02 [x09]))
     (ActorProperties
        (PreRestoreObject (H := Demo.host) (Demo.Door false x00 x00 []))) /\
   DistinctAddresses (ActorProperties (Demo.Door true x01 x02 [x09])) /\
   StoredDefCompatible (GlobalMetadata EmptyGlobalData)
     (ClassPathName (Demo.Door true x01 x02 [x09]))
     (ActorProperties (Demo.Door true x01 x02 [x09])) /\
   NoStructAfterLastLeaf (ActorProperties (Demo.Door true x01 x02 [x09]))) /\
  ∃ Props : list FProperty,
    fst (RestoreGlobalObject_ID (H := Demo.host) (Demo.Door false x00 x00 [])
           "TheDoor"
           (snd (fst (UpdateFromGlobalObject_ID (H := Demo.host)
                        (Demo.Door true x01 x02 [x09]) "TheDoor"
                        EmptyGlobalData))))
    = SetActorProperties (Demo.Door false x00 x00 []) Props /\
    LeavesOf [] Props
    = LeavesOf [] (ActorProperties (Demo.Door true x01 x02 [x09])).
Proof.
  assert (H1 : ClassPathName
                 (PreRestoreObject (H := Demo.host) (Demo.Door false x00 x00 []))
               = ClassPathName (Demo.Door true x01 x02 [x09])) by reflexivity.
  assert (H2 : SameLayout (ActorProperties (Demo.Door true x01 x02 [x09]))
                 (ActorProperties
                    (PreRestoreObject (H := Demo.host)
                       (Demo.Door false x00 x00 [])))) by reflexivity.
  assert (H3 : DistinctAddresses
                 (ActorProperties (Demo.Door true x01 x02 [x09]))).
  { apply (bool_decide_unpack _). vm_compute. exact I. }
  assert (H4 : StoredDefCompatible (GlobalMetadata EmptyGlobalData)
                 (ClassPathName (Demo.Door true x01 x02 [x09]))
                 (ActorProperties (Demo.Door true x01 x02 [x09]))).
  { intros cd Hcd. vm_compute in Hcd. discriminate Hcd. }
  assert (H5 : NoStructAfterLastLeaf
                 (ActorProperties (Demo.Door true x01 x02 [x09]))).
  { unfold NoStructAfterLastLeaf. simpl. lia. }
  split; [by repeat split |].
  destruct (GlobalObject_round_trip (H := Demo.host)
              (Demo.Door true x01 x02 [x09]) (Demo.Door false x00 x00 [])
              "TheDoor" EmptyGlobalData H1 H2 H3 H4 H5)
    as (Props & Custom & E1 & E2 & _).
  exists Props. split; [exact E1 | exact E2].
Defined.

Lemma Snapshot_then_respawn_witness :
  (ActorHasAnyFlags Demo.Guard RF_Skipped = false /\
   ShouldActorBeRespawnedOnRestore (H := Demo.host) Demo.Guard = true /\
   SpudGuid Demo.Guard ≠ None /\
   (∀ r, SpawnedActors EmptyLevelData !! SnapshotGuid (H := Demo.host) Demo.Guard
         = Some r ->
         Guid r = SnapshotGuid (H := Demo.host) Demo.Guard /\
         ClassName <$> ClassDefinitions (Metadata EmptyLevelData) !! ClassID r
         = Some (GetClassName Demo.Guard))) /\
  ∃ rec,
    SpawnedActors
      (snd (fst (UpdateFromActor (H := Demo.host) Demo.Guard EmptyLevelData)))
      !! (5, 6, 7, 8)%N = Some rec /\
    Guid rec = (5, 6, 7, 8)%N /\
    GetClassNameFromID
      (Metadata
         (snd (fst (UpdateFromActor (H := Demo.host) Demo.Guard
                      EmptyLevelData))))
      (ClassID rec) = "/Game/BP/Enemy.Enemy_C".
Proof.
  assert (H1 : ActorHasAnyFlags Demo.Guard RF_Skipped = false) by reflexivity.
  assert (H2 : ShouldActorBeRespawnedOnRestore (H := Demo.host) Demo.Guard
               = true) by reflexivity.
  assert (H3 : SpudGuid Demo.Guard ≠ None) by discriminate.
  assert (H4 : ∀ r, SpawnedActors EmptyLevelData
                      !! SnapshotGuid (H := Demo.host) Demo.Guard = Some r ->
                    Guid r = SnapshotGuid (H := Demo.host) Demo.Guard /\
                    ClassName <$> ClassDefinitions (Metadata EmptyLevelData)
                                    !! ClassID r
                    = Some (GetClassName Demo.Guard)).
  { intros r Hr. vm_compute in Hr. discriminate Hr. }
  split; [by repeat split |].
  destruct (Snapshot_then_respawn (H := Demo.host) Demo.Guard EmptyLevelData
              H1 H2 H3 H4) as (rec & E1 & E2 & E3 & _).
  exists rec. split; [exact E1 |]. split; [exact E2 | exact E3].
Defined.

Lemma Entry_points_round_trip_witness :
  (ActorHasAnyFlags (Demo.Door true x01 x02 [x09]) RF_Skipped = false /\
   ActorHasAnyFlags Demo2.DoorInGame RF_Skipped = false /\
   GetLevelNameForObject (OuterMostName Demo2.DoorInGame)
   = GetLevelNameForObject (OuterMostName (Demo.Door true x01 x02 [x09])) /\
   SameEntity (H := Demo.host) (Demo.Door true x01 x02 [x09])
     Demo2.DoorInGame /\
   ClassPathName (PreRestoreObject (H := Demo.host) Demo2.DoorInGame)
   = ClassPathName (Demo.Door true x01 x02 [x09]) /\
   SameLayout
     (ActorProperties (SnapshotSubject (H := Demo.host)
                         (Demo.Door true x01 x02 [x09])))
     (ActorProperties (PreRestoreObject (H := Demo.host) Demo2.DoorInGame)) /\
   DistinctAddresses
     (ActorProperties (SnapshotSubject (H := Demo.host)
                         (Demo.Door true x01 x02 [x09]))) /\
   StoredDefCompatible (Metadata (SetLevelDataName EmptyLevelData "Keep"))
     (ClassPathName (Demo.Door true x01 x02 [x09]))
     (ActorProperties (SnapshotSubject (H := Demo.host)
                         (Demo.Door true x01 x02 [x09]))) /\
   NoStructAfterLastLeaf
     (ActorProperties (SnapshotSubject (H := Demo.host)
                         (Demo.Door true x01 x02 [x09])))) /\
  ∃ (Mid : AActor) (Custom : list byte),
    fst (RestoreActor_Actor (H := Demo.host)
           (snd (fst (UpdateFromActor_Obj (H := Demo.host) (MkSaveData ∅)
                        (Demo.Door true x01 x02 [x09]))))
           Demo2.DoorInGame)
    = PostRestoreObject (H := Demo.host) Mid Custom /\
    LeavesOf [] (ActorProperties Mid)
    = LeavesOf [] (ActorProperties (Demo.Door true x01 x02 [x09])) /\
    bHidden Mid = true.
Proof.
  assert (H1 : ActorHasAnyFlags (Demo.Door true x01 x02 [x09]) RF_Skipped
               = false) by reflexivity.
  assert (H2 : ActorHasAnyFlags Demo2.DoorInGame RF_Skipped = false)
    by reflexivity.
  assert (H3 : GetLevelNameForObject (OuterMostName Demo2.DoorInGame)
               = GetLevelNameForObject
                   (OuterMostName (Demo.Door true x01 x02 [x09])))
    by reflexivity.
  assert (H4 : SameEntity (H := Demo.host) (Demo.Door true x01 x02 [x09])
                 Demo2.DoorInGame) by (split; reflexivity).
  assert (H5 : ClassPathName (PreRestoreObject (H := Demo.host) Demo2.DoorInGame)
               = ClassPathName (Demo.Door true x01 x02 [x09])) by reflexivity.
  assert (H6 : SameLayout
                 (ActorProperties (SnapshotSubject (H := Demo.host)
                                     (Demo.Door true x01 x02 [x09])))
                 (ActorProperties (PreRestoreObject (H := Demo.host)
                                     Demo2.DoorInGame))) by reflexivity.
  assert (H7 : DistinctAddresses
                 (ActorProperties (SnapshotSubject (H := Demo.host)
                                     (Demo.Door true x01 x02 [x09])))).
  { apply (bool_decide_unpack _). vm_compute. exact I. }
  assert (H8 : StoredDefCompatible
                 (Metadata
                    (default
                       (SetLevelDataName EmptyLevelData
                          (GetLevelNameForObject
                             (OuterMostName (Demo.Door true x01 x02 [x09]))))
                       (LevelDataMap (MkSaveData ∅)
                          !! GetLevelNameForObject
                               (OuterMostName (Demo.Door true x01 x02 [x09])))))
                 (ClassPathName (Demo.Door true x01 x02 [x09]))
                 (ActorProperties (SnapshotSubject (H := Demo.host)
                                     (Demo.Door true x01 x02 [x09])))).
  { intros cd Hcd. vm_compute in Hcd. discriminate Hcd. }
  assert (H9 : NoStructAfterLastLeaf
                 (ActorProperties (SnapshotSubject (H := Demo.host)
                                     (Demo.Door true x01 x02 [x09])))).
  { unfold NoStructAfterLastLeaf. simpl. lia. }
  split; [exact (conj H1 (conj H2 (conj H3 (conj H4 (conj H5 (conj H6
                  (conj H7 (conj H8 H9)))))))) |].
  destruct (Entry_points_round_trip (H := Demo.host) (MkSaveData ∅)
              (Demo.Door true x01 x02 [x09]) Demo2.DoorInGame
              H1 H2 H3 H4 H5 H6 H7 H8 H9)
    as (Mid & Custom & E1 & E2 & E3 & _).
  exists Mid, Custom. split; [exact E1 |]. split; [exact E2 | exact E3].
Defined.

Lemma RestoreLevelActors_registers_witness :
  (IsPersistentObject (Host := Demo.host) Demo.Guard = true /\
   GuidIsValid
     (GetGuidProperty
        (fst (RestoreActor (H := Demo.host) Demo.Guard Demo.KeepData (Some ∅))))
   = true) /\
  is_Some
    (snd (fst (RestoreLevelActors (H := Demo.host)
                 ([] ++ Demo.Guard :: [Demo.Door false x00 x00 []])
                 Demo.KeepData ∅))
     !! GetGuidProperty
          (fst (RestoreActor (H := Demo.host) Demo.Guard Demo.KeepData
                  (Some ∅)))).
Proof.
  assert (H1 : IsPersistentObject (Host := Demo.host) Demo.Guard = true)
    by reflexivity.
  assert (H2 : GuidIsValid
                 (GetGuidProperty
                    (fst (RestoreActor (H := Demo.host) Demo.Guard
                            Demo.KeepData (Some ∅)))) = true)
    by (vm_compute; reflexivity).
  split; [by split |].
  destruct (RestoreLevelActors_registers (H := Demo.host) []
              [Demo.Door false x00 x00 []] Demo.Guard Demo.KeepData ∅ H1 H2)
    as (t1 & ta & t2 & _ & _ & _ & _ & E).
  exact E.
Defined.

Lemma RestoreActor_class_def_missing_witness :
  (ActorHasAnyFlags Demo2.Gate RF_Skipped = false /\
   is_Some (StoredActorData (H := Demo.host) Demo2.Gate Demo.KeepData) /\
   GetClassDef (Metadata Demo.KeepData) (GetClassName Demo2.Gate) = None) /\
  ActorProperties
    (fst (RestoreActor (H := Demo.host) Demo2.Gate Demo.KeepData None))
  = ActorProperties Demo2.Gate /\
  bHidden (fst (RestoreActor (H := Demo.host) Demo2.Gate Demo.KeepData None))
  = true.
Proof.
  assert (H1 : ActorHasAnyFlags Demo2.Gate RF_Skipped = false) by reflexivity.
  destruct (StoredActorData (H := Demo.host) Demo2.Gate Demo.KeepData)
    as [d|] eqn:H2; [| vm_compute in H2; discriminate H2].
  assert (H3 : GetClassDef (Metadata Demo.KeepData)
                 (GetClassName
                    (fst (RestoreCoreActorData (H := Demo.host)
                            (PreRestoreObject (H := Demo.host) Demo2.Gate)
                            (CoreData d)))) = None).
  { vm_compute in H2. injection H2 as <-. vm_compute. reflexivity. }
  split; [split; [exact H1 | split; [by eexists | reflexivity]] |].
  rewrite (proj1 (RestoreActor_class_def_missing (H := Demo.host) Demo2.Gate
                    Demo.KeepData None d H1 H2 H3)).
  vm_compute in H2. injection H2 as <-. split; reflexivity.
Defined.


Lemma SlowPath_added_properties_witness :
  (GetClassDef (Metadata Demo2.DoorData) (GetClassName Demo2.DoorExtended)
   = Some Demo2.DoorClassDef /\
   KindOf <$> Demo2.DoorValues
   = DataType <$> ClassProperties Demo2.DoorClassDef /\
   MatchesRuntimeClass Demo2.DoorClassDef (Metadata Demo2.DoorData)
     (ActorProperties Demo2.DoorExtended) = false /\
   VisitsInStoredOrder (Metadata Demo2.DoorData) Demo2.DoorClassDef
     (ActorProperties Demo2.DoorExtended) /\
   PropData (Properties (default EmptyObjectData
                           (ReadObjectData Demo2.DoorData
                              (LevelActorRef "Door_0"))))
   = EncodeValues Demo2.DoorValues) /\
  LeavesOf []
    (ActorProperties
       (fst (RestoreObjectProperties Demo2.DoorExtended
               (MkPropertyData [] (EncodeValues Demo2.DoorValues))
               (Metadata Demo2.DoorData) None)))
  = [([], "C", VByte x33);
     ([], "A", VInt (Demo.Word x01));
     (["S"], "X", VByte x07); (["S"], "Y", VBool true);
     (["S"], "A", VBool true);
     (["T"], "A", VInt (Demo.Word x44));
     ([], "B", VInt (Demo.Word x02))].
Proof.
  assert (H1 : GetClassDef (Metadata Demo2.DoorData)
                 (GetClassName Demo2.DoorExtended)
               = Some Demo2.DoorClassDef) by (vm_compute; reflexivity).
  assert (H2 : KindOf <$> Demo2.DoorValues
               = DataType <$> ClassProperties Demo2.DoorClassDef)
    by (vm_compute; reflexivity).
  assert (H3 : MatchesRuntimeClass Demo2.DoorClassDef (Metadata Demo2.DoorData)
                 (ActorProperties Demo2.DoorExtended) = false)
    by (vm_compute; reflexivity).
  assert (H4 : VisitsInStoredOrder (Metadata Demo2.DoorData) Demo2.DoorClassDef
                 (ActorProperties Demo2.DoorExtended)).
  { split; [vm_compute; reflexivity |].
    repeat (apply Forall_cons; split;
            [intros i Hi; vm_compute in Hi;
             first [discriminate Hi | injection Hi as <-; vm_compute; reflexivity]
            |]).
    apply Forall_nil_2. }
  assert (H5 : PropData (Properties (default EmptyObjectData
                           (ReadObjectData Demo2.DoorData
                              (LevelActorRef "Door_0"))))
               = EncodeValues Demo2.DoorValues) by (vm_compute; reflexivity).
  split; [exact (conj H1 (conj H2 (conj H3 (conj H4 H5)))) |].
  rewrite (proj2 (SlowPath_added_properties Demo2.DoorExtended
                    (Metadata Demo2.DoorData) Demo2.DoorClassDef
                    Demo2.DoorValues [] None H1 H2 H3 H4)).
  vm_compute. reflexivity.
Defined.
